(** * Property CRM backend: booking, payment-schedule and lead-assignment handlers

    A shallow embedding of the request handlers of [main.py] over the
    tables declared in [models.py], and the properties of the booking and
    payment-ledger workflow proved about them.

    Conventions of the embedding.
    - Python [float] is the kernel's binary64 [float]; [Optional[x]] is
      [option x]; [datetime] is a count of microseconds (naive local time),
      so that adding [timedelta(days=n)] is integer addition.
    - A table with an integer primary key that the handlers only reach by
      key (users, leads, units, bookings) is a [gmap Z row]; the
      payment_schedules table, which is scanned with [.first()] and summed
      in storage order, is a list of rows.
    - A handler is a computation in the monad [M]: it reads and writes the
      session's view of the tables, may raise a Python exception, and makes
      its writes visible to other requests only at [db_commit].
    - Columns filled in by the database server ([created_at]) and the tables
      no modelled handler touches (projects, documents, interactions) are
      left out.
    - Of what a database engine refuses, the violation of a foreign key is
      modelled. A text longer than its column, a NaN for a column that
      takes no NULL and an integer the driver cannot pass on are not, and
      neither is the refusal of the framework to write NaN or an infinity
      in an answer: the statements about a request that goes through assume
      a request free of them. *)

From Stdlib Require Import ZArith String Ascii Floats.
From stdpp Require Import gmap strings list pretty.

#[local] Set Warnings "-inexact-float,-register-all".
#[local] Open Scope Z_scope.

(** ** Python values *)

Definition datetime : Type := Z.

(** [datetime + timedelta(days=n)] *)
Definition timedelta_days (n : Z) : Z := n * 86400000000.

(** A JSON document: what a handler returns, and the [charges] column.
    [JDatetime] is a datetime the framework serialises in ISO format. *)
Inductive json : Type :=
| JNull
| JBool (b : bool)
| JInt (n : Z)
| JNum (x : float)
| JStr (s : string)
| JDatetime (d : datetime)
| JList (l : list json)
| JObj (fields : list (string * json)).

(** [d[key]] on a JSON object ([None] where Python raises [KeyError]). *)
Definition jfield (key : string) (d : json) : option json :=
  match d with
  | JObj fields => snd <$> List.find (λ kv, String.eqb (fst kv) key) fields
  | _ => None
  end.

(** Truth value of an [Optional[float]]: [None] and zero (of either sign)
    are false, everything else, NaN included, is true. *)
Definition truthy_float (o : option float) : bool :=
  match o with
  | Some x => negb (x =? 0)%float
  | None => false
  end.

(** [o or d] for an [Optional[float]] [o]. *)
Definition float_or (o : option float) (d : float) : float :=
  match o with
  | Some x => if truthy_float o then x else d
  | None => d
  end.

(** Truth value of an [Optional[str]]: [None] and the empty string are false. *)
Definition truthy_str (o : option string) : bool :=
  match o with
  | Some s => negb (String.eqb s "")
  | None => false
  end.

(** [s.replace("Z", "+00:00")] *)
Fixpoint replace_Z (s : string) : string :=
  match s with
  | EmptyString => EmptyString
  | String c s' =>
      if Ascii.eqb c "Z"%char then "+00:00" +:+ replace_Z s'
      else String c (replace_Z s')
  end.

(** [sum(xs)] over floats: left to right, starting from zero. *)
Definition float_sum (xs : list float) : float :=
  fold_left PrimFloat.add xs 0%float.

(** [sum(xs)] as it appears in an answer: with nothing to add it is the
    integer [0] the sum starts from, otherwise a float. In arithmetic and
    in [format_amount] the integer [0] behaves as the float zero. *)
Definition json_sum (xs : list float) : json :=
  match xs with
  | [] => JInt 0
  | _ => JNum (float_sum xs)
  end.

(** ** Fixed-point formatting of floats

    [format(x, ".2f")] and [format(x, ",.0f")] print the exact binary value
    of [x] rounded to the requested number of decimals, ties to even. *)

Definition round_half_even (num den : Z) : Z :=
  let q := num / den in
  let r := num mod den in
  match 2 * r ?= den with
  | Lt => q
  | Gt => q + 1
  | Eq => if Z.even q then q else q + 1
  end.

(** The integer nearest to [m * 2^e * 10^d]. *)
Definition scaled_decimal (d : nat) (m : positive) (e : Z) : Z :=
  let n := Z.pos m * 10 ^ Z.of_nat d in
  if 0 <=? e then n * 2 ^ e else round_half_even n (2 ^ (- e)).

(** Walks the digits from the least significant one and puts a comma
    before every fourth. *)
Fixpoint commas_rev (ds : list ascii) (k : nat) : list ascii :=
  match ds with
  | [] => []
  | c :: ds' =>
      match k with
      | 3%nat => ","%char :: c :: commas_rev ds' 1
      | _ => c :: commas_rev ds' (S k)
      end
  end.

Definition group_thousands (s : string) : string :=
  string_of_list_ascii (rev (commas_rev (rev (list_ascii_of_string s)) 0)).

Fixpoint zeros (k : nat) : string :=
  match k with
  | O => EmptyString
  | S k' => String "0" (zeros k')
  end.

(** [s] with zeros in front up to [d] characters. *)
Definition zero_pad (d : nat) (s : string) : string :=
  zeros (d - String.length s) +:+ s.

Definition render_decimal (grouped : bool) (d : nat) (n : Z) : string :=
  let unit := 10 ^ Z.of_nat d in
  let int_part := pretty (Z.to_N (n / unit)) in
  let int_part := if grouped then group_thousands int_part else int_part in
  match d with
  | O => int_part
  | _ => int_part +:+ "." +:+ zero_pad d (pretty (Z.to_N (n mod unit)))
  end.

Definition sign_prefix (s : bool) : string := if s then "-" else "".

(** [format(x, ".<d>f")], or [format(x, ",.<d>f")] when [grouped]. *)
Definition format_f (grouped : bool) (d : nat) (x : float) : string :=
  match Prim2SF x with
  | S754_nan => "nan"
  | S754_infinity s => sign_prefix s +:+ "inf"
  | S754_zero s => sign_prefix s +:+ render_decimal grouped d 0
  | S754_finite s m e =>
      sign_prefix s +:+ render_decimal grouped d (scaled_decimal d m e)
  end.

(** main.py, [format_amount]. *)
Definition format_amount (amount : float) : string :=
  if (10000000 <=? amount)%float then
    "₹" +:+ format_f false 2 (amount / 10000000)%float +:+ " Cr"
  else if (100000 <=? amount)%float then
    "₹" +:+ format_f false 2 (amount / 100000)%float +:+ " L"
  else
    "₹" +:+ format_f true 0 amount.

(** ** Tables (models.py)

    For the tables kept as maps the primary-key column [id] is the key of
    the map and is not repeated in the row. *)

Module User.
Record t : Type := mk {
  name : string;
  email : option string;
  phone : string;
  role : string;
  password : string;
  active_leads_count : Z;
  capacity : Z;
  avatar : option string;
  is_active : bool
}.

Definition set_active_leads_count (v : Z) (u : t) : t :=
  mk (name u) (email u) (phone u) (role u) (password u) v
     (capacity u) (avatar u) (is_active u).
End User.

Module Lead.
Record t : Type := mk {
  name : string;
  phone : string;
  email : option string;
  budget : option string;
  source : string;
  status : string;
  owner_id : option Z;
  project_id : option Z;
  next_followup : option datetime;
  last_contact : option datetime
}.

Definition set_status (v : string) (l : t) : t :=
  mk (name l) (phone l) (email l) (budget l) (source l) v
     (owner_id l) (project_id l) (next_followup l) (last_contact l).

Definition set_owner_id (v : option Z) (l : t) : t :=
  mk (name l) (phone l) (email l) (budget l) (source l) (status l)
     v (project_id l) (next_followup l) (last_contact l).

Definition set_next_followup (v : option datetime) (l : t) : t :=
  mk (name l) (phone l) (email l) (budget l) (source l) (status l)
     (owner_id l) (project_id l) v (last_contact l).

Definition set_last_contact (v : option datetime) (l : t) : t :=
  mk (name l) (phone l) (email l) (budget l) (source l) (status l)
     (owner_id l) (project_id l) (next_followup l) v.
End Lead.

Module Unit.
Record t : Type := mk {
  project_id : Z;
  tower : option string;
  floor : option Z;
  number : string;
  status : string;
  carpet_area : option float;
  rate_per_sqft : option float;
  booking_id : option Z
}.

Definition set_status (v : string) (u : t) : t :=
  mk (project_id u) (tower u) (floor u) (number u) v
     (carpet_area u) (rate_per_sqft u) (booking_id u).

Definition set_booking_id (v : option Z) (u : t) : t :=
  mk (project_id u) (tower u) (floor u) (number u) (status u)
     (carpet_area u) (rate_per_sqft u) v.
End Unit.

Module Booking.
Record t : Type := mk {
  lead_id : Z;
  project_id : Z;
  unit_id : Z;
  unit_number : string;
  deal_amount : float;
  base_cost : float;
  charges : list json;
  parking_type : string;
  applicant_name : string;
  applicant_phone : string;
  applicant_email : option string;
  applicant_pan : option string;
  applicant_aadhar : option string;
  applicant_address : option string;
  applicant_occupation : option string;
  co_applicant_name : option string;
  co_applicant_phone : option string;
  co_applicant_pan : option string;
  co_applicant_aadhar : option string;
  payment_mode : string;
  payment_bank : option string;
  payment_ref : option string;
  payment_date : option datetime;
  booking_amount : option float;
  status : string;
  remarks : option string;
  agree_terms : bool;
  created_by : Z
}.

Definition set_status (v : string) (b : t) : t :=
  mk (lead_id b) (project_id b) (unit_id b) (unit_number b)
     (deal_amount b) (base_cost b) (charges b) (parking_type b)
     (applicant_name b) (applicant_phone b) (applicant_email b)
     (applicant_pan b) (applicant_aadhar b) (applicant_address b)
     (applicant_occupation b) (co_applicant_name b) (co_applicant_phone b)
     (co_applicant_pan b) (co_applicant_aadhar b) (payment_mode b)
     (payment_bank b) (payment_ref b) (payment_date b) (booking_amount b)
     v (remarks b) (agree_terms b) (created_by b).
End Booking.

Module PaymentSchedule.
Record t : Type := mk {
  id : Z;
  booking_id : Z;
  milestone : string;
  due_date : option datetime;
  amount : float;
  payer : string;
  status : string;
  payment_date : option datetime;
  payment_ref : option string
}.

Definition set_amount (v : float) (s : t) : t :=
  mk (id s) (booking_id s) (milestone s) (due_date s) v (payer s)
     (status s) (payment_date s) (payment_ref s).

Definition set_status (v : string) (s : t) : t :=
  mk (id s) (booking_id s) (milestone s) (due_date s) (amount s) (payer s)
     v (payment_date s) (payment_ref s).

Definition set_payment_date (v : option datetime) (s : t) : t :=
  mk (id s) (booking_id s) (milestone s) (due_date s) (amount s) (payer s)
     (status s) v (payment_ref s).

Definition set_payment_ref (v : option string) (s : t) : t :=
  mk (id s) (booking_id s) (milestone s) (due_date s) (amount s) (payer s)
     (status s) (payment_date s) v.
End PaymentSchedule.

(** ** Request bodies (the pydantic models of main.py) *)

Module BookingCreate.
Record t : Type := mk {
  lead_id : Z;
  project_id : Z;
  unit_id : Z;
  unit_number : string;
  deal_amount : float;
  base_cost : float;
  charges : list json;
  parking_type : string;
  applicant_name : string;
  applicant_phone : string;
  applicant_email : option string;
  applicant_pan : option string;
  applicant_aadhar : option string;
  applicant_address : option string;
  applicant_occupation : option string;
  co_applicant_name : option string;
  co_applicant_phone : option string;
  co_applicant_pan : option string;
  co_applicant_aadhar : option string;
  payment_mode : string;
  payment_bank : option string;
  payment_ref : option string;
  payment_date : option string;
  booking_amount : option float;
  remarks : option string;
  agree_terms : bool
}.
End BookingCreate.

Module PaymentRecord.
Record t : Type := mk {
  booking_id : Z;
  milestone : string;
  amount : option float;
  payment_ref : option string;
  payment_date : option string;
  payer : string
}.
End PaymentRecord.

Module AssignLeadRequest.
Record t : Type := mk { user_id : Z }.
End AssignLeadRequest.

(** ** The database *)

Record Tables : Type := mkTables {
  users : gmap Z User.t;
  leads : gmap Z Lead.t;
  units : gmap Z Unit.t;
  bookings : gmap Z Booking.t;
  payment_schedules : list PaymentSchedule.t
}.

Definition with_users (f : gmap Z User.t → gmap Z User.t) (t : Tables) : Tables :=
  mkTables (f (users t)) (leads t) (units t) (bookings t) (payment_schedules t).

Definition with_leads (f : gmap Z Lead.t → gmap Z Lead.t) (t : Tables) : Tables :=
  mkTables (users t) (f (leads t)) (units t) (bookings t) (payment_schedules t).

Definition with_units (f : gmap Z Unit.t → gmap Z Unit.t) (t : Tables) : Tables :=
  mkTables (users t) (leads t) (f (units t)) (bookings t) (payment_schedules t).

Definition with_bookings (f : gmap Z Booking.t → gmap Z Booking.t) (t : Tables) : Tables :=
  mkTables (users t) (leads t) (units t) (f (bookings t)) (payment_schedules t).

Definition with_payment_schedules
    (f : list PaymentSchedule.t → list PaymentSchedule.t) (t : Tables) : Tables :=
  mkTables (users t) (leads t) (units t) (bookings t) (f (payment_schedules t)).

(** The key an autoincrement column hands to the next inserted row: one
    past the largest key in use. *)
Definition next_id {A : Type} (m : gmap Z A) : Z :=
  1 + map_fold (λ k _ acc, Z.max k acc) 0 m.

Definition next_schedule_id (rows : list PaymentSchedule.t) : Z :=
  1 + foldr (λ s acc, Z.max (PaymentSchedule.id s) acc) 0 rows.

Definition has_key {A : Type} (m : gmap Z A) (k : Z) : bool :=
  match m !! k with
  | Some _ => true
  | None => false
  end.

(** ** Exceptions, the environment and the handler monad *)

Inductive exn : Type :=
| HTTPException (status_code : Z) (detail : string)
| ValueError (msg : string)
| IntegrityError (msg : string).

(** [str(e)]; for the database driver's error the text stands for the
    driver's own message. *)
Definition str_exn (e : exn) : string :=
  match e with
  | HTTPException c d => pretty c +:+ ": " +:+ d
  | ValueError m => m
  | IntegrityError m => m
  end.

(** What a request reads from outside the database.
    - [clock n] is the value of the [n]-th call of [datetime.now()] made
      while serving the request.
    - [fromisoformat s] is [datetime.fromisoformat(s)], [None] where it
      raises [ValueError].
    - [repr s] is Python's [repr] of the string [s], which the message of
      that [ValueError] quotes.
    - [foreign_keys] tells whether the engine behind [DATABASE_URL] checks
      the [ForeignKey] constraints of models.py on insertion. PostgreSQL,
      the default of database.py, does; SQLite with its default settings
      does not. *)
Record Env : Type := mkEnv {
  clock : nat → datetime;
  fromisoformat : string → option datetime;
  repr : string → string;
  foreign_keys : bool
}.

(** The state a handler runs in: the committed tables every session sees,
    this session's own view, the schedule rows handed to [db.add] and not
    yet inserted (they receive their [id] at the flush), the number of
    clock readings made so far, and the log of every state of the tables
    this request has made visible to other sessions, oldest first. *)
Record World : Type := mkWorld {
  committed : Tables;
  session : Tables;
  pending : list (Z → PaymentSchedule.t);
  ticks : nat;
  published : list Tables
}.

Inductive outcome (A : Type) : Type :=
| Returned (a : A)
| Raised (e : exn).
Arguments Returned {A} a.
Arguments Raised {A} e.

Definition M (A : Type) : Type := World → outcome A * World.

#[global] Instance M_ret : MRet M := λ A a w, (Returned a, w).

#[global] Instance M_bind : MBind M := λ A B k m w,
  match m w with
  | (Returned a, w') => k a w'
  | (Raised e, w') => (Raised e, w')
  end.

Definition raise {A : Type} (e : exn) : M A := λ w, (Raised e, w).

(** [try: body  except Exception as e: handler(e)] *)
Definition try_except {A : Type} (body : M A) (handler : exn → M A) : M A :=
  λ w,
    match body w with
    | (Raised e, w') => handler e w'
    | r => r
    end.

Definition modify_session (f : Tables → Tables) : M unit :=
  λ w, (Returned tt,
        mkWorld (committed w) (f (session w)) (pending w) (ticks w) (published w)).

Fixpoint for_each {A : Type} (xs : list A) (body : A → M unit) : M unit :=
  match xs with
  | [] => mret tt
  | x :: xs' => body x;; for_each xs' body
  end.

(** Inserts the pending schedule rows in the order they were added. Under
    foreign-key checking a row whose [booking_id] names no booking is
    refused ([payment_schedules.booking_id] references [bookings.id]). *)
Fixpoint flush_schedules (fk : bool) (ps : list (Z → PaymentSchedule.t))
    (t : Tables) : exn + Tables :=
  match ps with
  | [] => inr t
  | p :: ps' =>
      let row := p (next_schedule_id (payment_schedules t)) in
      if fk && negb (has_key (bookings t) (PaymentSchedule.booking_id row)) then
        inl (IntegrityError "payment_schedules.booking_id is not present in table bookings")
      else
        flush_schedules fk ps' (with_payment_schedules (λ rows, rows ++ [row]) t)
  end.

Section Primitives.
Variable env : Env.

(** [datetime.now()] *)
Definition datetime_now : M datetime :=
  λ w, (Returned (clock env (ticks w)),
        mkWorld (committed w) (session w) (pending w) (S (ticks w)) (published w)).

(** [datetime.fromisoformat(s)] *)
Definition datetime_fromisoformat (s : string) : M datetime :=
  match fromisoformat env s with
  | Some d => mret d
  | None => raise (ValueError ("Invalid isoformat string: " +:+ repr env s))
  end.

(** [db.query(models.X).filter(models.X.id == key).first()] *)
Definition query_user_first (key : Z) : M (option User.t) :=
  λ w, (Returned (users (session w) !! key), w).

Definition query_lead_first (key : Z) : M (option Lead.t) :=
  λ w, (Returned (leads (session w) !! key), w).

Definition query_unit_first (key : Z) : M (option Unit.t) :=
  λ w, (Returned (units (session w) !! key), w).

Definition query_booking_first (key : Z) : M (option Booking.t) :=
  λ w, (Returned (bookings (session w) !! key), w).

(** The first row, in storage order, with the given booking id and
    milestone, together with its position. *)
Definition schedule_matches (booking_id : Z) (milestone : string)
    (s : PaymentSchedule.t) : bool :=
  Z.eqb (PaymentSchedule.booking_id s) booking_id
  && String.eqb (PaymentSchedule.milestone s) milestone.

Fixpoint find_schedule (booking_id : Z) (milestone : string)
    (rows : list PaymentSchedule.t) (i : nat) : option (nat * PaymentSchedule.t) :=
  match rows with
  | [] => None
  | s :: rows' =>
      if schedule_matches booking_id milestone s then Some (i, s)
      else find_schedule booking_id milestone rows' (S i)
  end.

Definition query_schedule_first (booking_id : Z) (milestone : string)
    : M (option (nat * PaymentSchedule.t)) :=
  λ w, (Returned (find_schedule booking_id milestone
                    (payment_schedules (session w)) 0), w).

(** [db.query(models.PaymentSchedule).filter(booking_id == key).all()] *)
Definition schedules_of (booking_id : Z) (rows : list PaymentSchedule.t)
    : list PaymentSchedule.t :=
  List.filter (λ s, Z.eqb (PaymentSchedule.booking_id s) booking_id) rows.

Definition query_schedules_all (booking_id : Z) : M (list PaymentSchedule.t) :=
  λ w, (Returned (schedules_of booking_id (payment_schedules (session w))), w).

(** Attribute assignment on a loaded row: [row.attr = v]. The row is
    named by the key (or position) it was loaded with. *)
Definition setattr_user (key : Z) (f : User.t → User.t) : M unit :=
  modify_session (with_users (alter f key)).

Definition setattr_lead (key : Z) (f : Lead.t → Lead.t) : M unit :=
  modify_session (with_leads (alter f key)).

Definition setattr_unit (key : Z) (f : Unit.t → Unit.t) : M unit :=
  modify_session (with_units (alter f key)).

Definition setattr_booking (key : Z) (f : Booking.t → Booking.t) : M unit :=
  modify_session (with_bookings (alter f key)).

Definition setattr_schedule (pos : nat) (f : PaymentSchedule.t → PaymentSchedule.t)
    : M unit :=
  modify_session (with_payment_schedules (alter f pos)).

(** [db.add(new_booking); db.flush()]: the INSERT runs at once and
    returns the new key. Under foreign-key checking it is refused unless
    [lead_id] names a lead and [created_by] names a user
    ([bookings.lead_id] references [leads.id], [bookings.created_by]
    references [users.id]; [unit_id] and [project_id] are plain integer
    columns). *)
Definition db_add_flush_booking (b : Booking.t) : M Z :=
  λ w,
    let t := session w in
    if foreign_keys env
       && negb (has_key (leads t) (Booking.lead_id b)
                && has_key (users t) (Booking.created_by b)) then
      (Raised (IntegrityError "insert on table bookings violates a foreign key constraint"), w)
    else
      let key := next_id (bookings t) in
      (Returned key,
       mkWorld (committed w) (with_bookings (insert key b) t) (pending w) (ticks w)
         (published w)).

(** [db.add(schedule)] *)
Definition db_add_schedule (s : Z → PaymentSchedule.t) : M unit :=
  λ w, (Returned tt,
        mkWorld (committed w) (session w) (pending w ++ [s]) (ticks w) (published w)).

(** [db.commit()]: flush what is pending, then publish the session's view. *)
Definition db_commit : M unit :=
  λ w,
    match flush_schedules (foreign_keys env) (pending w) (session w) with
    | inl e => (Raised e, w)
    | inr t => (Returned tt, mkWorld t t [] (ticks w) (published w ++ [t]))
    end.

(** [db.rollback()]: forget everything since the last commit. *)
Definition db_rollback : M unit :=
  λ w, (Returned tt, mkWorld (committed w) (committed w) [] (ticks w) (published w)).
End Primitives.

(** Serving one request: [get_db] opens a fresh session on the committed
    tables, the handler runs, and closing the session drops whatever was
    not committed. The result is what the client gets and what later
    requests find in the database. *)
Definition fresh_session (db : Tables) : World := mkWorld db db [] 0%nat [].

Definition run_request {A : Type} (handler : M A) (db : Tables) : outcome A * Tables :=
  let '(r, w) := handler (fresh_session db) in (r, committed w).

(** The states of the database other sessions could see while the request
    was served, after the one it started from. *)
Definition publications {A : Type} (handler : M A) (db : Tables) : list Tables :=
  published (snd (handler (fresh_session db))).

(** ** The handlers (main.py) *)

(** One entry of the [schedules] list built by [create_booking]. *)
Module ScheduleData.
Record t : Type := mk {
  milestone : string;
  amount : float;
  payer : string;
  status : string;
  due_date : datetime
}.
End ScheduleData.

Section Handlers.
Variable env : Env.

(** [POST /api/leads/{lead_id}/assign] *)
Definition assign_lead (lead_id : Z) (assign_data : AssignLeadRequest.t) : M json :=
  lead ← query_lead_first lead_id;
  match lead with
  | None => raise (HTTPException 404 "Lead not found")
  | Some _ =>
      let user_id := AssignLeadRequest.user_id assign_data in
      user ← query_user_first user_id;
      match user with
      | None => raise (HTTPException 404 "User not found")
      | Some user =>
          if User.active_leads_count user >=? User.capacity user then
            raise (HTTPException 400 "User has reached capacity")
          else
            setattr_lead lead_id (Lead.set_owner_id (Some user_id));;
            setattr_lead lead_id (Lead.set_status "IN_PROGRESS");;
            now ← datetime_now env;
            setattr_lead lead_id (Lead.set_last_contact (Some now));;
            setattr_user user_id
              (λ u, User.set_active_leads_count (User.active_leads_count u + 1) u);;
            db_commit env;;
            mret (JObj [("success", JBool true); ("message", JStr "Lead assigned")])
      end
  end.

(** The [models.Booking(...)] constructor call of [create_booking]. *)
Definition new_booking_row (booking_data : BookingCreate.t)
    (payment_date : option datetime) : Booking.t :=
  Booking.mk
    (BookingCreate.lead_id booking_data)
    (BookingCreate.project_id booking_data)
    (BookingCreate.unit_id booking_data)
    (BookingCreate.unit_number booking_data)
    (BookingCreate.deal_amount booking_data)
    (BookingCreate.base_cost booking_data)
    (BookingCreate.charges booking_data)
    (BookingCreate.parking_type booking_data)
    (BookingCreate.applicant_name booking_data)
    (BookingCreate.applicant_phone booking_data)
    (BookingCreate.applicant_email booking_data)
    (BookingCreate.applicant_pan booking_data)
    (BookingCreate.applicant_aadhar booking_data)
    (BookingCreate.applicant_address booking_data)
    (BookingCreate.applicant_occupation booking_data)
    (BookingCreate.co_applicant_name booking_data)
    (BookingCreate.co_applicant_phone booking_data)
    (BookingCreate.co_applicant_pan booking_data)
    (BookingCreate.co_applicant_aadhar booking_data)
    (BookingCreate.payment_mode booking_data)
    (BookingCreate.payment_bank booking_data)
    (BookingCreate.payment_ref booking_data)
    payment_date
    (BookingCreate.booking_amount booking_data)
    "PENDING"
    (BookingCreate.remarks booking_data)
    (BookingCreate.agree_terms booking_data)
    1.

(** The [schedules] list of [create_booking]; [t0] to [t4] are the five
    readings of the clock made while the list is built, in order. *)
Definition schedule_template (booking_data : BookingCreate.t)
    (t0 t1 t2 t3 t4 : datetime) : list ScheduleData.t :=
  let deal_amount := BookingCreate.deal_amount booking_data in
  let booking_amount := BookingCreate.booking_amount booking_data in
  [ ScheduleData.mk "Booking Token"
      (float_or booking_amount (deal_amount * 0.10)%float)
      "Customer"
      (if truthy_float booking_amount then "Paid" else "Pending")
      t0;
    ScheduleData.mk "Allotment" (deal_amount * 0.25)%float
      "Customer" "Pending" (t1 + timedelta_days 30);
    ScheduleData.mk "Agreement Signing" (deal_amount * 0.10)%float
      "Customer" "Pending" (t2 + timedelta_days 45);
    ScheduleData.mk "Bank Disbursement" (deal_amount * 0.60)%float
      "Bank Loan" "Pending" (t3 + timedelta_days 60);
    ScheduleData.mk "Possession" (deal_amount * 0.05)%float
      "Customer" "Pending" (t4 + timedelta_days 180) ].

(** The [models.PaymentSchedule(...)] call in the loop of
    [create_booking]; the row gets its [id] when it is inserted. *)
Definition schedule_row (booking_id : Z) (schedule_data : ScheduleData.t)
    (id : Z) : PaymentSchedule.t :=
  PaymentSchedule.mk id booking_id
    (ScheduleData.milestone schedule_data)
    (Some (ScheduleData.due_date schedule_data))
    (ScheduleData.amount schedule_data)
    (ScheduleData.payer schedule_data)
    (ScheduleData.status schedule_data)
    None None.

(** [POST /api/booking] *)
Definition create_booking (booking_data : BookingCreate.t) : M json :=
  try_except
    (payment_date ←
       (if truthy_str (BookingCreate.payment_date booking_data) then
          try_except
            (d ← datetime_fromisoformat env
                   (replace_Z (default "" (BookingCreate.payment_date booking_data)));
             mret (Some d))
            (λ _, d ← datetime_now env; mret (Some d))
        else mret None);
     new_booking_id ← db_add_flush_booking env (new_booking_row booking_data payment_date);
     unit ← query_unit_first (BookingCreate.unit_id booking_data);
     match unit with
     | Some _ =>
         setattr_unit (BookingCreate.unit_id booking_data) (Unit.set_status "Blocked");;
         setattr_unit (BookingCreate.unit_id booking_data)
           (Unit.set_booking_id (Some new_booking_id))
     | None => mret tt
     end;;
     lead ← query_lead_first (BookingCreate.lead_id booking_data);
     match lead with
     | Some _ =>
         setattr_lead (BookingCreate.lead_id booking_data) (Lead.set_status "BOOKED");;
         setattr_lead (BookingCreate.lead_id booking_data) (Lead.set_next_followup None)
     | None => mret tt
     end;;
     t0 ← datetime_now env;
     t1 ← datetime_now env;
     t2 ← datetime_now env;
     t3 ← datetime_now env;
     t4 ← datetime_now env;
     for_each (schedule_template booking_data t0 t1 t2 t3 t4)
       (λ schedule_data, db_add_schedule (schedule_row new_booking_id schedule_data));;
     db_commit env;;
     mret (JObj [("success", JBool true);
                 ("id", JInt new_booking_id);
                 ("message", JStr "Booking created successfully");
                 ("booking",
                  JObj [("id", JInt new_booking_id);
                        ("unit_number", JStr (BookingCreate.unit_number booking_data));
                        ("status", JStr "PENDING")])]))
    (λ e,
       db_rollback;;
       raise (HTTPException 500 ("Booking creation failed: " +:+ str_exn e))).

(** [PATCH /api/booking/{booking_id}/confirm] *)
Definition confirm_booking (booking_id : Z) : M json :=
  booking ← query_booking_first booking_id;
  match booking with
  | None => raise (HTTPException 404 "Booking not found")
  | Some booking =>
      if negb (String.eqb (Booking.status booking) "PENDING") then
        raise (HTTPException 400 "Booking is not in pending state")
      else
        setattr_booking booking_id (Booking.set_status "CONFIRMED");;
        unit ← query_unit_first (Booking.unit_id booking);
        match unit with
        | Some _ => setattr_unit (Booking.unit_id booking) (Unit.set_status "Booked")
        | None => mret tt
        end;;
        db_commit env;;
        mret (JObj [("success", JBool true); ("message", JStr "Booking confirmed")])
  end.

(** [PATCH /api/booking/{booking_id}/cancel] *)
Definition cancel_booking (booking_id : Z) : M json :=
  booking ← query_booking_first booking_id;
  match booking with
  | None => raise (HTTPException 404 "Booking not found")
  | Some booking =>
      setattr_booking booking_id (Booking.set_status "CANCELLED");;
      unit ← query_unit_first (Booking.unit_id booking);
      match unit with
      | Some _ =>
          setattr_unit (Booking.unit_id booking) (Unit.set_status "Available");;
          setattr_unit (Booking.unit_id booking) (Unit.set_booking_id None)
      | None => mret tt
      end;;
      lead ← query_lead_first (Booking.lead_id booking);
      match lead with
      | Some _ => setattr_lead (Booking.lead_id booking) (Lead.set_status "NEGOTIATION")
      | None => mret tt
      end;;
      db_commit env;;
      mret (JObj [("success", JBool true); ("message", JStr "Booking cancelled")])
  end.

(** [datetime.fromisoformat(d) if d else datetime.now()] *)
Definition payment_date_or_now (payment_date : option string) : M datetime :=
  if truthy_str payment_date then
    datetime_fromisoformat env (default "" payment_date)
  else datetime_now env.

(** [POST /api/finance/payment] *)
Definition record_payment (payment_data : PaymentRecord.t) : M json :=
  try_except
    (schedule ← query_schedule_first (PaymentRecord.booking_id payment_data)
                  (PaymentRecord.milestone payment_data);
     match schedule with
     | None =>
         paid_on ← payment_date_or_now (PaymentRecord.payment_date payment_data);
         db_add_schedule
           (λ id, PaymentSchedule.mk id
                    (PaymentRecord.booking_id payment_data)
                    (PaymentRecord.milestone payment_data)
                    None
                    (float_or (PaymentRecord.amount payment_data) 0)
                    (PaymentRecord.payer payment_data)
                    "Paid"
                    (Some paid_on)
                    (PaymentRecord.payment_ref payment_data))
     | Some (pos, _) =>
         setattr_schedule pos (PaymentSchedule.set_status "Paid");;
         paid_on ← payment_date_or_now (PaymentRecord.payment_date payment_data);
         setattr_schedule pos (PaymentSchedule.set_payment_date (Some paid_on));;
         setattr_schedule pos
           (PaymentSchedule.set_payment_ref (PaymentRecord.payment_ref payment_data));;
         if truthy_float (PaymentRecord.amount payment_data) then
           setattr_schedule pos
             (PaymentSchedule.set_amount
                (default 0%float (PaymentRecord.amount payment_data)))
         else mret tt
     end;;
     db_commit env;;
     mret (JObj [("success", JBool true);
                 ("message",
                  JStr ("Payment recorded for "
                        +:+ PaymentRecord.milestone payment_data))]))
    (λ e,
       db_rollback;;
       raise (HTTPException 500 ("Failed to record payment: " +:+ str_exn e))).

(** [POST /api/finance/schedule/{booking_id}/pay] *)
Definition mark_payment_paid (booking_id : Z) (milestone : string)
    (payment_ref : option string) : M json :=
  schedule ← query_schedule_first booking_id milestone;
  match schedule with
  | None => raise (HTTPException 404 "Payment schedule not found")
  | Some (pos, schedule) =>
      if String.eqb (PaymentSchedule.status schedule) "Paid" then
        raise (HTTPException 400 "Payment already marked as paid")
      else
        setattr_schedule pos (PaymentSchedule.set_status "Paid");;
        now ← datetime_now env;
        setattr_schedule pos (PaymentSchedule.set_payment_date (Some now));;
        setattr_schedule pos (PaymentSchedule.set_payment_ref payment_ref);;
        db_commit env;;
        mret (JObj [("success", JBool true);
                    ("status", JStr "Paid");
                    ("message",
                     JStr ("Payment for " +:+ milestone +:+ " marked as paid"))])
  end.

(** [sum(s.amount for s in schedules)] *)
Definition total_of (schedules : list PaymentSchedule.t) : float :=
  float_sum (PaymentSchedule.amount <$> schedules).

(** [sum(s.amount for s in schedules if s.status == "Paid")] *)
Definition is_paid (s : PaymentSchedule.t) : bool :=
  String.eqb (PaymentSchedule.status s) "Paid".

Definition paid_of (schedules : list PaymentSchedule.t) : float :=
  float_sum (PaymentSchedule.amount <$> List.filter is_paid schedules).

Definition paid_json (schedules : list PaymentSchedule.t) : json :=
  json_sum (PaymentSchedule.amount <$> List.filter is_paid schedules).

(** [GET /api/finance/ledger-status/{booking_id}] *)
Definition get_ledger_status (booking_id : Z) : M json :=
  schedules ← query_schedules_all booking_id;
  match schedules with
  | [] =>
      mret (JObj [("status", JStr "No Schedule");
                  ("message", JStr "No payment schedule found")])
  | _ =>
      let total_amount := total_of schedules in
      let paid_amount := paid_of schedules in
      let pending_amount := (total_amount - paid_amount)%float in
      if (0 <? pending_amount)%float then
        mret (JObj [("status", JStr "Ledger Active");
                    ("message",
                     JStr (format_amount pending_amount +:+ " pending payment"));
                    ("total_amount", JNum total_amount);
                    ("formatted_total", JStr (format_amount total_amount));
                    ("paid_amount", paid_json schedules);
                    ("formatted_paid", JStr (format_amount paid_amount));
                    ("pending_amount", JNum pending_amount);
                    ("formatted_pending", JStr (format_amount pending_amount))])
      else
        mret (JObj [("status", JStr "Ledger Closed");
                    ("message", JStr "All payments received");
                    ("total_amount", JNum total_amount);
                    ("formatted_total", JStr (format_amount total_amount));
                    ("paid_amount", paid_json schedules);
                    ("formatted_paid", JStr (format_amount paid_amount));
                    ("pending_amount", JInt 0);
                    ("formatted_pending", JStr "₹0")])
  end.

(** [sum(s.amount for s in schedules if s.status == st and s.payer == who)] *)
Definition breakdown_of (st who : string) (schedules : list PaymentSchedule.t) : json :=
  json_sum
    (PaymentSchedule.amount
       <$> List.filter
             (λ s, String.eqb (PaymentSchedule.status s) st
                   && String.eqb (PaymentSchedule.payer s) who)
             schedules).

(** [max([s.payment_date for s in schedules if s.payment_date], default=None)] *)
Definition last_payment_date (schedules : list PaymentSchedule.t) : option datetime :=
  foldr (λ s acc,
           match PaymentSchedule.payment_date s, acc with
           | Some d, Some d' => Some (Z.max d d')
           | Some d, None => Some d
           | None, _ => acc
           end)
        None schedules.

(** [GET /api/finance/summary/{booking_id}] *)
Definition get_finance_summary (booking_id : Z) : M json :=
  booking ← query_booking_first booking_id;
  match booking with
  | None => raise (HTTPException 404 "Booking not found")
  | Some booking =>
      schedules ← query_schedules_all booking_id;
      let total_amount := Booking.deal_amount booking in
      let paid_amount := paid_of schedules in
      let pending_amount := (total_amount - paid_amount)%float in
      mret (JObj [("booking_id", JInt booking_id);
                  ("unit_number", JStr (Booking.unit_number booking));
                  ("applicant_name", JStr (Booking.applicant_name booking));
                  ("deal_amount", JNum total_amount);
                  ("formatted_deal_amount", JStr (format_amount total_amount));
                  ("paid_amount", paid_json schedules);
                  ("formatted_paid", JStr (format_amount paid_amount));
                  ("pending_amount", JNum pending_amount);
                  ("formatted_pending", JStr (format_amount pending_amount));
                  ("payment_breakdown",
                   JObj [("customer_paid", breakdown_of "Paid" "Customer" schedules);
                         ("bank_paid", breakdown_of "Paid" "Bank Loan" schedules);
                         ("customer_pending",
                          breakdown_of "Pending" "Customer" schedules);
                         ("bank_pending",
                          breakdown_of "Pending" "Bank Loan" schedules)]);
                  ("status",
                   JStr (if (0 <? pending_amount)%float then "Ledger Active"
                         else "Ledger Closed"));
                  ("last_payment_date",
                   match last_payment_date schedules with
                   | Some d => JDatetime d
                   | None => JNull
                   end)])
  end.
End Handlers.

(** ** Example data

    A small database, an environment and a few requests, used to run the
    handlers on concrete inputs. *)

Definition digit_of (c : ascii) : option Z :=
  let n := Z.of_nat (nat_of_ascii c) in
  if (48 <=? n) && (n <=? 57) then Some (n - 48) else None.

Fixpoint number_of (cs : list ascii) (acc : Z) : option Z :=
  match cs with
  | [] => Some acc
  | c :: cs' =>
      match digit_of c with
      | Some d => number_of cs' (10 * acc + d)
      | None => None
      end
  end.

Definition leap_year (y : Z) : bool :=
  ((y mod 4 =? 0) && negb (y mod 100 =? 0)) || (y mod 400 =? 0).

Definition days_in_month (y m : Z) : Z :=
  if m =? 2 then (if leap_year y then 29 else 28)
  else if (m =? 4) || (m =? 6) || (m =? 9) || (m =? 11) then 30
  else 31.

(** Days from 1970-01-01 to the given date of the Gregorian calendar. *)
Definition days_from_civil (y m d : Z) : Z :=
  let y' := if m <=? 2 then y - 1 else y in
  let era := y' / 400 in
  let yoe := y' - era * 400 in
  let mp := if 2 <? m then m - 3 else m + 9 in
  let doy := (153 * mp + 2) / 5 + d - 1 in
  let doe := yoe * 365 + yoe / 4 - yoe / 100 + doy in
  era * 146097 + doe - 719468.

(** [datetime.fromisoformat] on the date-only form [YYYY-MM-DD], midnight of
    that day; the example environment knows no other form, and the
    examples use none. *)
Definition iso_date (s : string) : option datetime :=
  match list_ascii_of_string s with
  | [y1; y2; y3; y4; d1; m1; m2; d2; a1; a2] =>
      if Ascii.eqb d1 "-"%char && Ascii.eqb d2 "-"%char then
        match number_of [y1; y2; y3; y4] 0, number_of [m1; m2] 0, number_of [a1; a2] 0 with
        | Some y, Some m, Some d =>
            if (1 <=? y) && (1 <=? m) && (m <=? 12) && (1 <=? d)
               && (d <=? days_in_month y m)
            then Some (timedelta_days (days_from_civil y m d))
            else None
        | _, _, _ => None
        end
      else None
  | _ => None
  end.

(** The clock of the examples: 2023-11-14 22:13:20, then one microsecond
    later at every reading. *)
Definition sample_clock (n : nat) : datetime := 1700000000000000 + Z.of_nat n.

(** [repr] of a string: single quotes unless the string has a single
    quote and no double quote; backslash, the quote in use, tab, newline
    and carriage return are escaped with a backslash, other control
    characters by their two-digit hexadecimal code. Characters outside
    ASCII are kept, as [repr] does for printable ones; the examples use
    none. *)
Definition hex_digit (n : N) : ascii :=
  ascii_of_N (if (n <? 10)%N then 48 + n else 87 + n).

Definition backslash : ascii := "092"%char.

Definition repr_char (quote c : ascii) : string :=
  let n := N_of_ascii c in
  if Ascii.eqb c backslash then String backslash (String backslash "")
  else if Ascii.eqb c quote then String backslash (String c "")
  else if (n =? 9)%N then String backslash "t"
  else if (n =? 10)%N then String backslash "n"
  else if (n =? 13)%N then String backslash "r"
  else if (n <? 32)%N || (n =? 127)%N then
    String backslash
      (String "x" (String (hex_digit (n / 16)) (String (hex_digit (n mod 16)) "")))
  else String c "".

Fixpoint repr_chars (quote : ascii) (s : string) : string :=
  match s with
  | EmptyString => EmptyString
  | String c s' => repr_char quote c +:+ repr_chars quote s'
  end.

Fixpoint has_char (c : ascii) (s : string) : bool :=
  match s with
  | EmptyString => false
  | String c' s' => Ascii.eqb c c' || has_char c s'
  end.

Definition py_repr (s : string) : string :=
  let quote := if has_char "'"%char s && negb (has_char "034"%char s)
               then "034"%char else "'"%char in
  String quote (repr_chars quote s +:+ String quote "").

Definition sample_env (fk : bool) : Env := mkEnv sample_clock iso_date py_repr fk.

Definition admin : User.t :=
  User.mk "Admin" (Some "admin@realty.com") "9876543210" "Manager" "password"
    0 50 (Some "A") true.

(** A sales executive whose lead count has reached the capacity. *)
Definition busy_exec : User.t :=
  User.mk "Ravi" None "9000000001" "Sales Exec" "secret" 2 2 None true.

Definition sample_lead : Lead.t :=
  Lead.mk "Sneha Patil" "9811111111" None (Some "80L") "Walk-in" "NEGOTIATION"
    (Some 1) (Some 1) (Some 1700500000000000) None.

Definition sample_unit : Unit.t :=
  Unit.mk 1 (Some "Wing A") (Some 1) "101" "Available" (Some 1000%float)
    (Some 6500%float) None.

Definition sample_db : Tables :=
  mkTables {[ 1 := admin; 2 := busy_exec ]} {[ 7 := sample_lead ]}
           {[ 3 := sample_unit ]} ∅ [].

(** A booking request for lead 7 and unit 3; the deal amount, the token
    amount and the payment date vary. *)
Definition sample_request (lead_id unit_id : Z) (deal_amount : float)
    (booking_amount : option float) (payment_date : option string) : BookingCreate.t :=
  BookingCreate.mk lead_id 1 unit_id "101" deal_amount 6500000 [] "None"
    "Sneha Patil" "9811111111" None None None None None None None None None
    "Cheque" (Some "HDFC") (Some "CHQ-1") payment_date booking_amount None true.

(** The example database after lead 7 has booked unit 3 for 8,000,000 with
    no token amount. *)
Definition booked_db : Tables :=
  snd (run_request
         (create_booking (sample_env true) (sample_request 7 3 8000000 None None))
         sample_db).

(** [booked_db] after its booking has been confirmed. *)
Definition confirmed_db : Tables :=
  snd (run_request (confirm_booking (sample_env true) 1) booked_db).

(** A payment for the "Allotment" milestone of booking 1. *)
Definition sample_payment (milestone : string) (amount : option float)
    (payment_date : option string) : PaymentRecord.t :=
  PaymentRecord.mk 1 milestone amount (Some "NEFT-42") payment_date "Customer".

(** [booked_db] after every milestone of booking 1 has been marked paid. *)
Definition settled_db : Tables :=
  foldl (λ db milestone,
           snd (run_request
                  (mark_payment_paid (sample_env true) 1 milestone (Some "NEFT-42")) db))
        booked_db
        ["Booking Token"; "Allotment"; "Agreement Signing"; "Bank Disbursement";
         "Possession"].

(** A booking with a negative deal amount and a token of 50 taken at the
    desk: the four rows still pending carry negative amounts. *)
Definition refund_db : Tables :=
  snd (run_request
         (create_booking (sample_env true)
            (sample_request 7 3 (-100) (Some 50%float) None))
         sample_db).

(** ** Vocabulary of the statements *)

(** The row [s] at position [pos] is the one
    [.filter(booking_id == b, milestone == m).first()] returns. *)
Definition first_match (booking_id : Z) (milestone : string)
    (rows : list PaymentSchedule.t) (pos : nat) (s : PaymentSchedule.t) : Prop :=
  rows !! pos = Some s
  ∧ schedule_matches booking_id milestone s = true
  ∧ ∀ j s', (j < pos)%nat → rows !! j = Some s' →
            schedule_matches booking_id milestone s' = false.

(** No row has the given booking id and milestone. *)
Definition no_match (booking_id : Z) (milestone : string)
    (rows : list PaymentSchedule.t) : Prop :=
  ∀ s, s ∈ rows → schedule_matches booking_id milestone s = false.

(** The date a payment is stamped with: the parsed [payment_date] when one
    is given, else the first reading of the clock; [None] when the given
    string does not parse. *)
Definition stamped_date (env : Env) (payment_date : option string) : option datetime :=
  if truthy_str payment_date then fromisoformat env (default "" payment_date)
  else Some (clock env 0).

(** The [payment_date] column of a new booking, and how many times the
    clock is read to obtain it. *)
Definition booking_payment_date (env : Env) (booking_data : BookingCreate.t)
    : option datetime * nat :=
  if truthy_str (BookingCreate.payment_date booking_data) then
    match fromisoformat env
            (replace_Z (default "" (BookingCreate.payment_date booking_data))) with
    | Some d => (Some d, 0%nat)
    | None => (Some (clock env 0), 1%nat)
    end
  else (None, 0%nat).

(** Whether the database accepts the INSERT of the booking. *)
Definition insert_accepted (env : Env) (db : Tables) (booking_data : BookingCreate.t)
    : bool :=
  negb (foreign_keys env)
  || (has_key (leads db) (BookingCreate.lead_id booking_data) && has_key (users db) 1).

(** The five schedule rows of a new booking [new_id], numbered from
    [first_id], when the clock has been read [k] times before. *)
Definition booking_schedule_rows (env : Env) (booking_data : BookingCreate.t)
    (new_id first_id : Z) (k : nat) : list PaymentSchedule.t :=
  zip_with (λ schedule_data i, schedule_row new_id schedule_data (first_id + i))
    (schedule_template booking_data (clock env k) (clock env (k + 1))
       (clock env (k + 2)) (clock env (k + 3)) (clock env (k + 4)))
    [0; 1; 2; 3; 4].

(** The tables after a booking has gone through. *)
Definition tables_after_booking (env : Env) (booking_data : BookingCreate.t)
    (db : Tables) : Tables :=
  let new_id := next_id (bookings db) in
  let unit_id := BookingCreate.unit_id booking_data in
  let lead_id := BookingCreate.lead_id booking_data in
  mkTables
    (users db)
    (alter (Lead.set_next_followup None) lead_id
       (alter (Lead.set_status "BOOKED") lead_id (leads db)))
    (alter (Unit.set_booking_id (Some new_id)) unit_id
       (alter (Unit.set_status "Blocked") unit_id (units db)))
    (<[new_id := new_booking_row booking_data
                   (fst (booking_payment_date env booking_data))]> (bookings db))
    (payment_schedules db
     ++ booking_schedule_rows env booking_data new_id
          (next_schedule_id (payment_schedules db))
          (snd (booking_payment_date env booking_data))).

(** The [status] entry of a handler's JSON answer. *)
Definition status_of (r : outcome json) : option json :=
  match r with
  | Returned d => jfield "status" d
  | Raised _ => None
  end.


(** ** Further handlers of main.py

    The handlers below read and write the same tables. Where a query
    without [ORDER BY] returns several rows, they come in the order
    [map_to_list] enumerates the table; no statement below depends on it. *)

Module LeadStatusUpdate.
Record t : Type := mk { status : string }.
End LeadStatusUpdate.

Module LeadCreate.
Record t : Type := mk {
  name : string;
  phone : string;
  email : option string;
  budget : option string;
  source : string;
  project_id : option Z;
  owner_id : option Z
}.
End LeadCreate.

(** [x if x is not None else None] as JSON. *)
Definition jopt_str (o : option string) : json :=
  match o with Some s => JStr s | None => JNull end.

Definition jopt_int (o : option Z) : json :=
  match o with Some n => JInt n | None => JNull end.

Definition jopt_float (o : option float) : json :=
  match o with Some x => JNum x | None => JNull end.

(** [d.isoformat() if d else None] *)
Definition jopt_datetime (o : option datetime) : json :=
  match o with Some d => JDatetime d | None => JNull end.

(** The filter of [login]: phone or email equal to the user name, the
    password equal to the stored one, and the account active. A NULL
    email equals nothing. *)
Definition credentials_match (username password : string) (u : User.t) : bool :=
  (String.eqb (User.phone u) username
   || match User.email u with
      | Some e => String.eqb e username
      | None => false
      end)
  && String.eqb (User.password u) password
  && User.is_active u.

Section MoreHandlers.
Variable env : Env.

(** [db.query(models.Lead).filter(models.Lead.phone == phone).first()] *)
Definition query_lead_by_phone (phone : string) : M (option (Z * Lead.t)) :=
  λ w, (Returned (List.find (λ kv, String.eqb (Lead.phone (snd kv)) phone)
                    (map_to_list (leads (session w)))), w).

(** [db.query(models.User).filter(or_(...), ...).first()] of [login] *)
Definition query_user_by_credentials (username password : string)
    : M (option (Z * User.t)) :=
  λ w, (Returned (List.find (λ kv, credentials_match username password (snd kv))
                    (map_to_list (users (session w)))), w).

(** [db.query(models.User).filter(models.User.is_active == True).all()] *)
Definition query_active_users : M (list (Z * User.t)) :=
  λ w, (Returned (List.filter (λ kv, User.is_active (snd kv))
                    (map_to_list (users (session w)))), w).

(** [db.query(models.Booking).filter(models.Booking.lead_id == lead_id).first()] *)
Definition query_booking_by_lead (lead_id : Z) : M (option (Z * Booking.t)) :=
  λ w, (Returned (List.find (λ kv, Z.eqb (Booking.lead_id (snd kv)) lead_id)
                    (map_to_list (bookings (session w)))), w).

(** [db.add(new_lead); db.commit()], up to the commit itself: the INSERT
    of the lead. Under foreign-key checking it is refused when [owner_id]
    is given and names no user ([leads.owner_id] references [users.id]). *)
Definition db_add_flush_lead (l : Lead.t) : M Z :=
  λ w,
    let t := session w in
    if foreign_keys env
       && match Lead.owner_id l with
          | Some o => negb (has_key (users t) o)
          | None => false
          end then
      (Raised (IntegrityError "insert on table leads violates a foreign key constraint"), w)
    else
      let key := next_id (leads t) in
      (Returned key,
       mkWorld (committed w) (with_leads (insert key l) t) (pending w) (ticks w)
         (published w)).

(** [POST /api/auth/login] *)
Definition login (username password : string) : M json :=
  user ← query_user_by_credentials username password;
  match user with
  | None => raise (HTTPException 401 "Invalid credentials")
  | Some (user_id, user) =>
      mret (JObj [("access_token", JStr "test-token-123");
                  ("token_type", JStr "bearer");
                  ("user",
                   JObj [("id", JInt user_id);
                         ("name", JStr (User.name user));
                         ("email", jopt_str (User.email user));
                         ("phone", JStr (User.phone user));
                         ("role", JStr (User.role user));
                         ("active_leads_count", JInt (User.active_leads_count user));
                         ("capacity", JInt (User.capacity user));
                         ("avatar", jopt_str (User.avatar user))])])
  end.

(** [GET /api/auth/me] *)
Definition get_current_user : M json :=
  user ← query_user_first 1;
  match user with
  | None => raise (HTTPException 404 "User not found")
  | Some user =>
      mret (JObj [("id", JInt 1);
                  ("name", JStr (User.name user));
                  ("role", JStr (User.role user));
                  ("avatar", jopt_str (User.avatar user));
                  ("email", jopt_str (User.email user));
                  ("phone", JStr (User.phone user));
                  ("is_active", JBool (User.is_active user))])
  end.

(** [GET /api/users] *)
Definition get_users : M json :=
  users ← query_active_users;
  mret (JList ((λ kv : Z * User.t,
                  JObj [("id", JInt (fst kv));
                        ("name", JStr (User.name (snd kv)));
                        ("role", JStr (User.role (snd kv)));
                        ("active_leads_count", JInt (User.active_leads_count (snd kv)));
                        ("capacity", JInt (User.capacity (snd kv)));
                        ("avatar", jopt_str (User.avatar (snd kv)))])
               <$> users)).

(** [POST /api/leads]. [created_at] is the time stamp the database server
    gives the new row; the handler reads it back for its answer. *)
Definition create_lead (created_at : datetime) (lead : LeadCreate.t) : M json :=
  existing ← query_lead_by_phone (LeadCreate.phone lead);
  match existing with
  | Some _ => raise (HTTPException 400 "Phone number already exists")
  | None =>
      new_lead_id ←
        db_add_flush_lead
          (Lead.mk (LeadCreate.name lead) (LeadCreate.phone lead)
             (LeadCreate.email lead) (LeadCreate.budget lead)
             (LeadCreate.source lead) "NEW" (LeadCreate.owner_id lead)
             (LeadCreate.project_id lead) None None);
      db_commit env;;
      mret (JObj [("id", JInt new_lead_id);
                  ("name", JStr (LeadCreate.name lead));
                  ("phone", JStr (LeadCreate.phone lead));
                  ("email", jopt_str (LeadCreate.email lead));
                  ("budget", jopt_str (LeadCreate.budget lead));
                  ("source", JStr (LeadCreate.source lead));
                  ("status", JStr "NEW");
                  ("owner_id", jopt_int (LeadCreate.owner_id lead));
                  ("created_at", JDatetime created_at)])
  end.

(** [POST /api/leads/{lead_id}/status] *)
Definition update_lead_status (lead_id : Z) (status_data : LeadStatusUpdate.t)
    : M json :=
  lead ← query_lead_first lead_id;
  match lead with
  | None => raise (HTTPException 404 "Lead not found")
  | Some _ =>
      setattr_lead lead_id (Lead.set_status (LeadStatusUpdate.status status_data));;
      now ← datetime_now env;
      setattr_lead lead_id (Lead.set_last_contact (Some now));;
      (if String.eqb (LeadStatusUpdate.status status_data) "BOOKED" then
         setattr_lead lead_id (Lead.set_next_followup None)
       else mret tt);;
      db_commit env;;
      mret (JObj [("success", JBool true); ("message", JStr "Status updated")])
  end.

(** [GET /api/booking/lead/{lead_id}] *)
Definition get_booking_by_lead (lead_id : Z) : M json :=
  booking ← query_booking_by_lead lead_id;
  match booking with
  | None => mret (JObj [])
  | Some (booking_id, booking) =>
      mret (JObj [("id", JInt booking_id);
                  ("lead_id", JInt (Booking.lead_id booking));
                  ("project_id", JInt (Booking.project_id booking));
                  ("unit_id", JInt (Booking.unit_id booking));
                  ("unit_number", JStr (Booking.unit_number booking));
                  ("deal_amount", JNum (Booking.deal_amount booking));
                  ("base_cost", JNum (Booking.base_cost booking));
                  ("charges", JList (Booking.charges booking));
                  ("parking_type", JStr (Booking.parking_type booking));
                  ("applicant_name", JStr (Booking.applicant_name booking));
                  ("applicant_phone", JStr (Booking.applicant_phone booking));
                  ("applicant_email", jopt_str (Booking.applicant_email booking));
                  ("applicant_pan", jopt_str (Booking.applicant_pan booking));
                  ("applicant_aadhar", jopt_str (Booking.applicant_aadhar booking));
                  ("applicant_address", jopt_str (Booking.applicant_address booking));
                  ("applicant_occupation",
                   jopt_str (Booking.applicant_occupation booking));
                  ("co_applicant_name", jopt_str (Booking.co_applicant_name booking));
                  ("co_applicant_phone", jopt_str (Booking.co_applicant_phone booking));
                  ("co_applicant_pan", jopt_str (Booking.co_applicant_pan booking));
                  ("co_applicant_aadhar",
                   jopt_str (Booking.co_applicant_aadhar booking));
                  ("payment_mode", JStr (Booking.payment_mode booking));
                  ("payment_bank", jopt_str (Booking.payment_bank booking));
                  ("payment_ref", jopt_str (Booking.payment_ref booking));
                  ("payment_date", jopt_datetime (Booking.payment_date booking));
                  ("booking_amount", jopt_float (Booking.booking_amount booking));
                  ("status", JStr (Booking.status booking));
                  ("remarks", jopt_str (Booking.remarks booking));
                  ("agree_terms", JBool (Booking.agree_terms booking))])
  end.
End MoreHandlers.

(** ** The API as a transition system

    One constructor per modelled route, carrying what the route takes from
    the path, the query string and the body. *)
Inductive Request : Type :=
| POST_auth_login (username password : string)
| GET_auth_me
| GET_users
| POST_leads (created_at : datetime) (lead : LeadCreate.t)
| POST_leads_assign (lead_id : Z) (assign_data : AssignLeadRequest.t)
| POST_leads_status (lead_id : Z) (status_data : LeadStatusUpdate.t)
| GET_booking_lead (lead_id : Z)
| POST_booking (booking_data : BookingCreate.t)
| PATCH_booking_confirm (booking_id : Z)
| PATCH_booking_cancel (booking_id : Z)
| GET_finance_summary (booking_id : Z)
| POST_finance_payment (payment_data : PaymentRecord.t)
| POST_finance_schedule_pay (booking_id : Z) (milestone : string)
    (payment_ref : option string)
| GET_finance_ledger_status (booking_id : Z).

Definition handler_of (env : Env) (r : Request) : M json :=
  match r with
  | POST_auth_login username password => login username password
  | GET_auth_me => get_current_user
  | GET_users => get_users
  | POST_leads created_at lead => create_lead env created_at lead
  | POST_leads_assign lead_id assign_data => assign_lead env lead_id assign_data
  | POST_leads_status lead_id status_data => update_lead_status env lead_id status_data
  | GET_booking_lead lead_id => get_booking_by_lead lead_id
  | POST_booking booking_data => create_booking env booking_data
  | PATCH_booking_confirm booking_id => confirm_booking env booking_id
  | PATCH_booking_cancel booking_id => cancel_booking env booking_id
  | GET_finance_summary booking_id => get_finance_summary booking_id
  | POST_finance_payment payment_data => record_payment env payment_data
  | POST_finance_schedule_pay booking_id milestone payment_ref =>
      mark_payment_paid env booking_id milestone payment_ref
  | GET_finance_ledger_status booking_id => get_ledger_status booking_id
  end.

(** The database after the request has been served. *)
Definition serve (env : Env) (r : Request) (db : Tables) : Tables :=
  snd (run_request (handler_of env r) db).

(** The database after a sequence of requests, each with its own
    environment (clock, parser, engine setting). *)
Fixpoint serve_all (rs : list (Env * Request)) (db : Tables) : Tables :=
  match rs with
  | [] => db
  | (env, r) :: rs' => serve_all rs' (serve env r db)
  end.

(** ** What a request may change

    The relations below say how a row found before a request (or a sequence
    of requests) relates to the row found under the same key, or at the
    same position, afterwards. *)

(** A booking status stays, or ends at CANCELLED, or goes from PENDING to
    CONFIRMED. *)
Definition status_reaches (s s' : string) : Prop :=
  s' = s ∨ s' = "CANCELLED" ∨ (s = "PENDING" ∧ s' = "CONFIRMED").

(** Only the lead counter of a user changes, and it does not go down. *)
Definition user_evolves (u u' : User.t) : Prop :=
  u' = User.set_active_leads_count (User.active_leads_count u') u
  ∧ User.active_leads_count u ≤ User.active_leads_count u'.

(** The contact details, source and project of a lead stay. *)
Definition lead_evolves (l l' : Lead.t) : Prop :=
  Lead.name l' = Lead.name l
  ∧ Lead.phone l' = Lead.phone l
  ∧ Lead.email l' = Lead.email l
  ∧ Lead.budget l' = Lead.budget l
  ∧ Lead.source l' = Lead.source l
  ∧ Lead.project_id l' = Lead.project_id l.

(** Only the status and the booking link of a unit change. *)
Definition unit_evolves (u u' : Unit.t) : Prop :=
  u' = Unit.set_booking_id (Unit.booking_id u') (Unit.set_status (Unit.status u') u).

(** Only the status of a booking changes, along [status_reaches]. *)
Definition booking_evolves (b b' : Booking.t) : Prop :=
  b' = Booking.set_status (Booking.status b') b
  ∧ status_reaches (Booking.status b) (Booking.status b').

(** A schedule row keeps its id, booking, milestone, due date and payer,
    and once it is Paid it stays Paid. *)
Definition schedule_evolves (s s' : PaymentSchedule.t) : Prop :=
  PaymentSchedule.id s' = PaymentSchedule.id s
  ∧ PaymentSchedule.booking_id s' = PaymentSchedule.booking_id s
  ∧ PaymentSchedule.milestone s' = PaymentSchedule.milestone s
  ∧ PaymentSchedule.due_date s' = PaymentSchedule.due_date s
  ∧ PaymentSchedule.payer s' = PaymentSchedule.payer s
  ∧ (PaymentSchedule.status s = "Paid" → PaymentSchedule.status s' = "Paid").

(** Every row of [m] is still there in [m'], changed at most along [R]. *)
Definition map_evolves {A : Type} (R : A → A → Prop) (m m' : gmap Z A) : Prop :=
  ∀ k x, m !! k = Some x → ∃ x', m' !! k = Some x' ∧ R x x'.

(** [m'] has no key that [m] lacks. *)
Definition no_new_keys {A : Type} (m m' : gmap Z A) : Prop :=
  ∀ k, m !! k = None → m' !! k = None.

Definition rows_evolve (rows rows' : list PaymentSchedule.t) : Prop :=
  ∀ i s, rows !! i = Some s → ∃ s', rows' !! i = Some s' ∧ schedule_evolves s s'.

Definition evolves (db db' : Tables) : Prop :=
  map_evolves user_evolves (users db) (users db')
  ∧ no_new_keys (users db) (users db')
  ∧ map_evolves lead_evolves (leads db) (leads db')
  ∧ map_evolves unit_evolves (units db) (units db')
  ∧ no_new_keys (units db) (units db')
  ∧ map_evolves booking_evolves (bookings db) (bookings db')
  ∧ rows_evolve (payment_schedules db) (payment_schedules db').

(** The request fits the columns it is written to: [String(n)] columns
    take at most [n] characters and [Integer] columns 32-bit values. An
    engine that checks column widths refuses anything else; the model does
    not cover that refusal, so the statements about written values assume
    the fit. *)
Definition fits (n : nat) (s : string) : Prop := (String.length s ≤ n)%nat.

Definition fits_opt (n : nat) (o : option string) : Prop :=
  match o with
  | Some s => fits n s
  | None => True
  end.

Definition int4 (n : Z) : Prop := - 2 ^ 31 ≤ n < 2 ^ 31.

Definition lead_fits (lead : LeadCreate.t) : Prop :=
  fits 100 (LeadCreate.name lead)
  ∧ fits 15 (LeadCreate.phone lead)
  ∧ fits_opt 100 (LeadCreate.email lead)
  ∧ fits_opt 50 (LeadCreate.budget lead)
  ∧ fits 20 (LeadCreate.source lead)
  ∧ match LeadCreate.project_id lead with Some p => int4 p | None => True end.

(** Whether the database accepts the INSERT of the lead. *)
Definition lead_insert_accepted (env : Env) (db : Tables) (lead : LeadCreate.t) : Prop :=
  foreign_keys env = false
  ∨ match LeadCreate.owner_id lead with
    | Some o => is_Some (users db !! o)
    | None => True
    end.

(** Some lead has the given phone number. *)
Definition phone_taken (db : Tables) (phone : string) : Prop :=
  ∃ k l, leads db !! k = Some l ∧ Lead.phone l = phone.

(** The rows of the table after the pending rows [ps] have been inserted
    in order, each under the next free id. *)
Fixpoint append_numbered (ps : list (Z → PaymentSchedule.t))
    (rows : list PaymentSchedule.t) : list PaymentSchedule.t :=
  match ps with
  | [] => rows
  | p :: ps' => append_numbered ps' (rows ++ [p (next_schedule_id rows)])
  end.

(** The answer of [create_booking] for the new booking [new_id]. *)
Definition booking_answer (new_id : Z) (booking_data : BookingCreate.t) : json :=
  JObj [("success", JBool true);
        ("id", JInt new_id);
        ("message", JStr "Booking created successfully");
        ("booking",
         JObj [("id", JInt new_id);
               ("unit_number", JStr (BookingCreate.unit_number booking_data));
               ("status", JStr "PENDING")])].


(** A working day on the example database: lead 7 is assigned to the
    administrator and books unit 3, the allotment is paid, the booking is
    confirmed, the lead is marked lost and the booking is cancelled. *)
Definition sample_day : list (Env * Request) :=
  [ (sample_env true, POST_leads_assign 7 (AssignLeadRequest.mk 1));
    (sample_env true, POST_booking (sample_request 7 3 8000000 None None));
    (sample_env true, POST_finance_schedule_pay 1 "Allotment" (Some "NEFT-42"));
    (sample_env true, PATCH_booking_confirm 1);
    (sample_env true, POST_leads_status 7 (LeadStatusUpdate.mk "LOST"));
    (sample_env true, PATCH_booking_cancel 1) ].

(** What is left of [sample_day] once the booking exists. *)
Definition sample_afternoon : list (Env * Request) := drop 2 sample_day.

(** No two leads have the same phone number. *)
Definition phones_unique (db : Tables) : Prop :=
  ∀ k1 k2 l1 l2, leads db !! k1 = Some l1 → leads db !! k2 = Some l2 →
                 Lead.phone l1 = Lead.phone l2 → k1 = k2.

(** The row [create_lead] inserts. *)
Definition new_lead_row (lead : LeadCreate.t) : Lead.t :=
  Lead.mk (LeadCreate.name lead) (LeadCreate.phone lead) (LeadCreate.email lead)
    (LeadCreate.budget lead) (LeadCreate.source lead) "NEW"
    (LeadCreate.owner_id lead) (LeadCreate.project_id lead) None None.

(** The answer of [create_lead] for the new lead [new_id]. *)
Definition lead_answer (new_id : Z) (created_at : datetime) (lead : LeadCreate.t)
    : json :=
  JObj [("id", JInt new_id);
        ("name", JStr (LeadCreate.name lead));
        ("phone", JStr (LeadCreate.phone lead));
        ("email", jopt_str (LeadCreate.email lead));
        ("budget", jopt_str (LeadCreate.budget lead));
        ("source", JStr (LeadCreate.source lead));
        ("status", JStr "NEW");
        ("owner_id", jopt_int (LeadCreate.owner_id lead));
        ("created_at", JDatetime created_at)].

(** The account [u] passes the filter of [login]. *)
Definition may_log_in (username password : string) (u : User.t) : Prop :=
  (User.phone u = username ∨ User.email u = Some username)
  ∧ User.password u = password
  ∧ User.is_active u = true.

(** The answer of [login] for the account [u] stored under [user_id]. *)
Definition login_answer (user_id : Z) (u : User.t) : json :=
  JObj [("access_token", JStr "test-token-123");
        ("token_type", JStr "bearer");
        ("user",
         JObj [("id", JInt user_id);
               ("name", JStr (User.name u));
               ("email", jopt_str (User.email u));
               ("phone", JStr (User.phone u));
               ("role", JStr (User.role u));
               ("active_leads_count", JInt (User.active_leads_count u));
               ("capacity", JInt (User.capacity u));
               ("avatar", jopt_str (User.avatar u))])].

(** A sales executive who has left: the account is switched off. *)
Definition former_exec : User.t :=
  User.mk "Meera" (Some "meera@realty.com") "9000000002" "Sales Exec" "hunter2"
    0 50 None false.

Definition staff_db : Tables :=
  mkTables {[ 1 := admin; 2 := busy_exec; 3 := former_exec ]} {[ 7 := sample_lead ]}
           {[ 3 := sample_unit ]} ∅ [].

Definition walk_in : LeadCreate.t :=
  LeadCreate.mk "Amit Joshi" "9822222222" (Some "amit@example.com") (Some "60L")
    "Walk-in" (Some 1) (Some 2).

(** The routes that only read: the GET routes and the login. *)
Definition reads_only (r : Request) : bool :=
  match r with
  | POST_auth_login _ _ | GET_auth_me | GET_users | GET_booking_lead _
  | GET_finance_summary _ | GET_finance_ledger_status _ => true
  | _ => false
  end.

(** The entry of [get_users] for the user stored under [user_id]. *)
Definition user_entry (user_id : Z) (u : User.t) : json :=
  JObj [("id", JInt user_id);
        ("name", JStr (User.name u));
        ("role", JStr (User.role u));
        ("active_leads_count", JInt (User.active_leads_count u));
        ("capacity", JInt (User.capacity u));
        ("avatar", jopt_str (User.avatar u))].

(** The answer of [get_booking_by_lead] for the booking stored under
    [booking_id]. *)
Definition booking_details (booking_id : Z) (b : Booking.t) : json :=
  JObj [("id", JInt booking_id);
        ("lead_id", JInt (Booking.lead_id b));
        ("project_id", JInt (Booking.project_id b));
        ("unit_id", JInt (Booking.unit_id b));
        ("unit_number", JStr (Booking.unit_number b));
        ("deal_amount", JNum (Booking.deal_amount b));
        ("base_cost", JNum (Booking.base_cost b));
        ("charges", JList (Booking.charges b));
        ("parking_type", JStr (Booking.parking_type b));
        ("applicant_name", JStr (Booking.applicant_name b));
        ("applicant_phone", JStr (Booking.applicant_phone b));
        ("applicant_email", jopt_str (Booking.applicant_email b));
        ("applicant_pan", jopt_str (Booking.applicant_pan b));
        ("applicant_aadhar", jopt_str (Booking.applicant_aadhar b));
        ("applicant_address", jopt_str (Booking.applicant_address b));
        ("applicant_occupation", jopt_str (Booking.applicant_occupation b));
        ("co_applicant_name", jopt_str (Booking.co_applicant_name b));
        ("co_applicant_phone", jopt_str (Booking.co_applicant_phone b));
        ("co_applicant_pan", jopt_str (Booking.co_applicant_pan b));
        ("co_applicant_aadhar", jopt_str (Booking.co_applicant_aadhar b));
        ("payment_mode", JStr (Booking.payment_mode b));
        ("payment_bank", jopt_str (Booking.payment_bank b));
        ("payment_ref", jopt_str (Booking.payment_ref b));
        ("payment_date", jopt_datetime (Booking.payment_date b));
        ("booking_amount", jopt_float (Booking.booking_amount b));
        ("status", JStr (Booking.status b));
        ("remarks", jopt_str (Booking.remarks b));
        ("agree_terms", JBool (Booking.agree_terms b))].

(** The entries of the answer of [get_users]. *)
Definition listed_users (r : outcome json) : list json :=
  match r with
  | Returned (JList items) => items
  | _ => []
  end.

(** A schedule row after [record_payment] has updated it with the payment
    date [paid_on]. *)
Definition paid_row (payment_data : PaymentRecord.t) (paid_on : datetime)
    (s : PaymentSchedule.t) : PaymentSchedule.t :=
  let s' := PaymentSchedule.set_payment_ref (PaymentRecord.payment_ref payment_data)
              (PaymentSchedule.set_payment_date (Some paid_on)
                 (PaymentSchedule.set_status "Paid" s)) in
  if truthy_float (PaymentRecord.amount payment_data) then
    PaymentSchedule.set_amount (default 0%float (PaymentRecord.amount payment_data)) s'
  else s'.

(** The answer of [record_payment]. *)
Definition payment_answer (payment_data : PaymentRecord.t) : json :=
  JObj [("success", JBool true);
        ("message",
         JStr ("Payment recorded for " +:+ PaymentRecord.milestone payment_data))].

(** The booking request fits the columns of the bookings table. *)
Definition booking_fits (booking_data : BookingCreate.t) : Prop :=
  int4 (BookingCreate.lead_id booking_data)
  ∧ int4 (BookingCreate.project_id booking_data)
  ∧ int4 (BookingCreate.unit_id booking_data)
  ∧ fits 50 (BookingCreate.unit_number booking_data)
  ∧ fits 20 (BookingCreate.parking_type booking_data)
  ∧ fits 100 (BookingCreate.applicant_name booking_data)
  ∧ fits 15 (BookingCreate.applicant_phone booking_data)
  ∧ fits_opt 100 (BookingCreate.applicant_email booking_data)
  ∧ fits_opt 20 (BookingCreate.applicant_pan booking_data)
  ∧ fits_opt 20 (BookingCreate.applicant_aadhar booking_data)
  ∧ fits_opt 50 (BookingCreate.applicant_occupation booking_data)
  ∧ fits_opt 100 (BookingCreate.co_applicant_name booking_data)
  ∧ fits_opt 15 (BookingCreate.co_applicant_phone booking_data)
  ∧ fits_opt 20 (BookingCreate.co_applicant_pan booking_data)
  ∧ fits_opt 20 (BookingCreate.co_applicant_aadhar booking_data)
  ∧ fits 20 (BookingCreate.payment_mode booking_data)
  ∧ fits_opt 100 (BookingCreate.payment_bank booking_data)
  ∧ fits_opt 100 (BookingCreate.payment_ref booking_data).

(** The payment fits the columns of the payment_schedules table. *)
Definition payment_fits (payment_data : PaymentRecord.t) : Prop :=
  int4 (PaymentRecord.booking_id payment_data)
  ∧ fits 100 (PaymentRecord.milestone payment_data)
  ∧ fits 20 (PaymentRecord.payer payment_data)
  ∧ fits_opt 100 (PaymentRecord.payment_ref payment_data).

(** ** What the format specifications ask for

    The definitions of this section are not taken from main.py. They say
    what a number printed "with two decimals" and a "thousands-grouped
    integer" are, in the terms of the specification and of the format
    specifications [.2f] and [,.0f], so that what [format_amount] prints
    can be compared with it. *)

(** The number a string of decimal digits writes, read from the left on
    top of [acc]; [None] when a character is not a digit. *)
Fixpoint decimal_value (s : string) (acc : Z) : option Z :=
  match s with
  | EmptyString => Some acc
  | String c s' =>
      let n := Z.of_N (N_of_ascii c) in
      if (48 <=? n) && (n <=? 57) then decimal_value s' (10 * acc + (n - 48))
      else None
  end.

(** At least one character, and no leading zero except in "0" itself. *)
Definition no_leading_zero (s : string) : Prop :=
  match s with
  | EmptyString => False
  | String c s' => c = "0"%char → s' = EmptyString
  end.

(** The groups one after the other, each preceded by [sep]. *)
Fixpoint join_groups (sep : string) (groups : list string) : string :=
  match groups with
  | [] => EmptyString
  | g :: groups' => sep +:+ g +:+ join_groups sep groups'
  end.

(** [s] writes the number [n / 10^d] with exactly [d] decimals: the
    integer part without superfluous zeros, when [grouped] cut into a first
    group of one to three digits and groups of three digits set off by
    commas, then, if [d] is not zero, a point and [d] digits. *)
Definition writes_number (grouped : bool) (d : nat) (n : Z) (s : string) : Prop :=
  ∃ (first : string) (groups : list string) (decimals : string),
    s = first +:+ join_groups "," groups
        +:+ (if decide (d = 0%nat) then "" else "." +:+ decimals)
    ∧ no_leading_zero (first +:+ join_groups "" groups)
    ∧ (1 ≤ String.length first)%nat
    ∧ (if grouped then (String.length first ≤ 3)%nat else groups = [])
    ∧ Forall (λ g, String.length g = 3%nat) groups
    ∧ String.length decimals = d
    ∧ decimal_value (first +:+ join_groups "" groups +:+ decimals) 0 = Some n.

(** [n] is the integer nearest to [num / den], and the even one when two
    integers are equally near. *)
Definition nearest_even (num den n : Z) : Prop :=
  2 * Z.abs (n * den - num) ≤ den
  ∧ (2 * Z.abs (n * den - num) = den → Z.even n = true).

(** [s] is the float [x] in fixed-point notation with [d] decimals: for a
    finite [x], of exact value [m * 2^e] up to sign, a minus sign when the
    sign bit is set (negative zero included) and then the digits of the
    value rounded to [d] decimals, ties to even; "inf" and "nan", signed
    for the infinities, otherwise. *)
Definition prints_fixed (grouped : bool) (d : nat) (x : float) (s : string) : Prop :=
  match Prim2SF x with
  | S754_nan => s = "nan"
  | S754_infinity negative => s = if negative then "-inf" else "inf"
  | S754_zero negative =>
      ∃ digits, writes_number grouped d 0 digits
                ∧ s = (if negative then "-" else "") +:+ digits
  | S754_finite negative m e =>
      ∃ n digits,
        nearest_even (Z.pos m * 10 ^ Z.of_nat d * 2 ^ Z.max e 0) (2 ^ Z.max (- e) 0) n
        ∧ writes_number grouped d n digits
        ∧ s = (if negative then "-" else "") +:+ digits
  end.

(** The check used to go through the hundred two-digit endings. *)
Definition two_digits_ok (r : Z) : bool :=
  let s := zero_pad 2 (pretty (Z.to_N r)) in
  (String.length s =? 2)%nat
  && match decimal_value s 0 with
     | Some v => v =? r
     | None => false
     end.

(** ** What the database engine and the framework take

    The model of the handlers does not cover the refusals below, so the
    statements about a request that goes through assume that they do not
    occur. *)

(** An integer parameter the database driver can pass on: 64 bits. *)
Definition int8 (n : Z) : Prop := - 2 ^ 63 ≤ n < 2 ^ 63.

(** A float that is a finite number. NaN is not stored in a column that
    does not take NULL (the SQLite driver binds it as NULL), and neither
    NaN nor an infinity can be written in a JSON answer or document. *)
Definition finite (x : float) : Prop := (abs x <? infinity)%float = true.

Definition finite_opt (o : option float) : Prop :=
  match o with
  | Some x => finite x
  | None => True
  end.

(** Every number of the JSON document is finite. *)
Fixpoint json_finite (j : json) : bool :=
  match j with
  | JNum x => (abs x <? infinity)%float
  | JList l => forallb json_finite l
  | JObj fields => forallb (λ kv, let '(_, v) := kv in json_finite v) fields
  | _ => true
  end.

(** The amounts and charges of the booking request can be stored. *)
Definition booking_storable (booking_data : BookingCreate.t) : Prop :=
  finite (BookingCreate.deal_amount booking_data)
  ∧ finite (BookingCreate.base_cost booking_data)
  ∧ finite_opt (BookingCreate.booking_amount booking_data)
  ∧ Forall (λ j, json_finite j = true) (BookingCreate.charges booking_data).

(** The ids that the next [n] bookings and their schedule rows receive
    fit the [Integer] columns. *)
Definition room_for_bookings (n : Z) (db : Tables) : Prop :=
  int4 (next_id (bookings db) + n - 1)
  ∧ int4 (next_schedule_id (payment_schedules db) + 5 * n - 1).

(** The owner named by the lead request and the id the new lead receives
    fit the [Integer] columns. *)
Definition owner_fits (lead : LeadCreate.t) : Prop :=
  match LeadCreate.owner_id lead with
  | Some o => int4 o
  | None => True
  end.

Definition room_for_lead (db : Tables) : Prop := int4 (next_id (leads db)).

(** The amount of the payment, when one is given, can be stored. *)
Definition payment_storable (payment_data : PaymentRecord.t) : Prop :=
  finite_opt (PaymentRecord.amount payment_data).

(** The amounts and charges of a stored booking can be written in a JSON
    answer. *)
Definition booking_presentable (b : Booking.t) : Prop :=
  finite (Booking.deal_amount b)
  ∧ finite (Booking.base_cost b)
  ∧ finite_opt (Booking.booking_amount b)
  ∧ Forall (λ j, json_finite j = true) (Booking.charges b).
(** * Properties *)

(** ** Floats *)

Lemma SFeqb_finite_inv s1 m1 e1 s2 m2 e2 :
  SFeqb (S754_finite s1 m1 e1) (S754_finite s2 m2 e2) = true →
  s1 = s2 ∧ m1 = m2 ∧ e1 = e2.
Proof.
  unfold SFeqb, SFcompare.
  change (Pos.compare_cont Eq m1 m2) with (Pos.compare m1 m2).
  destruct s1, s2; try discriminate;
    destruct (Z.compare_spec e1 e2); try discriminate;
    destruct (Pos.compare_spec m1 m2); try discriminate; by subst.
Qed.

Lemma SFsub_diag_finite s m e :
  SF64sub (S754_finite s m e) (S754_finite s m e) = S754_zero false.
Proof. unfold SF64sub, SFsub. by rewrite Z.sub_diag. Qed.

Lemma SFeqb_sub_not_positive (a b : spec_float) :
  SFeqb a b = true → SFltb (S754_zero false) (SF64sub b a) = false.
Proof.
  destruct a as [sa|sa| |sa ma ea], b as [sb|sb| |sb mb eb];
    try (intros (-> & -> & ->)%SFeqb_finite_inv; by rewrite SFsub_diag_finite);
    repeat match goal with s : bool |- _ => destruct s end;
    first [ reflexivity | discriminate ].
Qed.

(** Two floats that compare equal have a difference that is not positive
    (it is a zero, or NaN for two infinities). *)
Lemma float_eqb_sub_not_positive (x y : float) :
  (x =? y)%float = true → (0 <? y - x)%float = false.
Proof.
  rewrite FloatAxioms.eqb_spec, FloatAxioms.ltb_spec, FloatAxioms.sub_spec.
  apply SFeqb_sub_not_positive.
Qed.

Lemma float_sub_self_not_positive (x : float) : (0 <? x - x)%float = false.
Proof.
  rewrite FloatAxioms.ltb_spec, FloatAxioms.sub_spec.
  destruct (Prim2SF x) as [s|s| |s m e];
    try (destruct s; reflexivity); try reflexivity.
  by rewrite SFsub_diag_finite.
Qed.


(** ** Currency formatting *)

(** *** Rounding *)

Lemma round_half_even_nearest (num den : Z) :
  0 < den → nearest_even num den (round_half_even num den).
Proof.
  intros Hden. unfold nearest_even, round_half_even.
  pose proof (Z.div_mod num den ltac:(lia)) as Hnum.
  pose proof (Z.mod_pos_bound num den Hden) as Hr.
  destruct (Z.compare_spec (2 * (num mod den)) den) as [Heq|Hlt|Hgt].
  - destruct (Z.even (num / den)) eqn:Heven.
    + split; [nia | by intros _].
    + split; [nia |]. intros _.
      replace (num / den + 1) with (Z.succ (num / den)) by lia.
      by rewrite Z.even_succ, <- Z.negb_even, Heven.
  - split; [nia | intros Htie; nia].
  - split; [nia | intros Htie; nia].
Qed.

Lemma scaled_decimal_nearest (d : nat) (m : positive) (e : Z) :
  nearest_even (Z.pos m * 10 ^ Z.of_nat d * 2 ^ Z.max e 0) (2 ^ Z.max (- e) 0)
    (scaled_decimal d m e).
Proof.
  unfold scaled_decimal. destruct (Z.leb_spec 0 e) as [Hpos|Hneg].
  - rewrite Z.max_l, Z.max_r by lia. cbn [Z.pow]. split; [lia | intros; lia].
  - rewrite Z.max_r, Z.max_l by lia. rewrite Z.pow_0_r, Z.mul_1_r.
    apply round_half_even_nearest. apply Z.pow_pos_nonneg; lia.
Qed.

Lemma round_half_even_nonneg (num den : Z) :
  0 ≤ num → 0 < den → 0 ≤ round_half_even num den.
Proof.
  intros Hnum Hden. unfold round_half_even.
  assert (0 ≤ num / den) by (apply Z.div_pos; lia).
  destruct (2 * (num mod den) ?= den); [destruct (Z.even _) | |]; lia.
Qed.

Lemma scaled_decimal_nonneg (d : nat) (m : positive) (e : Z) :
  0 ≤ scaled_decimal d m e.
Proof.
  unfold scaled_decimal.
  assert (0 ≤ Z.pos m * 10 ^ Z.of_nat d) by (apply Z.mul_nonneg_nonneg; lia).
  destruct (Z.leb_spec 0 e).
  - apply Z.mul_nonneg_nonneg; [done | apply Z.pow_nonneg; lia].
  - apply round_half_even_nonneg; [done |]. apply Z.pow_pos_nonneg; lia.
Qed.

(** *** Digits *)

Lemma pretty_N_char_code (r : N) :
  (r < 10)%N → Z.of_N (N_of_ascii (pretty_N_char r)) = 48 + Z.of_N r.
Proof.
  intros Hr.
  assert (∀ k, (k < 10)%nat →
               Z.of_N (N_of_ascii (pretty_N_char (N.of_nat k)))
               = 48 + Z.of_N (N.of_nat k)) as Hall.
  { intros k Hk. do 10 (destruct k as [|k]; [reflexivity |]). lia. }
  rewrite <- (N2Nat.id r). apply Hall. lia.
Qed.

Lemma decimal_value_digit (r : N) (s : string) (acc : Z) :
  (r < 10)%N →
  decimal_value (String (pretty_N_char r) s) acc
  = decimal_value s (10 * acc + Z.of_N r).
Proof.
  intros Hr. cbn [decimal_value]. rewrite (pretty_N_char_code r Hr).
  destruct (Z.leb_spec 48 (48 + Z.of_N r)); [| lia].
  destruct (Z.leb_spec (48 + Z.of_N r) 57); [| lia].
  cbn [andb]. f_equal. lia.
Qed.

Lemma pretty_N_go_value (x : N) (s : string) :
  decimal_value (pretty_N_go x s) 0 = decimal_value s (Z.of_N x).
Proof.
  revert s. induction (N.lt_wf_0 x) as [x _ IH]. intros s.
  destruct (decide (x = 0%N)) as [->|Hx]; [by rewrite pretty_N_go_0 |].
  rewrite pretty_N_go_step by lia.
  rewrite IH by (apply N.div_lt; lia).
  rewrite decimal_value_digit by (apply N.mod_lt; lia).
  f_equal. pose proof (N.div_mod x 10 ltac:(lia)). lia.
Qed.

Lemma pretty_N_value (x : N) : decimal_value (pretty x) 0 = Some (Z.of_N x).
Proof.
  unfold pretty, pretty_N. destruct (decide (x = 0%N)) as [->|Hx]; [reflexivity |].
  by rewrite pretty_N_go_value.
Qed.

Lemma pretty_N_go_leading (x : N) (s : string) :
  (0 < x)%N → ∃ c rest, pretty_N_go x s = String c rest ∧ c ≠ "0"%char.
Proof.
  revert s. induction (N.lt_wf_0 x) as [x _ IH]. intros s Hx.
  rewrite pretty_N_go_step by done.
  destruct (decide (x `div` 10 = 0)%N) as [Hq|Hq].
  - rewrite Hq, pretty_N_go_0. eexists _, _. split; [reflexivity |].
    intros Hc.
    assert (x `mod` 10 < 10)%N as Hlt by (apply N.mod_lt; lia).
    pose proof (pretty_N_char_code _ Hlt) as Hcode. rewrite Hc in Hcode.
    change (Z.of_N (N_of_ascii "0")) with 48 in Hcode.
    pose proof (N.div_mod x 10 ltac:(lia)). lia.
  - apply IH; [apply N.div_lt; lia | by apply N.neq_0_lt_0].
Qed.

Lemma pretty_N_no_leading_zero (x : N) : no_leading_zero (pretty x).
Proof.
  unfold pretty, pretty_N. destruct (decide (x = 0%N)) as [->|Hx]; [done |].
  destruct (pretty_N_go_leading x "" ltac:(lia)) as (c & rest & -> & Hc). by intros ?.
Qed.

Lemma append_cons (c : ascii) (a b : string) :
  String c a +:+ b = String c (a +:+ b).
Proof. reflexivity. Qed.

Lemma decimal_value_app (a b : string) (acc : Z) :
  decimal_value (a +:+ b) acc = decimal_value a acc ≫= decimal_value b.
Proof.
  revert acc. induction a as [|c a IH]; intros acc; [reflexivity |].
  rewrite append_cons. cbn [decimal_value].
  destruct ((48 <=? _) && _); [apply IH | reflexivity].
Qed.

Lemma decimal_value_acc (s : string) (acc : Z) :
  decimal_value s acc
  = (λ v, acc * 10 ^ Z.of_nat (String.length s) + v) <$> decimal_value s 0.
Proof.
  revert acc. induction s as [|c s IH]; intros acc.
  - cbn. f_equal. lia.
  - cbn [decimal_value String.length]. destruct ((48 <=? _) && _); [| reflexivity].
    rewrite (IH (10 * acc + _)), (IH (10 * 0 + _)).
    destruct (decimal_value s 0) as [w|]; [| reflexivity].
    cbn [fmap option_fmap option_map]. f_equal.
    rewrite Nat2Z.inj_succ, Z.pow_succ_r by lia. lia.
Qed.

Lemma decimal_value_shift (s : string) (acc v : Z) :
  decimal_value s 0 = Some v →
  decimal_value s acc = Some (acc * 10 ^ Z.of_nat (String.length s) + v).
Proof. intros Hv. by rewrite decimal_value_acc, Hv. Qed.

Lemma two_digits (r : Z) :
  0 ≤ r < 100 →
  String.length (zero_pad 2 (pretty (Z.to_N r))) = 2%nat
  ∧ decimal_value (zero_pad 2 (pretty (Z.to_N r))) 0 = Some r.
Proof.
  intros Hr.
  assert (forallb two_digits_ok (seqZ 0 100) = true) as Hall by (vm_compute; reflexivity).
  rewrite forallb_forall in Hall.
  assert (two_digits_ok r = true) as Hok.
  { apply Hall, list_elem_of_In, elem_of_seqZ. lia. }
  unfold two_digits_ok in Hok. apply andb_true_iff in Hok as [Hlen Hval].
  apply Nat.eqb_eq in Hlen. split; [done |].
  destruct (decimal_value _ 0) as [v|]; [| done]. apply Z.eqb_eq in Hval. by subst.
Qed.

(** *** Strings and lists of characters *)

Lemma append_nil_r (s : string) : s +:+ "" = s.
Proof. induction s as [|c s IH]; [reflexivity |]. by rewrite append_cons, IH. Qed.

Lemma append_assoc (a b c : string) : (a +:+ b) +:+ c = a +:+ b +:+ c.
Proof. induction a as [|x a IH]; [reflexivity |]. by rewrite !append_cons, IH. Qed.

Lemma length_append (a b : string) :
  String.length (a +:+ b) = (String.length a + String.length b)%nat.
Proof.
  induction a as [|c a IH]; [reflexivity |].
  rewrite append_cons. cbn [String.length]. by rewrite IH.
Qed.

Lemma string_of_list_ascii_app (a b : list ascii) :
  string_of_list_ascii (a ++ b) = string_of_list_ascii a +:+ string_of_list_ascii b.
Proof.
  induction a as [|c a IH]; [reflexivity |].
  cbn [app string_of_list_ascii]. by rewrite append_cons, IH.
Qed.

Lemma length_string_of_list_ascii (l : list ascii) :
  String.length (string_of_list_ascii l) = length l.
Proof. induction l as [|c l IH]; [reflexivity |]. cbn. by rewrite IH. Qed.

Lemma join_groups_of_lists (sep : list ascii) (groups : list (list ascii)) :
  join_groups (string_of_list_ascii sep) (string_of_list_ascii <$> groups)
  = string_of_list_ascii (concat ((sep ++.) <$> groups)).
Proof.
  induction groups as [|g groups IH]; [reflexivity |].
  rewrite !fmap_cons. cbn [join_groups concat].
  by rewrite IH, !string_of_list_ascii_app, append_assoc.
Qed.

Lemma no_leading_zero_length (s : string) :
  no_leading_zero s → (1 ≤ String.length s)%nat.
Proof. destruct s; [done | cbn; lia]. Qed.

(** *** Two decimals *)

Lemma render_two_decimals (n : Z) :
  0 ≤ n → writes_number false 2 n (render_decimal false 2 n).
Proof.
  intros Hn. unfold render_decimal. change (10 ^ Z.of_nat 2) with 100. cbv zeta.
  pose proof (Z.div_mod n 100 ltac:(lia)) as Hsplit.
  pose proof (Z.mod_pos_bound n 100 ltac:(lia)) as Hrem.
  assert (0 ≤ n `div` 100) as Hquot by (apply Z.div_pos; lia).
  destruct (two_digits (n `mod` 100) Hrem) as [Hlen Hval].
  pose proof (pretty_N_no_leading_zero (Z.to_N (n `div` 100))) as Hplain.
  exists (pretty (Z.to_N (n `div` 100))), [],
    (zero_pad 2 (pretty (Z.to_N (n `mod` 100)))).
  cbn [join_groups]. rewrite !append_nil_r. split_and!; try done.
  - by apply no_leading_zero_length.
  - rewrite decimal_value_app, pretty_N_value. cbn [mbind option_bind].
    rewrite (decimal_value_shift _ _ _ Hval), Hlen, Z2N.id by done.
    f_equal. change (10 ^ Z.of_nat 2) with 100. lia.
Qed.

(** *** Thousands *)

Lemma commas_rev_three (a b c : ascii) (rest : list ascii) :
  commas_rev (a :: b :: c :: rest) 0
  = a :: b :: c :: match rest with
                   | [] => []
                   | _ => ","%char :: commas_rev rest 0
                   end.
Proof. by destruct rest. Qed.

Lemma commas_rev_short (l : list ascii) :
  (length l ≤ 3)%nat → commas_rev l 0 = l.
Proof.
  destruct l as [|a [|b [|c [|d l]]]]; cbn; intros; try reflexivity. lia.
Qed.

Lemma commas_rev_groups (l : list ascii) :
  l ≠ [] →
  ∃ (first : list ascii) (groups : list (list ascii)),
    rev l = first ++ concat groups
    ∧ rev (commas_rev l 0) = first ++ concat ((","%char ::.) <$> groups)
    ∧ (1 ≤ length first ≤ 3)%nat
    ∧ Forall (λ g, length g = 3%nat) groups.
Proof.
  remember (length l) as k eqn:Hk. revert l Hk.
  induction (lt_wf k) as [k _ IH]. intros l -> Hne.
  destruct (decide (length l ≤ 3)%nat) as [Hshort|Hlong].
  - exists (rev l), []. rewrite commas_rev_short by done. cbn [concat fmap list_fmap].
    rewrite app_nil_r, length_rev. split_and!; try done.
    destruct l; [done | cbn; lia].
  - destruct l as [|a [|b [|c rest]]]; try (cbn in Hlong; lia).
    assert (rest ≠ []) as Hrest by (intros ->; cbn in Hlong; lia).
    destruct (IH (length rest) ltac:(cbn; lia) rest eq_refl Hrest)
      as (first & groups & Hdigits & Hcommas & Hfirst & Hgroups).
    exists first, (groups ++ [[c; b; a]]).
    rewrite commas_rev_three. destruct rest as [|d rest]; [done |].
    cbn [rev] in *. rewrite fmap_app, !concat_app. cbn [fmap list_fmap concat].
    rewrite !app_nil_r. split_and!.
    + rewrite Hdigits, <- !app_assoc. reflexivity.
    + rewrite <- !app_assoc. cbn [app].
      change (rev (commas_rev rest 1) ++ [d]) with (rev (d :: commas_rev rest 1)).
      change (d :: commas_rev rest 1) with (commas_rev (d :: rest) 0).
      rewrite Hcommas, <- !app_assoc. reflexivity.
    + lia.
    + lia.
    + apply Forall_app. split; [done |]. by repeat constructor.
Qed.

Lemma group_thousands_groups (s : string) :
  (1 ≤ String.length s)%nat →
  ∃ (first : string) (groups : list string),
    s = first +:+ join_groups "" groups
    ∧ group_thousands s = first +:+ join_groups "," groups
    ∧ (1 ≤ String.length first ≤ 3)%nat
    ∧ Forall (λ g, String.length g = 3%nat) groups.
Proof.
  intros Hlen. unfold group_thousands.
  assert (rev (list_ascii_of_string s) ≠ []) as Hne.
  { destruct s as [|c s]; [cbn in Hlen; lia |]. cbn. by destruct (rev _). }
  destruct (commas_rev_groups _ Hne)
    as (first & groups & Hdigits & Hcommas & Hfirst & Hgroups).
  rewrite rev_involutive in Hdigits.
  exists (string_of_list_ascii first), (string_of_list_ascii <$> groups).
  split_and!.
  - rewrite <- (string_of_list_ascii_of_string s) at 1.
    rewrite Hdigits, string_of_list_ascii_app.
    change "" with (string_of_list_ascii []). rewrite join_groups_of_lists.
    do 2 f_equal. clear. induction groups as [|g groups IH]; [done |].
    cbn. by rewrite IH.
  - rewrite Hcommas, string_of_list_ascii_app.
    change "," with (string_of_list_ascii [","%char]).
    rewrite join_groups_of_lists. reflexivity.
  - rewrite length_string_of_list_ascii. lia.
  - rewrite length_string_of_list_ascii. lia.
  - apply Forall_fmap. eapply Forall_impl; [exact Hgroups |].
    intros g Hg. cbn. by rewrite length_string_of_list_ascii.
Qed.

Lemma render_grouped (n : Z) :
  0 ≤ n → writes_number true 0 n (render_decimal true 0 n).
Proof.
  intros Hn. unfold render_decimal. change (10 ^ Z.of_nat 0) with 1. cbv zeta.
  rewrite Z.div_1_r.
  pose proof (pretty_N_no_leading_zero (Z.to_N n)) as Hplain.
  pose proof (pretty_N_value (Z.to_N n)) as Hvalue. rewrite Z2N.id in Hvalue by done.
  destruct (group_thousands_groups (pretty (Z.to_N n)))
    as (first & groups & Hdigits & Hprinted & Hfirst & Hgroups).
  { by apply no_leading_zero_length. }
  exists first, groups, "". rewrite Hprinted, !append_nil_r, <- Hdigits.
  split_and!; try done; lia.
Qed.

(** *** The two formats of [format_amount] *)

Lemma format_f_prints_fixed (grouped : bool) (d : nat) (x : float) :
  (grouped = false ∧ d = 2%nat) ∨ (grouped = true ∧ d = 0%nat) →
  prints_fixed grouped d x (format_f grouped d x).
Proof.
  intros Hformat.
  assert (∀ n, 0 ≤ n → writes_number grouped d n (render_decimal grouped d n))
    as Hrender.
  { destruct Hformat as [[-> ->]|[-> ->]];
      auto using render_two_decimals, render_grouped. }
  unfold prints_fixed, format_f. destruct (Prim2SF x) as [negative|negative| |negative m e].
  - exists (render_decimal grouped d 0). split; [by apply Hrender |]. by destruct negative.
  - by destruct negative.
  - done.
  - exists (scaled_decimal d m e), (render_decimal grouped d (scaled_decimal d m e)).
    split_and!.
    + apply scaled_decimal_nearest.
    + apply Hrender, scaled_decimal_nonneg.
    + by destruct negative.
Qed.


(** *** The specification leaves no choice

    [prints_fixed] is met by one string only, so that a function that
    meets it prints exactly what the format specification asks for. *)

Lemma nearest_even_unique (num den n1 n2 : Z) :
  0 < den → nearest_even num den n1 → nearest_even num den n2 → n1 = n2.
Proof.
  intros Hden [Hnear1 Htie1] [Hnear2 Htie2].
  assert (Z.abs (n1 - n2) * den ≤ den) as Hclose by nia.
  assert (Z.abs (n1 - n2) ≤ 1) as Hone by nia.
  destruct (decide (n1 = n2)) as [|Hne]; [done |]. exfalso.
  assert (2 * Z.abs (n1 * den - num) = den) as H1 by nia.
  assert (2 * Z.abs (n2 * den - num) = den) as H2 by nia.
  pose proof (Htie1 H1) as [k1 Hk1]%Z.even_spec.
  pose proof (Htie2 H2) as [k2 Hk2]%Z.even_spec. lia.
Qed.

Lemma decimal_value_cons (c : ascii) (s : string) (v : Z) :
  decimal_value (String c s) 0 = Some v →
  ∃ w, 48 ≤ Z.of_N (N_of_ascii c) ≤ 57
       ∧ decimal_value s 0 = Some w
       ∧ v = (Z.of_N (N_of_ascii c) - 48) * 10 ^ Z.of_nat (String.length s) + w.
Proof.
  cbn [decimal_value].
  destruct (Z.leb_spec 48 (Z.of_N (N_of_ascii c))); [| done].
  destruct (Z.leb_spec (Z.of_N (N_of_ascii c)) 57); [| done]. cbn [andb].
  rewrite decimal_value_acc. destruct (decimal_value s 0) as [w|]; [| done].
  intros [= <-]. exists w. split_and!; first [done | lia].
Qed.

Lemma decimal_value_bound (s : string) (v : Z) :
  decimal_value s 0 = Some v → 0 ≤ v < 10 ^ Z.of_nat (String.length s).
Proof.
  revert v. induction s as [|c s IH]; intros v.
  - intros [= <-]. cbn. lia.
  - intros (w & Hc & Hw & ->)%decimal_value_cons. specialize (IH w Hw).
    cbn [String.length]. rewrite Nat2Z.inj_succ, Z.pow_succ_r by lia. nia.
Qed.

Lemma decimal_value_inj (a b : string) (v : Z) :
  String.length a = String.length b →
  decimal_value a 0 = Some v → decimal_value b 0 = Some v → a = b.
Proof.
  revert b v. induction a as [|c a IH]; intros [|c' b] v Hlen; try done.
  injection Hlen as Hlen.
  intros (w & Hc & Hw & ->)%decimal_value_cons (w' & Hc' & Hw' & Hv)%decimal_value_cons.
  rewrite <- Hlen in Hv.
  pose proof (decimal_value_bound _ _ Hw). pose proof (decimal_value_bound _ _ Hw') as Hb.
  rewrite <- Hlen in Hb.
  assert (Z.of_N (N_of_ascii c) = Z.of_N (N_of_ascii c')) as Hcode.
  { destruct (Z.lt_trichotomy (Z.of_N (N_of_ascii c)) (Z.of_N (N_of_ascii c')))
      as [?|[?|?]]; [nia | done | nia]. }
  assert (w = w') as -> by (rewrite Hcode in Hv; lia).
  f_equal.
  - apply N2Z.inj in Hcode. by rewrite <- (ascii_N_embedding c), Hcode, ascii_N_embedding.
  - by eapply IH.
Qed.

Lemma no_leading_zero_value (s : string) (v : Z) :
  no_leading_zero s → decimal_value s 0 = Some v →
  s = "0" ∨ 10 ^ (Z.of_nat (String.length s) - 1) ≤ v.
Proof.
  destruct s as [|c s]; [done |]. cbn [no_leading_zero].
  intros Hzero (w & Hc & Hw & ->)%decimal_value_cons.
  destruct (decide (c = "0"%char)) as [->|Hc0]; [left; by rewrite Hzero | right].
  assert (Z.of_N (N_of_ascii c) ≠ 48) as Hcode.
  { intros Hcode. apply Hc0. rewrite <- (ascii_N_embedding c).
    replace (N_of_ascii c) with 48%N by lia. reflexivity. }
  pose proof (decimal_value_bound _ _ Hw).
  cbn [String.length]. rewrite Nat2Z.inj_succ.
  replace (Z.succ (Z.of_nat (String.length s)) - 1) with (Z.of_nat (String.length s)) by lia.
  nia.
Qed.

Lemma decimal_value_plain_inj (a b : string) (v : Z) :
  no_leading_zero a → no_leading_zero b →
  decimal_value a 0 = Some v → decimal_value b 0 = Some v → a = b.
Proof.
  intros Ha Hb Hva Hvb.
  pose proof (decimal_value_bound _ _ Hva) as Hba.
  pose proof (decimal_value_bound _ _ Hvb) as Hbb.
  pose proof (no_leading_zero_length _ Ha). pose proof (no_leading_zero_length _ Hb).
  assert (∀ k : Z, 0 ≤ k → 0 < 10 ^ k) as Hpos by (intros; apply Z.pow_pos_nonneg; lia).
  destruct (no_leading_zero_value _ _ Ha Hva) as [->|Hla];
    destruct (no_leading_zero_value _ _ Hb Hvb) as [->|Hlb]; try done.
  - injection Hva as <-. specialize (Hpos (Z.of_nat (String.length b) - 1)). lia.
  - injection Hvb as <-. specialize (Hpos (Z.of_nat (String.length a) - 1)). lia.
  - apply (decimal_value_inj _ _ v); [| done | done].
    destruct (Nat.lt_trichotomy (String.length a) (String.length b)) as [Hlt|[|Hlt]];
      [exfalso | done | exfalso].
    + assert (10 ^ Z.of_nat (String.length a) ≤ 10 ^ (Z.of_nat (String.length b) - 1))
        by (apply Z.pow_le_mono_r; lia). lia.
    + assert (10 ^ Z.of_nat (String.length b) ≤ 10 ^ (Z.of_nat (String.length a) - 1))
        by (apply Z.pow_le_mono_r; lia). lia.
Qed.

Lemma append_inj (a b x y : string) :
  String.length a = String.length b → a +:+ x = b +:+ y → a = b ∧ x = y.
Proof.
  revert b. induction a as [|c a IH]; intros [|c' b] Hlen; try done.
  injection Hlen as Hlen. rewrite !append_cons. intros [= -> Heq].
  destruct (IH _ Hlen Heq) as [-> ->]. done.
Qed.

Lemma length_join_groups (groups : list string) :
  Forall (λ g, String.length g = 3%nat) groups →
  String.length (join_groups "" groups) = (3 * length groups)%nat.
Proof.
  induction 1 as [|g groups Hg _ IH]; [reflexivity |].
  cbn [join_groups length]. change ("" +:+ g +:+ join_groups "" groups)
    with (g +:+ join_groups "" groups).
  rewrite length_append, Hg, IH. lia.
Qed.

Lemma join_groups_inj (groups1 groups2 : list string) :
  Forall (λ g, String.length g = 3%nat) groups1 →
  Forall (λ g, String.length g = 3%nat) groups2 →
  join_groups "" groups1 = join_groups "" groups2 → groups1 = groups2.
Proof.
  intros H1. revert groups2. induction H1 as [|g1 groups1 Hg1 H1 IH];
    intros groups2 H2 Heq.
  - destruct H2 as [|g2 groups2 Hg2 H2]; [done |].
    apply (f_equal String.length) in Heq.
    rewrite (length_join_groups (g2 :: groups2)) in Heq by by constructor.
    cbn in Heq. lia.
  - destruct H2 as [|g2 groups2 Hg2 H2].
    + apply (f_equal String.length) in Heq.
      rewrite (length_join_groups (g1 :: groups1)) in Heq by by constructor.
      cbn in Heq. lia.
    + cbn [join_groups] in Heq.
      change ("" +:+ g1 +:+ join_groups "" groups1)
        with (g1 +:+ join_groups "" groups1) in Heq.
      change ("" +:+ g2 +:+ join_groups "" groups2)
        with (g2 +:+ join_groups "" groups2) in Heq.
      apply append_inj in Heq as [-> Heq]; [| congruence].
      f_equal. by apply IH.
Qed.

Lemma writes_number_unique (grouped : bool) (d : nat) (n : Z) (s1 s2 : string) :
  writes_number grouped d n s1 → writes_number grouped d n s2 → s1 = s2.
Proof.
  intros (first1 & groups1 & dec1 & -> & Hplain1 & Hone1 & Hcut1 & Hthree1 & Hlen1 & Hval1)
         (first2 & groups2 & dec2 & -> & Hplain2 & Hone2 & Hcut2 & Hthree2 & Hlen2 & Hval2).
  rewrite <- append_assoc, decimal_value_app in Hval1, Hval2.
  destruct (decimal_value (first1 +:+ join_groups "" groups1) 0) as [i1|] eqn:Hint1;
    [| done].
  destruct (decimal_value (first2 +:+ join_groups "" groups2) 0) as [i2|] eqn:Hint2;
    [| done].
  cbn [mbind option_bind] in Hval1, Hval2.
  rewrite decimal_value_acc in Hval1, Hval2.
  destruct (decimal_value dec1 0) as [f1|] eqn:Hfrac1; [| done].
  destruct (decimal_value dec2 0) as [f2|] eqn:Hfrac2; [| done].
  injection Hval1 as Hval1. injection Hval2 as Hval2.
  pose proof (decimal_value_bound _ _ Hfrac1) as Hb1.
  pose proof (decimal_value_bound _ _ Hfrac2) as Hb2.
  rewrite Hlen1 in Hval1, Hb1. rewrite Hlen2 in Hval2, Hb2.
  assert (i1 = i2) as ->.
  { destruct (Z.lt_trichotomy i1 i2) as [?|[?|?]]; [nia | done | nia]. }
  assert (f1 = f2) as -> by lia.
  assert (dec1 = dec2) as ->
    by (apply (decimal_value_inj _ _ f2); [congruence | done | done]).
  pose proof (decimal_value_plain_inj _ _ _ Hplain1 Hplain2 Hint1 Hint2) as Hdigits.
  assert (first1 = first2 ∧ groups1 = groups2) as [-> ->]; [| done].
  destruct grouped.
  - pose proof (f_equal String.length Hdigits) as Hlen.
    rewrite !length_append, !length_join_groups in Hlen by done.
    apply append_inj in Hdigits as [-> Hgroups]; [| lia].
    split; [done |]. by apply join_groups_inj.
  - subst groups1 groups2. cbn [join_groups] in Hdigits.
    rewrite !append_nil_r in Hdigits. done.
Qed.

Lemma prints_fixed_unique (grouped : bool) (d : nat) (x : float) (s1 s2 : string) :
  prints_fixed grouped d x s1 → prints_fixed grouped d x s2 → s1 = s2.
Proof.
  unfold prints_fixed. destruct (Prim2SF x) as [negative|negative| |negative m e].
  - intros (digits1 & Hw1 & ->) (digits2 & Hw2 & ->).
    by rewrite (writes_number_unique _ _ _ _ _ Hw1 Hw2).
  - congruence.
  - congruence.
  - intros (n1 & digits1 & Hn1 & Hw1 & ->) (n2 & digits2 & Hn2 & Hw2 & ->).
    assert (n1 = n2) as ->.
    { eapply (nearest_even_unique _ (2 ^ Z.max (- e) 0)); [| done | done].
      apply Z.pow_pos_nonneg; lia. }
    by rewrite (writes_number_unique _ _ _ _ _ Hw1 Hw2).
Qed.

(** C8. [format_amount] prints amounts of at least 10,000,000 as the amount
    divided by 10,000,000 with two decimals and " Cr", amounts of at least
    100,000 below that as the amount divided by 100,000 with two decimals
    and " L", and every other amount as a thousands-grouped integer, always
    after the rupee sign. What is printed between the rupee sign and the
    unit is the one string that [prints_fixed] allows: the exact value of
    the float rounded to that many decimals, ties to even, with a minus
    sign if the sign bit is set, no superfluous zero, exactly that many
    digits after the point, and a comma before every group of three digits
    of the integer part where grouping is asked for ("inf" and "nan" for
    the floats that are no numbers). 12345678, 250000 and 500 give
    "₹1.23 Cr", "₹2.50 L" and "₹500". *)
Theorem format_amount_renders (amount : float) :
  ((10000000 <=? amount)%float = true →
     ∃ s, format_amount amount = "₹" +:+ s +:+ " Cr"
          ∧ prints_fixed false 2 (amount / 10000000)%float s
          ∧ ∀ s', prints_fixed false 2 (amount / 10000000)%float s' → s' = s)
  ∧ ((10000000 <=? amount)%float = false → (100000 <=? amount)%float = true →
     ∃ s, format_amount amount = "₹" +:+ s +:+ " L"
          ∧ prints_fixed false 2 (amount / 100000)%float s
          ∧ ∀ s', prints_fixed false 2 (amount / 100000)%float s' → s' = s)
  ∧ ((10000000 <=? amount)%float = false → (100000 <=? amount)%float = false →
     ∃ s, format_amount amount = "₹" +:+ s
          ∧ prints_fixed true 0 amount s
          ∧ ∀ s', prints_fixed true 0 amount s' → s' = s)
  ∧ format_amount 12345678 = "₹1.23 Cr"
  ∧ format_amount 250000 = "₹2.50 L"
  ∧ format_amount 500 = "₹500".
Proof.
  assert (∀ grouped d x,
            (grouped = false ∧ d = 2%nat) ∨ (grouped = true ∧ d = 0%nat) →
            prints_fixed grouped d x (format_f grouped d x)
            ∧ ∀ s', prints_fixed grouped d x s' → s' = format_f grouped d x) as Hprints.
  { intros grouped d x Hformat.
    pose proof (format_f_prints_fixed grouped d x Hformat) as Hprinted.
    split; [done |]. intros s' Hs'. by eapply prints_fixed_unique. }
  unfold format_amount. split_and!.
  - intros ->. eexists. split; [reflexivity |]. apply Hprints. by left.
  - intros -> ->. eexists. split; [reflexivity |]. apply Hprints. by left.
  - intros -> ->. eexists. split; [reflexivity |]. apply Hprints. by right.
  - vm_compute. reflexivity.
  - vm_compute. reflexivity.
  - vm_compute. reflexivity.
Qed.

Lemma format_amount_renders_witness :
  ((10000000 <=? 10500000)%float = true
   ∧ format_amount 10500000 = "₹1.05 Cr"
   ∧ prints_fixed false 2 (10500000 / 10000000)%float "1.05")
  ∧ (((10000000 <=? 100500)%float = false ∧ (100000 <=? 100500)%float = true)
     ∧ format_amount 100500 = "₹1.00 L"
     ∧ prints_fixed false 2 (100500 / 100000)%float "1.00")
  ∧ (((10000000 <=? -1234567.5)%float = false ∧ (100000 <=? -1234567.5)%float = false)
     ∧ format_amount (-1234567.5) = "₹-1,234,568"
     ∧ prints_fixed true 0 (-1234567.5) "-1,234,568").
Proof.
  pose proof (format_amount_renders 10500000) as (Hcr & _).
  pose proof (format_amount_renders 100500) as (_ & Hl & _).
  pose proof (format_amount_renders (-1234567.5)) as (_ & _ & Hint & _).
  destruct (Hcr eq_refl) as (s1 & Hs1 & Hp1 & _).
  destruct (Hl eq_refl eq_refl) as (s2 & Hs2 & Hp2 & _).
  destruct (Hint eq_refl eq_refl) as (s3 & Hs3 & Hp3 & _).
  assert (format_amount 10500000 = "₹1.05 Cr") as Hv1 by (vm_compute; reflexivity).
  assert (format_amount 100500 = "₹1.00 L") as Hv2 by (vm_compute; reflexivity).
  assert (format_amount (-1234567.5) = "₹-1,234,568") as Hv3
    by (vm_compute; reflexivity).
  rewrite Hv1 in Hs1. rewrite Hv2 in Hs2. rewrite Hv3 in Hs3.
  assert (s1 = "1.05") as ->.
  { change "₹1.05 Cr" with ("₹" +:+ "1.05" +:+ " Cr") in Hs1.
    apply append_inj in Hs1 as [_ Hs1]; [| done].
    pose proof (f_equal String.length Hs1) as Hlen. rewrite !length_append in Hlen.
    symmetry in Hs1. by apply append_inj in Hs1 as [? _]; [| cbn in Hlen |- *; lia]. }
  assert (s2 = "1.00") as ->.
  { change "₹1.00 L" with ("₹" +:+ "1.00" +:+ " L") in Hs2.
    apply append_inj in Hs2 as [_ Hs2]; [| done].
    pose proof (f_equal String.length Hs2) as Hlen. rewrite !length_append in Hlen.
    symmetry in Hs2. by apply append_inj in Hs2 as [? _]; [| cbn in Hlen |- *; lia]. }
  assert (s3 = "-1,234,568") as ->.
  { change "₹-1,234,568" with ("₹" +:+ "-1,234,568") in Hs3.
    by apply append_inj in Hs3 as [_ ->]. }
  split_and!; done.
Defined.

(** ** Symbolic execution of handlers *)

Ltac run_handler :=
  cbv [serve handler_of run_request publications fresh_session
       assign_lead create_booking confirm_booking cancel_booking
       record_payment mark_payment_paid get_ledger_status get_finance_summary
       login get_current_user get_users create_lead update_lead_status
       get_booking_by_lead
       try_except mbind M_bind mret M_ret raise modify_session for_each
       datetime_now datetime_fromisoformat payment_date_or_now
       query_user_first query_lead_first query_unit_first query_booking_first
       query_schedule_first query_schedules_all
       query_lead_by_phone query_user_by_credentials query_active_users
       query_booking_by_lead
       setattr_user setattr_lead setattr_unit setattr_booking setattr_schedule
       db_add_flush_booking db_add_flush_lead db_add_schedule db_commit db_rollback
       committed session pending ticks published schedule_template
       with_users with_leads with_units with_bookings with_payment_schedules
       users leads units bookings payment_schedules fst snd];
  cbn [app].

(** ** Keyed tables *)

Lemma alter_present {A : Type} (f : A → A) (m : gmap Z A) (k : Z) (x : A) :
  m !! k = Some x → alter f k m = <[k := f x]> m.
Proof.
  intros Hk. apply map_eq. intros j.
  destruct (decide (k = j)) as [<-|Hne].
  - by rewrite lookup_alter_eq, lookup_insert_eq, Hk.
  - by rewrite lookup_alter_ne, lookup_insert_ne.
Qed.

Lemma alter_absent {A : Type} (f : A → A) (m : gmap Z A) (k : Z) :
  m !! k = None → alter f k m = m.
Proof.
  intros Hk. apply map_eq. intros j.
  destruct (decide (k = j)) as [<-|Hne].
  - by rewrite lookup_alter_eq, Hk.
  - by rewrite lookup_alter_ne.
Qed.

Lemma has_key_true {A : Type} (m : gmap Z A) (k : Z) :
  has_key m k = true ↔ is_Some (m !! k).
Proof.
  unfold has_key. destruct (m !! k); split; intros H; eauto; done.
Qed.

Lemma has_key_false {A : Type} (m : gmap Z A) (k : Z) :
  has_key m k = false ↔ m !! k = None.
Proof. unfold has_key. by destruct (m !! k). Qed.

Lemma has_key_insert {A : Type} (m : gmap Z A) (k : Z) (x : A) :
  has_key (<[k := x]> m) k = true.
Proof. unfold has_key. by rewrite lookup_insert_eq. Qed.

(** Every key in use is below the next id. *)
Lemma next_id_above {A : Type} (m : gmap Z A) (k : Z) :
  is_Some (m !! k) → k < next_id m.
Proof.
  unfold next_id.
  apply (map_fold_weak_ind
           (λ r m, is_Some (m !! k) → k < 1 + r) (λ k _ acc, Z.max k acc) 0).
  - rewrite lookup_empty. by intros [? ?].
  - intros i x m' r Hi IH Hk.
    destruct (decide (i = k)) as [->|Hne]; [lia |].
    rewrite lookup_insert_ne in Hk by done. specialize (IH Hk). lia.
Qed.

Lemma next_id_fresh {A : Type} (m : gmap Z A) : m !! next_id m = None.
Proof.
  destruct (m !! next_id m) eqn:E; [| done].
  assert (next_id m < next_id m) by (apply next_id_above; eauto). lia.
Qed.

(** ** Flushing pending schedule rows *)

Lemma flush_schedules_accepts (fk : bool) (ps : list (Z → PaymentSchedule.t))
    (t : Tables) :
  (fk = false
   ∨ ∀ p n, p ∈ ps → has_key (bookings t) (PaymentSchedule.booking_id (p n)) = true) →
  flush_schedules fk ps t
  = inr (mkTables (users t) (leads t) (units t) (bookings t)
           (append_numbered ps (payment_schedules t))).
Proof.
  revert t. induction ps as [|p ps IH]; intros t Hok.
  - by destruct t.
  - cbn [flush_schedules append_numbered].
    assert (fk && negb (has_key (bookings t)
                          (PaymentSchedule.booking_id
                             (p (next_schedule_id (payment_schedules t)))))
            = false) as ->.
    { destruct Hok as [->|Hok]; [done |].
      rewrite Hok by apply list_elem_of_here. by destruct fk. }
    rewrite IH; [done |].
    destruct Hok as [->|Hok]; [by left | right].
    intros q n Hq. apply Hok. by apply list_elem_of_further.
Qed.

Lemma flush_schedules_nil (fk : bool) (t : Tables) : flush_schedules fk [] t = inr t.
Proof. reflexivity. Qed.

Lemma append_numbered_prefix (ps : list (Z → PaymentSchedule.t))
    (rows : list PaymentSchedule.t) :
  ∃ added, append_numbered ps rows = rows ++ added ∧ length added = length ps.
Proof.
  revert rows. induction ps as [|p ps IH]; intros rows.
  - exists []. by rewrite app_nil_r.
  - cbn [append_numbered]. destruct (IH (rows ++ [p (next_schedule_id rows)]))
      as (added & -> & Hlen).
    exists (p (next_schedule_id rows) :: added). split.
    + by rewrite <- app_assoc.
    + cbn. by rewrite Hlen.
Qed.

(** ** Rows change only along the relations *)

Lemma status_reaches_refl (s : string) : status_reaches s s.
Proof. by left. Qed.

Lemma status_reaches_trans (s1 s2 s3 : string) :
  status_reaches s1 s2 → status_reaches s2 s3 → status_reaches s1 s3.
Proof.
  unfold status_reaches.
  intros [->|[->|[-> ->]]] [->|[->|[? ->]]]; try discriminate; auto.
Qed.

Lemma user_evolves_refl (u : User.t) : user_evolves u u.
Proof. split; [by destruct u | lia]. Qed.

Lemma user_evolves_trans (u1 u2 u3 : User.t) :
  user_evolves u1 u2 → user_evolves u2 u3 → user_evolves u1 u3.
Proof.
  intros [H12 ?] [H23 ?]. split; [| lia].
  rewrite H23, H12. by destruct u1.
Qed.

Lemma lead_evolves_refl (l : Lead.t) : lead_evolves l l.
Proof. by repeat split. Qed.

Lemma lead_evolves_trans (l1 l2 l3 : Lead.t) :
  lead_evolves l1 l2 → lead_evolves l2 l3 → lead_evolves l1 l3.
Proof.
  unfold lead_evolves. intros (?&?&?&?&?&?) (?&?&?&?&?&?).
  split_and!; congruence.
Qed.

Lemma unit_evolves_refl (u : Unit.t) : unit_evolves u u.
Proof. by destruct u. Qed.

Lemma unit_evolves_trans (u1 u2 u3 : Unit.t) :
  unit_evolves u1 u2 → unit_evolves u2 u3 → unit_evolves u1 u3.
Proof. unfold unit_evolves. intros H12 H23. rewrite H23, H12. by destruct u1. Qed.

Lemma booking_evolves_refl (b : Booking.t) : booking_evolves b b.
Proof. split; [by destruct b | apply status_reaches_refl]. Qed.

Lemma booking_evolves_trans (b1 b2 b3 : Booking.t) :
  booking_evolves b1 b2 → booking_evolves b2 b3 → booking_evolves b1 b3.
Proof.
  intros [H12 ?] [H23 ?]. split; [| by eapply status_reaches_trans].
  rewrite H23, H12. by destruct b1.
Qed.

Lemma schedule_evolves_refl (s : PaymentSchedule.t) : schedule_evolves s s.
Proof. by repeat split. Qed.

Lemma schedule_evolves_trans (s1 s2 s3 : PaymentSchedule.t) :
  schedule_evolves s1 s2 → schedule_evolves s2 s3 → schedule_evolves s1 s3.
Proof.
  unfold schedule_evolves. intros (?&?&?&?&?&?) (?&?&?&?&?&?).
  split_and!; try congruence. auto.
Qed.

Lemma user_evolves_count (u u' : User.t) (n : Z) :
  user_evolves u u' → User.active_leads_count u' ≤ n →
  user_evolves u (User.set_active_leads_count n u').
Proof.
  intros [Hu Hle] Hn. split; cbn; [| lia]. rewrite Hu. by destruct u.
Qed.

Lemma lead_evolves_status (v : string) (l l' : Lead.t) :
  lead_evolves l l' → lead_evolves l (Lead.set_status v l').
Proof. done. Qed.

Lemma lead_evolves_owner (v : option Z) (l l' : Lead.t) :
  lead_evolves l l' → lead_evolves l (Lead.set_owner_id v l').
Proof. done. Qed.

Lemma lead_evolves_followup (v : option datetime) (l l' : Lead.t) :
  lead_evolves l l' → lead_evolves l (Lead.set_next_followup v l').
Proof. done. Qed.

Lemma lead_evolves_contact (v : option datetime) (l l' : Lead.t) :
  lead_evolves l l' → lead_evolves l (Lead.set_last_contact v l').
Proof. done. Qed.

Lemma unit_evolves_status (v : string) (u u' : Unit.t) :
  unit_evolves u u' → unit_evolves u (Unit.set_status v u').
Proof. unfold unit_evolves. intros ->. by destruct u. Qed.

Lemma unit_evolves_booking (v : option Z) (u u' : Unit.t) :
  unit_evolves u u' → unit_evolves u (Unit.set_booking_id v u').
Proof. unfold unit_evolves. intros ->. by destruct u. Qed.

Lemma booking_evolves_cancel (b b' : Booking.t) :
  booking_evolves b b' → booking_evolves b (Booking.set_status "CANCELLED" b').
Proof.
  intros [Hb _]. split; [| right; by left]. rewrite Hb. by destruct b.
Qed.

Lemma booking_evolves_confirm (b b' : Booking.t) :
  booking_evolves b b' → Booking.status b' = "PENDING" →
  booking_evolves b (Booking.set_status "CONFIRMED" b').
Proof.
  intros [Hb Hst] Hpending. split; [rewrite Hb; by destruct b |].
  rewrite Hpending in Hst. cbn.
  destruct Hst as [Hst|[Hst|[_ Hst]]]; try discriminate.
  right; right. by rewrite <- Hst.
Qed.

Lemma schedule_evolves_paid (s s' : PaymentSchedule.t) :
  schedule_evolves s s' → schedule_evolves s (PaymentSchedule.set_status "Paid" s').
Proof. unfold schedule_evolves. intros (?&?&?&?&?&?). by split_and!. Qed.

Lemma schedule_evolves_payment_date (v : option datetime) (s s' : PaymentSchedule.t) :
  schedule_evolves s s' → schedule_evolves s (PaymentSchedule.set_payment_date v s').
Proof. done. Qed.

Lemma schedule_evolves_payment_ref (v : option string) (s s' : PaymentSchedule.t) :
  schedule_evolves s s' → schedule_evolves s (PaymentSchedule.set_payment_ref v s').
Proof. done. Qed.

Lemma schedule_evolves_amount (v : float) (s s' : PaymentSchedule.t) :
  schedule_evolves s s' → schedule_evolves s (PaymentSchedule.set_amount v s').
Proof. done. Qed.

Create HintDb evolve.
#[local] Hint Resolve user_evolves_refl lead_evolves_refl unit_evolves_refl
  booking_evolves_refl schedule_evolves_refl
  lead_evolves_status lead_evolves_owner lead_evolves_followup lead_evolves_contact
  unit_evolves_status unit_evolves_booking booking_evolves_cancel
  schedule_evolves_paid schedule_evolves_payment_date schedule_evolves_payment_ref
  schedule_evolves_amount : evolve.

Section TableEvolves.
Context {A : Type} (R : A → A → Prop).

Lemma map_evolves_refl (m : gmap Z A) : (∀ x, R x x) → map_evolves R m m.
Proof. intros Hrefl k x Hk. eauto. Qed.

Lemma map_evolves_trans (m1 m2 m3 : gmap Z A) :
  (∀ x y z, R x y → R y z → R x z) →
  map_evolves R m1 m2 → map_evolves R m2 m3 → map_evolves R m1 m3.
Proof.
  intros Htrans H12 H23 k x Hk.
  destruct (H12 k x Hk) as (y & Hy & Hxy).
  destruct (H23 k y Hy) as (z & Hz & Hyz). eauto.
Qed.

Lemma map_evolves_alter (m m' : gmap Z A) (f : A → A) (k : Z) :
  map_evolves R m m' →
  (∀ x y, m' !! k = Some y → R x y → R x (f y)) →
  map_evolves R m (alter f k m').
Proof.
  intros Hm Hf j x Hj. destruct (Hm j x Hj) as (y & Hy & Hxy).
  destruct (decide (k = j)) as [->|Hne].
  - exists (f y). rewrite lookup_alter_eq, Hy. eauto.
  - exists y. by rewrite lookup_alter_ne.
Qed.

Lemma map_evolves_insert_fresh (m m' : gmap Z A) (k : Z) (x : A) :
  map_evolves R m m' → m' !! k = None → map_evolves R m (<[k := x]> m').
Proof.
  intros Hm Hk j y Hj. destruct (Hm j y Hj) as (y' & Hy' & Hyy').
  exists y'. split; [| done]. rewrite lookup_insert_ne; [done |]. congruence.
Qed.
End TableEvolves.

Lemma no_new_keys_refl {A : Type} (m : gmap Z A) : no_new_keys m m.
Proof. by intros k. Qed.

Lemma no_new_keys_alter {A : Type} (m m' : gmap Z A) (f : A → A) (k : Z) :
  no_new_keys m m' → no_new_keys m (alter f k m').
Proof.
  intros Hm j Hj. specialize (Hm j Hj).
  destruct (decide (k = j)) as [->|Hne].
  - by rewrite lookup_alter_eq, Hm.
  - by rewrite lookup_alter_ne.
Qed.

Lemma no_new_keys_trans {A : Type} (m1 m2 m3 : gmap Z A) :
  no_new_keys m1 m2 → no_new_keys m2 m3 → no_new_keys m1 m3.
Proof. intros H12 H23 k Hk. auto. Qed.

Lemma rows_evolve_refl (rows : list PaymentSchedule.t) : rows_evolve rows rows.
Proof. intros i s Hi. eauto using schedule_evolves_refl. Qed.

Lemma rows_evolve_trans (r1 r2 r3 : list PaymentSchedule.t) :
  rows_evolve r1 r2 → rows_evolve r2 r3 → rows_evolve r1 r3.
Proof.
  intros H12 H23 i s Hi.
  destruct (H12 i s Hi) as (s2 & H2 & ?). destruct (H23 i s2 H2) as (s3 & H3 & ?).
  eauto using schedule_evolves_trans.
Qed.

Lemma rows_evolve_alter (rows rows' : list PaymentSchedule.t)
    (f : PaymentSchedule.t → PaymentSchedule.t) (pos : nat) :
  rows_evolve rows rows' →
  (∀ s s', schedule_evolves s s' → schedule_evolves s (f s')) →
  rows_evolve rows (alter f pos rows').
Proof.
  intros Hrows Hf i s Hi. destruct (Hrows i s Hi) as (s' & Hs' & Hss').
  destruct (decide (pos = i)) as [->|Hne].
  - exists (f s'). rewrite list_lookup_alter_eq, Hs'. eauto.
  - exists s'. by rewrite list_lookup_alter_ne.
Qed.

Lemma rows_evolve_app (rows rows' added : list PaymentSchedule.t) :
  rows_evolve rows rows' → rows_evolve rows (rows' ++ added).
Proof.
  intros Hrows i s Hi. destruct (Hrows i s Hi) as (s' & Hs' & Hss').
  exists s'. split; [| done]. by apply lookup_app_l_Some.
Qed.

Lemma rows_evolve_append_numbered (rows rows' : list PaymentSchedule.t)
    (ps : list (Z → PaymentSchedule.t)) :
  rows_evolve rows rows' → rows_evolve rows (append_numbered ps rows').
Proof.
  intros Hrows. destruct (append_numbered_prefix ps rows') as (added & -> & _).
  by apply rows_evolve_app.
Qed.

Lemma evolves_refl (db : Tables) : evolves db db.
Proof.
  unfold evolves.
  split_and!; auto using map_evolves_refl, no_new_keys_refl, rows_evolve_refl with evolve.
Qed.

Lemma evolves_trans (db1 db2 db3 : Tables) :
  evolves db1 db2 → evolves db2 db3 → evolves db1 db3.
Proof.
  unfold evolves. intros (?&?&?&?&?&?&?) (?&?&?&?&?&?&?).
  split_and!;
    eauto using map_evolves_trans, no_new_keys_trans, rows_evolve_trans,
      user_evolves_trans, lead_evolves_trans, unit_evolves_trans,
      booking_evolves_trans.
Qed.

(** Closes a goal [evolves db db'] where [db'] is built from the tables of
    [db] by the updates of a handler. *)
Ltac table_step :=
  first
    [ apply map_evolves_refl; auto with evolve
    | apply no_new_keys_refl
    | apply rows_evolve_refl
    | apply map_evolves_insert_fresh; [| apply next_id_fresh]
    | apply map_evolves_alter; [| try solve [intros ? ? ? ?; eauto with evolve]]
    | apply no_new_keys_alter
    | apply rows_evolve_alter; [| try solve [intros ? ? ?; eauto with evolve]]
    | apply rows_evolve_append_numbered
    | apply rows_evolve_app ].

Ltac evolves_tac :=
  unfold evolves; cbn [users leads units bookings payment_schedules];
  split_and!; repeat table_step.

(** ** Booking creation, step by step *)

Lemma max_id_nonneg (rows : list PaymentSchedule.t) :
  0 ≤ foldr (λ s acc, Z.max (PaymentSchedule.id s) acc) 0 rows.
Proof. induction rows as [|r rows IH]; cbn; lia. Qed.

Lemma max_id_app (rows more : list PaymentSchedule.t) :
  foldr (λ s acc, Z.max (PaymentSchedule.id s) acc) 0 (rows ++ more)
  = Z.max (foldr (λ s acc, Z.max (PaymentSchedule.id s) acc) 0 rows)
          (foldr (λ s acc, Z.max (PaymentSchedule.id s) acc) 0 more).
Proof.
  induction rows as [|r rows IH]; cbn.
  - pose proof (max_id_nonneg more). lia.
  - rewrite IH. lia.
Qed.

(** A row inserted under the next free id moves the next free id by one. *)
Lemma next_schedule_id_snoc (rows : list PaymentSchedule.t) (r : PaymentSchedule.t) :
  PaymentSchedule.id r = next_schedule_id rows →
  next_schedule_id (rows ++ [r]) = next_schedule_id rows + 1.
Proof.
  unfold next_schedule_id. intros Hid. rewrite max_id_app. cbn. rewrite Hid.
  pose proof (max_id_nonneg rows). lia.
Qed.

(** The id handed to a new schedule row is used by no row of the table. *)
Lemma next_schedule_id_fresh (rows : list PaymentSchedule.t) (r : PaymentSchedule.t) :
  r ∈ rows → PaymentSchedule.id r < next_schedule_id rows.
Proof.
  unfold next_schedule_id. induction rows as [|r' rows IH]; intros Hin.
  - by apply elem_of_nil in Hin.
  - apply elem_of_cons in Hin as [->|Hin]; cbn; [lia |]. specialize (IH Hin). lia.
Qed.

(** Pending rows that store the id they are given end up after the old
    rows, numbered consecutively from the next free id. *)
Lemma append_numbered_ids (ps : list (Z → PaymentSchedule.t))
    (rows : list PaymentSchedule.t) :
  (∀ p n, p ∈ ps → PaymentSchedule.id (p n) = n) →
  append_numbered ps rows
  = rows ++ imap (λ i p, p (next_schedule_id rows + Z.of_nat i)) ps.
Proof.
  revert rows. induction ps as [|p ps IH]; intros rows Hid.
  - cbn. by rewrite app_nil_r.
  - cbn [append_numbered imap]. rewrite IH.
    + rewrite <- app_assoc. cbn [app]. rewrite Z.add_0_r. do 2 f_equal.
      apply imap_ext. intros i q _. cbn.
      rewrite next_schedule_id_snoc by (apply Hid, list_elem_of_here).
      f_equal. lia.
    + intros q n Hq. apply Hid. by apply list_elem_of_further.
Qed.

Ltac booking_rows_accepted :=
  rewrite flush_schedules_accepts;
  [| right; intros p n Hp;
     repeat (apply elem_of_cons in Hp as [->|Hp]; [apply has_key_insert |]);
     by apply elem_of_nil in Hp ].

Ltac booking_done :=
  run_handler; booking_rows_accepted; run_handler;
  rewrite append_numbered_ids;
  [| intros p n Hp;
     repeat (apply elem_of_cons in Hp as [->|Hp]; [reflexivity |]);
     by apply elem_of_nil in Hp ];
  cbn [imap booking_schedule_rows schedule_template zip_with Z.of_nat
       Pos.of_succ_nat Pos.succ Nat.add compose];
  reflexivity.

Lemma create_booking_run (env : Env) (db : Tables) (booking_data : BookingCreate.t) :
  run_request (create_booking env booking_data) db
  = if insert_accepted env db booking_data then
      (Returned (booking_answer (next_id (bookings db)) booking_data),
       tables_after_booking env booking_data db)
    else
      (Raised (HTTPException 500
                 "Booking creation failed: insert on table bookings violates a foreign key constraint"),
       db).
Proof.
  destruct db as [us ls un bs ps].
  unfold insert_accepted, tables_after_booking, booking_payment_date, booking_answer,
    has_key.
  run_handler.
  cbn [new_booking_row Booking.lead_id Booking.created_by]. unfold has_key.
  destruct (ls !! BookingCreate.lead_id booking_data) eqn:Hlead;
    destruct (us !! 1) eqn:Huser;
    destruct (un !! BookingCreate.unit_id booking_data) eqn:Hunit;
    destruct (foreign_keys env) eqn:Hfk;
    cbn [andb orb negb];
    rewrite ?(alter_absent _ ls _ Hlead), ?(alter_absent _ un _ Hunit);
    rewrite ?(alter_absent _ un _ Hunit);
    (destruct (truthy_str (BookingCreate.payment_date booking_data)) eqn:Hdate;
     [destruct (fromisoformat env _) as [d|] eqn:Hparse |]);
    run_handler; rewrite ?Hunit, ?Hlead, ?Huser; cbn [andb negb]; try reflexivity.
  all: rewrite ?Hunit; run_handler; rewrite ?Hlead; booking_done.
Qed.

(** ** Every request changes the tables only along [evolves] *)

Ltac case_split :=
  repeat (match goal with
          | |- context [match List.find ?p ?l with _ => _ end] =>
              destruct (List.find p l) as [[? ?]|] eqn:?
          | |- context [match ?x with _ => _ end] =>
              lazymatch x with
              | context [match _ with _ => _ end] => fail
              | _ => destruct x eqn:?
              end
          end; run_handler; cbn [flush_schedules negb andb]).

Lemma create_booking_evolves (env : Env) (db : Tables) (booking_data : BookingCreate.t) :
  evolves db (serve env (POST_booking booking_data) db).
Proof.
  unfold serve. cbn [handler_of]. rewrite create_booking_run.
  destruct (insert_accepted env db booking_data); cbn [snd].
  - unfold tables_after_booking. evolves_tac.
  - apply evolves_refl.
Qed.

Lemma confirm_booking_evolves (env : Env) (db : Tables) (booking_id : Z) :
  evolves db (serve env (PATCH_booking_confirm booking_id) db).
Proof.
  destruct db as [us ls un bs ps]. run_handler. case_split.
  all: try apply evolves_refl.
  all: evolves_tac.
  all: intros x y Hy Hxy; apply booking_evolves_confirm; [done |].
  all: assert (y = t) as -> by congruence.
  all: by destruct (String.eqb_spec (Booking.status t) "PENDING").
Qed.

Lemma simple_requests_evolve (env : Env) (db : Tables) (r : Request) :
  match r with
  | POST_booking _ | PATCH_booking_confirm _ | POST_leads_assign _ _
  | POST_leads _ _ => True
  | _ => evolves db (serve env r db)
  end.
Proof.
  destruct r; try exact I; destruct db as [us ls un bs ps]; run_handler; case_split.
  all: try apply evolves_refl.
  all: evolves_tac.
Qed.

Lemma assign_lead_evolves (env : Env) (db : Tables) (lead_id : Z)
    (assign_data : AssignLeadRequest.t) :
  evolves db (serve env (POST_leads_assign lead_id assign_data) db).
Proof.
  destruct db as [us ls un bs ps]. run_handler. case_split.
  all: try apply evolves_refl.
  all: evolves_tac.
  all: intros x y Hy Hxy; apply user_evolves_count; [done | lia].
Qed.

Lemma create_lead_evolves (env : Env) (db : Tables) (created_at : datetime)
    (lead : LeadCreate.t) :
  evolves db (serve env (POST_leads created_at lead) db).
Proof.
  destruct db as [us ls un bs ps]. run_handler. case_split.
  all: try apply evolves_refl.
  all: evolves_tac.
Qed.

Lemma serve_evolves (env : Env) (r : Request) (db : Tables) :
  evolves db (serve env r db).
Proof.
  pose proof (simple_requests_evolve env db r) as Hsimple.
  destruct r;
    auto using create_booking_evolves, confirm_booking_evolves,
      assign_lead_evolves, create_lead_evolves.
Qed.

Lemma serve_all_evolves (rs : list (Env * Request)) (db : Tables) :
  evolves db (serve_all rs db).
Proof.
  revert db. induction rs as [|[env r] rs IH]; intros db.
  - apply evolves_refl.
  - cbn [serve_all]. eapply evolves_trans; [apply serve_evolves | apply IH].
Qed.

(** ** What no sequence of requests does

    A request is one of [Request]: the routes on users, leads, bookings
    and payments. The routes on documents, interactions and visits, which
    write to tables left out here, are not covered. *)

(** X1. No request deletes anything: whatever requests are served, every
    user, lead, unit and booking found before is still found under its
    key, and the schedule table has at least as many rows. *)
Theorem nothing_is_ever_deleted (rs : list (Env * Request)) (db : Tables) :
  let db' := serve_all rs db in
  (∀ k, is_Some (users db !! k) → is_Some (users db' !! k))
  ∧ (∀ k, is_Some (leads db !! k) → is_Some (leads db' !! k))
  ∧ (∀ k, is_Some (units db !! k) → is_Some (units db' !! k))
  ∧ (∀ k, is_Some (bookings db !! k) → is_Some (bookings db' !! k))
  ∧ (length (payment_schedules db) ≤ length (payment_schedules db'))%nat.
Proof.
  destruct (serve_all_evolves rs db) as (Hu & _ & Hl & Hn & _ & Hb & Hp).
  cbv zeta. split_and!.
  - intros k [x Hx]. destruct (Hu k x Hx) as (? & ? & _). eauto.
  - intros k [x Hx]. destruct (Hl k x Hx) as (? & ? & _). eauto.
  - intros k [x Hx]. destruct (Hn k x Hx) as (? & ? & _). eauto.
  - intros k [x Hx]. destruct (Hb k x Hx) as (? & ? & _). eauto.
  - destruct (decide (length (payment_schedules db)
                      ≤ length (payment_schedules (serve_all rs db)))%nat)
      as [|Hlt]; [done |].
    destruct (payment_schedules db !! length (payment_schedules (serve_all rs db)))
      as [s|] eqn:Hs.
    + destruct (Hp _ s Hs) as (s' & Hs' & _).
      apply lookup_lt_Some in Hs'. lia.
    + apply lookup_ge_None in Hs. lia.
Qed.

Lemma nothing_is_ever_deleted_witness :
  is_Some (bookings booked_db !! 1)
  ∧ is_Some (bookings (serve_all sample_afternoon booked_db) !! 1).
Proof.
  assert (is_Some (bookings booked_db !! 1)) as Hb by (vm_compute; eauto).
  split; [exact Hb |].
  destruct (nothing_is_ever_deleted sample_afternoon booked_db) as (_ & _ & _ & H & _).
  exact (H 1 Hb).
Defined.

(** X2. The lead counter of a user never goes down and nothing else about
    a user ever changes: after any sequence of requests a user has the
    same name, contact details, role, password, capacity and active flag,
    and an [active_leads_count] at least as large as before. No request
    releases a lead from a user's count. *)
Theorem lead_counter_never_decreases (rs : list (Env * Request)) (db : Tables)
    (k : Z) (u : User.t) :
  users db !! k = Some u →
  ∃ u', users (serve_all rs db) !! k = Some u'
        ∧ User.active_leads_count u ≤ User.active_leads_count u'
        ∧ User.capacity u' = User.capacity u
        ∧ User.name u' = User.name u
        ∧ User.email u' = User.email u
        ∧ User.phone u' = User.phone u
        ∧ User.role u' = User.role u
        ∧ User.password u' = User.password u
        ∧ User.avatar u' = User.avatar u
        ∧ User.is_active u' = User.is_active u.
Proof.
  intros Hu. destruct (serve_all_evolves rs db) as (Hus & _).
  destruct (Hus k u Hu) as (u' & Hu' & Heq & Hle).
  exists u'. split_and!; try done; rewrite Heq; by destruct u.
Qed.

Lemma lead_counter_never_decreases_witness :
  users sample_db !! 1 = Some admin
  ∧ ∃ u', users (serve_all sample_day sample_db) !! 1 = Some u'
          ∧ User.active_leads_count admin ≤ User.active_leads_count u'
          ∧ User.capacity u' = User.capacity admin
          ∧ User.name u' = User.name admin
          ∧ User.email u' = User.email admin
          ∧ User.phone u' = User.phone admin
          ∧ User.role u' = User.role admin
          ∧ User.password u' = User.password admin
          ∧ User.avatar u' = User.avatar admin
          ∧ User.is_active u' = User.is_active admin.
Proof.
  split; [reflexivity |].
  apply (lead_counter_never_decreases sample_day sample_db 1 admin). reflexivity.
Defined.

(** X3. The terms of a booking are final and its status only moves
    forward: after any sequence of requests a booking differs from what it
    was at most in its status, which is unchanged, or CANCELLED, or has
    gone from PENDING to CONFIRMED. A CANCELLED booking stays CANCELLED and
    a CONFIRMED one never returns to PENDING. *)
Theorem booking_terms_are_final (rs : list (Env * Request)) (db : Tables)
    (k : Z) (b : Booking.t) :
  bookings db !! k = Some b →
  ∃ b', bookings (serve_all rs db) !! k = Some b'
        ∧ b' = Booking.set_status (Booking.status b') b
        ∧ (Booking.status b' = Booking.status b
           ∨ Booking.status b' = "CANCELLED"
           ∨ (Booking.status b = "PENDING" ∧ Booking.status b' = "CONFIRMED"))
        ∧ (Booking.status b = "CANCELLED" → Booking.status b' = "CANCELLED")
        ∧ (Booking.status b = "CONFIRMED" → Booking.status b' ≠ "PENDING").
Proof.
  intros Hb. destruct (serve_all_evolves rs db) as (_ & _ & _ & _ & _ & Hbs & _).
  destruct (Hbs k b Hb) as (b' & Hb' & Heq & Hst).
  exists b'. split_and!; [done | done | exact Hst | |].
  - intros Hc. destruct Hst as [->|[->|[Hp _]]]; [done | done | congruence].
  - intros Hc. destruct Hst as [->|[->|[Hp _]]]; [by rewrite Hc | done | congruence].
Qed.

Lemma booking_terms_are_final_witness :
  bookings booked_db !! 1
  = Some (new_booking_row (sample_request 7 3 8000000 None None) None)
  ∧ ∃ b', bookings (serve_all sample_afternoon booked_db) !! 1 = Some b'
          ∧ Booking.deal_amount b' = 8000000%float.
Proof.
  assert (bookings booked_db !! 1
          = Some (new_booking_row (sample_request 7 3 8000000 None None) None)) as Hb
    by (vm_compute; reflexivity).
  split; [exact Hb |].
  destruct (booking_terms_are_final sample_afternoon booked_db 1 _ Hb)
    as (b' & Hb' & Heq & _).
  exists b'. split; [exact Hb' |]. rewrite Heq. reflexivity.
Defined.

(** X4. A payment is never taken back: after any sequence of requests the
    schedule row at a given position is the row of the same id, booking,
    milestone, due date and payer, and if it was Paid it is still Paid. *)
Theorem paid_rows_stay_paid (rs : list (Env * Request)) (db : Tables)
    (i : nat) (s : PaymentSchedule.t) :
  payment_schedules db !! i = Some s →
  ∃ s', payment_schedules (serve_all rs db) !! i = Some s'
        ∧ PaymentSchedule.id s' = PaymentSchedule.id s
        ∧ PaymentSchedule.booking_id s' = PaymentSchedule.booking_id s
        ∧ PaymentSchedule.milestone s' = PaymentSchedule.milestone s
        ∧ PaymentSchedule.due_date s' = PaymentSchedule.due_date s
        ∧ PaymentSchedule.payer s' = PaymentSchedule.payer s
        ∧ (PaymentSchedule.status s = "Paid" → PaymentSchedule.status s' = "Paid").
Proof.
  intros Hs. destruct (serve_all_evolves rs db) as (_ & _ & _ & _ & _ & _ & Hrows).
  destruct (Hrows i s Hs) as (s' & Hs' & Hev). exists s'. by split.
Qed.

Lemma paid_rows_stay_paid_witness :
  payment_schedules settled_db !! 1%nat
  = Some (PaymentSchedule.mk 2 1 "Allotment" (Some 1702592000000001) 2000000
            "Customer" "Paid" (Some 1700000000000000) (Some "NEFT-42"))
  ∧ ∃ s', payment_schedules (serve_all sample_afternoon settled_db) !! 1%nat = Some s'
          ∧ PaymentSchedule.status s' = "Paid".
Proof.
  assert (payment_schedules settled_db !! 1%nat
          = Some (PaymentSchedule.mk 2 1 "Allotment" (Some 1702592000000001) 2000000
                    "Customer" "Paid" (Some 1700000000000000) (Some "NEFT-42"))) as Hs
    by (vm_compute; reflexivity).
  split; [exact Hs |].
  destruct (paid_rows_stay_paid sample_afternoon settled_db 1 _ Hs)
    as (s' & Hs' & _ & _ & _ & _ & _ & Hst).
  exists s'. split; [exact Hs' | exact (Hst eq_refl)].
Defined.

(** X5. The contact details of a lead and the inventory data of a unit are
    never rewritten, and no request creates a user or a unit: after any
    sequence of requests a lead keeps its name, phone, email, budget,
    source and project, a unit changes at most in its status and booking
    link, and the users and units tables have no new keys. *)
Theorem leads_and_units_keep_their_identity (rs : list (Env * Request)) (db : Tables) :
  let db' := serve_all rs db in
  (∀ k l, leads db !! k = Some l →
     ∃ l', leads db' !! k = Some l'
           ∧ Lead.name l' = Lead.name l ∧ Lead.phone l' = Lead.phone l
           ∧ Lead.email l' = Lead.email l ∧ Lead.budget l' = Lead.budget l
           ∧ Lead.source l' = Lead.source l
           ∧ Lead.project_id l' = Lead.project_id l)
  ∧ (∀ k u, units db !! k = Some u →
       ∃ u', units db' !! k = Some u'
             ∧ u' = Unit.set_booking_id (Unit.booking_id u')
                      (Unit.set_status (Unit.status u') u))
  ∧ (∀ k, users db !! k = None → users db' !! k = None)
  ∧ (∀ k, units db !! k = None → units db' !! k = None).
Proof.
  destruct (serve_all_evolves rs db) as (_ & Hnu & Hl & Hn & Hnn & _).
  cbv zeta. split_and!; [exact Hl | exact Hn | exact Hnu | exact Hnn].
Qed.

Lemma leads_and_units_keep_their_identity_witness :
  leads sample_db !! 7 = Some sample_lead
  ∧ ∃ l', leads (serve_all sample_day sample_db) !! 7 = Some l'
          ∧ Lead.phone l' = "9811111111".
Proof.
  split; [reflexivity |].
  destruct (leads_and_units_keep_their_identity sample_day sample_db) as (Hl & _).
  destruct (Hl 7 sample_lead eq_refl) as (l' & Hl' & _ & Hphone & _).
  exists l'. split; [exact Hl' | exact Hphone].
Defined.

(** ** Scanning a keyed table *)

Lemma find_table_Some {A : Type} (f : Z * A → bool) (m : gmap Z A) (k : Z) (x : A) :
  List.find f (map_to_list m) = Some (k, x) → m !! k = Some x ∧ f (k, x) = true.
Proof.
  intros Hfind. apply find_some in Hfind as [Hin Hf]. split; [| done].
  by apply elem_of_map_to_list, list_elem_of_In.
Qed.

Lemma find_table_None {A : Type} (f : Z * A → bool) (m : gmap Z A) :
  List.find f (map_to_list m) = None → ∀ k x, m !! k = Some x → f (k, x) = false.
Proof.
  intros Hfind k x Hk. apply (find_none _ _ Hfind).
  by apply list_elem_of_In, elem_of_map_to_list.
Qed.

Lemma find_table_is_Some {A : Type} (f : Z * A → bool) (m : gmap Z A) (k : Z) (x : A) :
  m !! k = Some x → f (k, x) = true → is_Some (List.find f (map_to_list m)).
Proof.
  intros Hk Hf. destruct (List.find f (map_to_list m)) eqn:Hfind; [eauto |].
  rewrite (find_table_None _ _ Hfind k x Hk) in Hf. discriminate.
Qed.

(** ** Lead status updates *)

(** X6. For a lead id within 64 bits, updating a lead's status fails with
    404, changing nothing, when the lead does not exist. Otherwise the
    given status is stored as it is, whatever it says, [last_contact] is
    stamped with the current time, [next_followup] is cleared exactly when
    the status is "BOOKED", and nothing else changes: not the owner of the
    lead, and no user's lead count. *)
Theorem update_lead_status_stores_any_status (env : Env) (db : Tables) (lead_id : Z)
    (status_data : LeadStatusUpdate.t) :
  int8 lead_id →
  let status := LeadStatusUpdate.status status_data in
  let result := run_request (update_lead_status env lead_id status_data) db in
  (leads db !! lead_id = None →
     result = (Raised (HTTPException 404 "Lead not found"), db))
  ∧ (∀ l, leads db !! lead_id = Some l → fits 20 status →
     result
     = (Returned (JObj [("success", JBool true); ("message", JStr "Status updated")]),
        mkTables (users db)
          (<[lead_id := Lead.mk (Lead.name l) (Lead.phone l) (Lead.email l)
                          (Lead.budget l) (Lead.source l) status (Lead.owner_id l)
                          (Lead.project_id l)
                          (if String.eqb status "BOOKED" then None
                           else Lead.next_followup l)
                          (Some (clock env 0))]> (leads db))
          (units db) (bookings db) (payment_schedules db))).
Proof.
  intros _. destruct db as [us ls un bs ps]. cbv zeta.
  cbn [users leads units bookings payment_schedules]. split.
  - intros Hl. run_handler. by rewrite Hl.
  - intros l Hl _. run_handler. rewrite Hl.
    destruct (String.eqb (LeadStatusUpdate.status status_data) "BOOKED");
      run_handler; rewrite !alter_alter_eq, (alter_present _ ls _ l Hl); reflexivity.
Qed.

Lemma update_lead_status_stores_any_status_witness :
  (int8 8 ∧ int8 7)
  ∧ (leads sample_db !! 8 = None
   ∧ run_request (update_lead_status (sample_env true) 8 (LeadStatusUpdate.mk "LOST"))
       sample_db
     = (Raised (HTTPException 404 "Lead not found"), sample_db))
  ∧ ((leads sample_db !! 7 = Some sample_lead ∧ fits 20 "Gone fishing")
     ∧ leads (snd (run_request
                     (update_lead_status (sample_env true) 7
                        (LeadStatusUpdate.mk "Gone fishing"))
                     sample_db)) !! 7
       = Some (Lead.mk "Sneha Patil" "9811111111" None (Some "80L") "Walk-in"
                 "Gone fishing" (Some 1) (Some 1) (Some 1700500000000000)
                 (Some 1700000000000000))).
Proof.
  assert (int8 8) as Hid8 by (unfold int8; lia).
  assert (int8 7) as Hid7 by (unfold int8; lia).
  pose proof (update_lead_status_stores_any_status (sample_env true) sample_db 8
                (LeadStatusUpdate.mk "LOST") Hid8) as (Hmissing & _).
  pose proof (update_lead_status_stores_any_status (sample_env true) sample_db 7
                (LeadStatusUpdate.mk "Gone fishing") Hid7) as (_ & Hstored).
  assert (fits 20 "Gone fishing") as Hfits by (unfold fits; cbn; lia).
  split; [by split |].
  split; [split; [reflexivity | exact (Hmissing eq_refl)] |].
  split; [split; [reflexivity | exact Hfits] |].
  cbv zeta in Hstored. rewrite (Hstored sample_lead eq_refl Hfits).
  cbn [snd leads]. by rewrite lookup_insert_eq.
Defined.

(** ** Creating leads *)

Lemma phone_taken_find (db : Tables) (phone : string) :
  phone_taken db phone
  ↔ is_Some (List.find (λ kv : Z * Lead.t, String.eqb (Lead.phone (snd kv)) phone)
               (map_to_list (leads db))).
Proof.
  split.
  - intros (k & l & Hk & Hphone). apply (find_table_is_Some _ _ k l Hk).
    cbn. by apply String.eqb_eq.
  - intros [[k l] Hfind]. apply find_table_Some in Hfind as [Hk Hphone].
    exists k, l. split; [done |]. by apply String.eqb_eq.
Qed.

(** X7. A lead whose phone number is already that of a stored lead is
    refused with status 400 and nothing is inserted. *)
Theorem create_lead_rejects_known_phone (env : Env) (db : Tables)
    (created_at : datetime) (lead : LeadCreate.t) :
  phone_taken db (LeadCreate.phone lead) →
  run_request (create_lead env created_at lead) db
  = (Raised (HTTPException 400 "Phone number already exists"), db).
Proof.
  intros [[k l] Hfind]%phone_taken_find. destruct db as [us ls un bs ps].
  cbn [leads] in Hfind. run_handler.
  change (λ kv : Z * Lead.t, (Lead.phone (let (_, y) := kv in y)
                              =? LeadCreate.phone lead)%string)
    with (λ kv : Z * Lead.t, (Lead.phone (snd kv) =? LeadCreate.phone lead)%string).
  by rewrite Hfind.
Qed.

Lemma create_lead_rejects_known_phone_witness :
  phone_taken sample_db "9811111111"
  ∧ run_request
      (create_lead (sample_env true) 1700000000000000
         (LeadCreate.mk "Someone Else" "9811111111" None None "Web" None None))
      sample_db
    = (Raised (HTTPException 400 "Phone number already exists"), sample_db).
Proof.
  assert (phone_taken sample_db "9811111111") as Htaken.
  { exists 7, sample_lead. split; reflexivity. }
  split; [exact Htaken |].
  exact (create_lead_rejects_known_phone (sample_env true) sample_db 1700000000000000
           (LeadCreate.mk "Someone Else" "9811111111" None None "Web" None None) Htaken).
Defined.

Lemma create_lead_run (env : Env) (db : Tables) (created_at : datetime)
    (lead : LeadCreate.t) :
  run_request (create_lead env created_at lead) db
  = match List.find (λ kv : Z * Lead.t,
                       String.eqb (Lead.phone (snd kv)) (LeadCreate.phone lead))
            (map_to_list (leads db)) with
    | Some _ => (Raised (HTTPException 400 "Phone number already exists"), db)
    | None =>
        if foreign_keys env
           && match LeadCreate.owner_id lead with
              | Some o => negb (has_key (users db) o)
              | None => false
              end
        then (Raised (IntegrityError
                        "insert on table leads violates a foreign key constraint"), db)
        else (Returned (lead_answer (next_id (leads db)) created_at lead),
              mkTables (users db) (<[next_id (leads db) := new_lead_row lead]> (leads db))
                (units db) (bookings db) (payment_schedules db))
    end.
Proof.
  destruct db as [us ls un bs ps]. cbn [users leads units bookings payment_schedules].
  run_handler.
  change (λ kv : Z * Lead.t, (Lead.phone (let (_, y) := kv in y)
                              =? LeadCreate.phone lead)%string)
    with (λ kv : Z * Lead.t, (Lead.phone (snd kv) =? LeadCreate.phone lead)%string).
  destruct (List.find _ (map_to_list ls)) as [[k l]|]; [reflexivity |].
  run_handler. cbn [Lead.owner_id].
  destruct (foreign_keys env && _); reflexivity.
Qed.

(** X8. A lead whose phone number is not yet stored, and whose data,
    owner id and new id fit the columns, is inserted under an id no lead
    has, with status NEW, no follow-up date and no last
    contact, and nothing else changes. An owner named in the request is
    stored as given: the owner's capacity is not checked and the owner's
    [active_leads_count] stays as it was. Only where foreign keys are
    checked and the owner id names no user, the insert fails with an
    IntegrityError that the handler does not catch, and nothing is
    stored. *)
Theorem create_lead_inserts_without_counting (env : Env) (db : Tables)
    (created_at : datetime) (lead : LeadCreate.t) :
  ¬ phone_taken db (LeadCreate.phone lead) →
  lead_fits lead → owner_fits lead → room_for_lead db →
  let new_id := next_id (leads db) in
  let result := run_request (create_lead env created_at lead) db in
  leads db !! new_id = None
  ∧ (lead_insert_accepted env db lead →
     result
     = (Returned (lead_answer new_id created_at lead),
        mkTables (users db) (<[new_id := new_lead_row lead]> (leads db))
          (units db) (bookings db) (payment_schedules db)))
  ∧ (¬ lead_insert_accepted env db lead →
     result
     = (Raised (IntegrityError "insert on table leads violates a foreign key constraint"),
        db)).
Proof.
  intros Hfree _ _ _. cbv zeta. rewrite create_lead_run.
  destruct (List.find _ (map_to_list (leads db))) as [p|] eqn:Hfind.
  { exfalso. apply Hfree, phone_taken_find. by rewrite Hfind. }
  split; [apply next_id_fresh |].
  unfold lead_insert_accepted, has_key.
  destruct (foreign_keys env); cbn [andb].
  - destruct (LeadCreate.owner_id lead) as [o|].
    + destruct (users db !! o) eqn:Ho; cbn [negb]; split; intros H; try done.
      * exfalso. apply H. right. eauto.
      * destruct H as [H|[? H]]; discriminate.
    + split; intros H; [done |]. exfalso. apply H. by right.
  - split; intros H; [done |]. exfalso. apply H. by left.
Qed.

Lemma create_lead_inserts_without_counting_witness :
  (¬ phone_taken staff_db (LeadCreate.phone walk_in) ∧ lead_fits walk_in
   ∧ owner_fits walk_in ∧ room_for_lead staff_db
   ∧ lead_insert_accepted (sample_env true) staff_db walk_in)
  ∧ run_request (create_lead (sample_env true) 1700000000000000 walk_in) staff_db
    = (Returned (lead_answer 8 1700000000000000 walk_in),
       mkTables (users staff_db) (<[8 := new_lead_row walk_in]> (leads staff_db))
         (units staff_db) (bookings staff_db) (payment_schedules staff_db)).
Proof.
  assert (¬ phone_taken staff_db (LeadCreate.phone walk_in)) as Hfree.
  { intros [[k l] Hfind]%phone_taken_find. vm_compute in Hfind. discriminate. }
  assert (lead_fits walk_in) as Hfits.
  { unfold lead_fits, fits_opt, fits, int4. cbn. lia. }
  assert (lead_insert_accepted (sample_env true) staff_db walk_in) as Hok.
  { right. cbn. by eexists. }
  assert (owner_fits walk_in) as Howner by (unfold owner_fits, int4; cbn; lia).
  assert (room_for_lead staff_db) as Hroom.
  { unfold room_for_lead.
    assert (next_id (leads staff_db) = 8) as -> by (vm_compute; reflexivity).
    unfold int4. lia. }
  split; [by split_and! |].
  destruct (create_lead_inserts_without_counting (sample_env true) staff_db
              1700000000000000 walk_in Hfree Hfits Howner Hroom) as (_ & Hrun & _).
  exact (Hrun Hok).
Defined.

(** X9. Two leads with the same phone number: once a lead (whose data fit
    the columns) has been created, a second request with the same phone
    number is refused with status 400 and stores nothing, whatever else
    it says. *)
Theorem second_lead_with_same_phone_is_refused (env1 env2 : Env) (db db1 : Tables)
    (t1 t2 : datetime) (lead1 lead2 : LeadCreate.t) (answer : json) :
  lead_fits lead1 →
  run_request (create_lead env1 t1 lead1) db = (Returned answer, db1) →
  LeadCreate.phone lead2 = LeadCreate.phone lead1 →
  run_request (create_lead env2 t2 lead2) db1
  = (Raised (HTTPException 400 "Phone number already exists"), db1).
Proof.
  intros _. rewrite create_lead_run. intros Hfirst Hphone.
  destruct (List.find _ (map_to_list (leads db))); [discriminate |].
  destruct (foreign_keys env1 && _); [discriminate |].
  injection Hfirst as _ <-. rewrite create_lead_run.
  assert (phone_taken
            (mkTables (users db) (<[next_id (leads db) := new_lead_row lead1]> (leads db))
               (units db) (bookings db) (payment_schedules db))
            (LeadCreate.phone lead2)) as [p Hp]%phone_taken_find.
  { exists (next_id (leads db)), (new_lead_row lead1).
    split; [apply lookup_insert_eq | by rewrite Hphone]. }
  by rewrite Hp.
Qed.

Lemma second_lead_with_same_phone_is_refused_witness :
  (lead_fits walk_in
   ∧ run_request (create_lead (sample_env true) 1700000000000000 walk_in) staff_db
   = (Returned (lead_answer 8 1700000000000000 walk_in),
      mkTables (users staff_db) (<[8 := new_lead_row walk_in]> (leads staff_db))
        (units staff_db) (bookings staff_db) (payment_schedules staff_db))
   ∧ LeadCreate.phone (LeadCreate.mk "A. Joshi" "9822222222" None None "Web" None None)
     = LeadCreate.phone walk_in)
  ∧ run_request
      (create_lead (sample_env false) 1700000000000009
         (LeadCreate.mk "A. Joshi" "9822222222" None None "Web" None None))
      (mkTables (users staff_db) (<[8 := new_lead_row walk_in]> (leads staff_db))
         (units staff_db) (bookings staff_db) (payment_schedules staff_db))
    = (Raised (HTTPException 400 "Phone number already exists"),
       mkTables (users staff_db) (<[8 := new_lead_row walk_in]> (leads staff_db))
         (units staff_db) (bookings staff_db) (payment_schedules staff_db)).
Proof.
  assert (run_request (create_lead (sample_env true) 1700000000000000 walk_in) staff_db
          = (Returned (lead_answer 8 1700000000000000 walk_in),
             mkTables (users staff_db) (<[8 := new_lead_row walk_in]> (leads staff_db))
               (units staff_db) (bookings staff_db) (payment_schedules staff_db)))
    as Hfirst by (vm_compute; reflexivity).
  assert (lead_fits walk_in) as Hfits.
  { unfold lead_fits, fits_opt, fits, int4. cbn. lia. }
  split; [split_and!; [exact Hfits | exact Hfirst | reflexivity] |].
  exact (second_lead_with_same_phone_is_refused (sample_env true) (sample_env false)
           _ _ _ 1700000000000009 walk_in
           (LeadCreate.mk "A. Joshi" "9822222222" None None "Web" None None)
           _ Hfits Hfirst eq_refl).
Defined.

(** ** Phone numbers of leads *)

Lemma other_requests_add_no_lead (env : Env) (db : Tables) (r : Request) :
  match r with
  | POST_leads _ _ => True
  | _ => no_new_keys (leads db) (leads (serve env r db))
  end.
Proof.
  destruct r; try exact I.
  all: try (unfold serve; cbn [handler_of]; rewrite create_booking_run;
            destruct (insert_accepted env db booking_data); cbn [snd];
            [unfold tables_after_booking; cbn [leads];
             repeat apply no_new_keys_alter |];
            apply no_new_keys_refl).
  all: destruct db as [us ls un bs ps]; run_handler; case_split.
  all: cbn [leads]; repeat apply no_new_keys_alter; apply no_new_keys_refl.
Qed.

Lemma serve_keeps_phones_unique (env : Env) (r : Request) (db : Tables) :
  phones_unique db → phones_unique (serve env r db).
Proof.
  intros Huniq.
  assert (∀ db', map_evolves lead_evolves (leads db) (leads db') →
                 no_new_keys (leads db) (leads db') → phones_unique db') as Hsame.
  { intros db' Hev Hnew k1 k2 l1' l2' Hk1 Hk2 Hphone.
    destruct (leads db !! k1) as [l1|] eqn:H1;
      [| rewrite (Hnew k1 H1) in Hk1; discriminate].
    destruct (leads db !! k2) as [l2|] eqn:H2;
      [| rewrite (Hnew k2 H2) in Hk2; discriminate].
    destruct (Hev k1 l1 H1) as (x1 & Hx1 & _ & Hp1 & _).
    destruct (Hev k2 l2 H2) as (x2 & Hx2 & _ & Hp2 & _).
    apply (Huniq k1 k2 l1 l2 H1 H2). congruence. }
  destruct (serve_evolves env r db) as (_ & _ & Hev & _).
  pose proof (other_requests_add_no_lead env db r) as Hnew.
  destruct r; try (by apply Hsame).
  unfold serve. cbn [handler_of]. rewrite create_lead_run.
  destruct (List.find _ (map_to_list (leads db))) as [p|] eqn:Hfind; [done |].
  destruct (foreign_keys env && _); [done |]. cbn [snd].
  intros k1 k2 l1 l2. cbn [leads]. intros Hk1 Hk2 Hphone.
  pose proof (next_id_fresh (leads db)) as Hfresh.
  destruct (decide (k1 = next_id (leads db))) as [->|Hne1];
    destruct (decide (k2 = next_id (leads db))) as [->|Hne2]; [done | | |].
  - rewrite lookup_insert_eq in Hk1. rewrite lookup_insert_ne in Hk2 by done.
    injection Hk1 as <-. pose proof (find_table_None _ _ Hfind k2 l2 Hk2) as Hno.
    cbn in Hno, Hphone. apply String.eqb_neq in Hno. congruence.
  - rewrite lookup_insert_eq in Hk2. rewrite lookup_insert_ne in Hk1 by done.
    injection Hk2 as <-. pose proof (find_table_None _ _ Hfind k1 l1 Hk1) as Hno.
    cbn in Hno, Hphone. apply String.eqb_neq in Hno. congruence.
  - rewrite lookup_insert_ne in Hk1, Hk2 by done. by eapply Huniq.
Qed.

(** X10. Phone numbers of leads stay unique: if no two leads share a phone
    number, no sequence of requests brings the database to a state where
    two leads do. (The leads table has no unique constraint on the phone;
    the check in [create_lead] is all there is, and no other request
    writes a phone number.) *)
Theorem phone_numbers_stay_unique (rs : list (Env * Request)) (db : Tables) :
  phones_unique db → phones_unique (serve_all rs db).
Proof.
  revert db. induction rs as [|[env r] rs IH]; intros db Huniq; [done |].
  cbn [serve_all]. apply IH. by apply serve_keeps_phones_unique.
Qed.

Lemma phone_numbers_stay_unique_witness :
  phones_unique sample_db
  ∧ phones_unique
      (serve_all
         ((sample_env true, POST_leads 1700000000000000 walk_in) :: sample_day)
         sample_db).
Proof.
  assert (phones_unique sample_db) as Huniq.
  { intros k1 k2 l1 l2 Hk1 Hk2 _. unfold sample_db in Hk1, Hk2. cbn [leads] in Hk1, Hk2.
    apply lookup_singleton_Some in Hk1 as [<- _].
    by apply lookup_singleton_Some in Hk2 as [<- _]. }
  split; [exact Huniq |].
  exact (phone_numbers_stay_unique _ sample_db Huniq).
Defined.

(** ** Logging in *)

Lemma credentials_match_spec (username password : string) (u : User.t) :
  credentials_match username password u = true ↔ may_log_in username password u.
Proof.
  unfold credentials_match, may_log_in.
  rewrite !andb_true_iff, orb_true_iff, !String.eqb_eq.
  assert (match User.email u with
          | Some e => String.eqb e username
          | None => false
          end = true ↔ User.email u = Some username) as ->.
  { destruct (User.email u) as [e|]; [| done].
    rewrite String.eqb_eq. split; congruence. }
  tauto.
Qed.

(** X11. Logging in never changes the database and succeeds exactly for
    active accounts: when some user has the given password, is active,
    and has the given name as phone number or as email, the answer is the
    fixed token "test-token-123" with the profile of such a user; when no
    user does, the request fails with status 401. An account that has
    been switched off cannot log in, even with the right password. *)
Theorem login_needs_an_active_account (db : Tables) (username password : string) :
  let result := run_request (login username password) db in
  snd result = db
  ∧ ((∃ k u, users db !! k = Some u ∧ may_log_in username password u) →
     ∃ k u, users db !! k = Some u ∧ may_log_in username password u
            ∧ fst result = Returned (login_answer k u))
  ∧ ((∀ k u, users db !! k = Some u → ¬ may_log_in username password u) →
     fst result = Raised (HTTPException 401 "Invalid credentials")).
Proof.
  destruct db as [us ls un bs ps]. cbv zeta. cbn [users]. run_handler.
  destruct (List.find _ (map_to_list us)) as [[k u]|] eqn:Hfind; run_handler.
  - apply find_table_Some in Hfind as [Hk Hmatch]. cbn in Hmatch.
    apply credentials_match_spec in Hmatch.
    split_and!; [done | |].
    + intros _. by exists k, u.
    + intros Hnone. by destruct (Hnone k u Hk).
  - split_and!; [done | | done].
    intros (k & u & Hk & Hmay). apply credentials_match_spec in Hmay.
    pose proof (find_table_None _ _ Hfind k u Hk) as Hno. cbn in Hno. congruence.
Qed.

Lemma login_needs_an_active_account_witness :
  ((∃ k u, users staff_db !! k = Some u ∧ may_log_in "admin@realty.com" "password" u)
   ∧ fst (run_request (login "admin@realty.com" "password") staff_db)
     = Returned (login_answer 1 admin))
  ∧ ((∀ k u, users staff_db !! k = Some u → ¬ may_log_in "9000000002" "hunter2" u)
     ∧ fst (run_request (login "9000000002" "hunter2") staff_db)
       = Raised (HTTPException 401 "Invalid credentials")).
Proof.
  pose proof (login_needs_an_active_account staff_db "admin@realty.com" "password")
    as (_ & Hin & _).
  pose proof (login_needs_an_active_account staff_db "9000000002" "hunter2")
    as (_ & _ & Hout).
  assert (∃ k u, users staff_db !! k = Some u
                 ∧ may_log_in "admin@realty.com" "password" u) as Hadmin.
  { exists 1, admin. split; [reflexivity |]. split_and!; [by right | done | done]. }
  assert (∀ k u, users staff_db !! k = Some u → ¬ may_log_in "9000000002" "hunter2" u)
    as Hgone.
  { intros k u Hk (Hname & Hpw & Hactive).
    destruct (decide (k = 1)) as [->|?]; [vm_compute in Hk; by injection Hk as <- |].
    destruct (decide (k = 2)) as [->|?]; [vm_compute in Hk; by injection Hk as <- |].
    destruct (decide (k = 3)) as [->|?]; [vm_compute in Hk; by injection Hk as <- |].
    unfold staff_db in Hk. cbn [users] in Hk.
    rewrite !lookup_insert_ne in Hk by done.
    by rewrite lookup_singleton_ne in Hk. }
  split.
  - split; [exact Hadmin |].
    destruct (Hin Hadmin) as (k & u & Hk & Hmay & _). reflexivity.
  - split; [exact Hgone | exact (Hout Hgone)].
Defined.

(** ** Handing a lead on *)

Lemma assign_lead_assigns (env : Env) (db : Tables) (lead_id : Z)
    (assign_data : AssignLeadRequest.t) (l : Lead.t) (u : User.t) :
  leads db !! lead_id = Some l →
  users db !! AssignLeadRequest.user_id assign_data = Some u →
  User.active_leads_count u < User.capacity u →
  serve env (POST_leads_assign lead_id assign_data) db
  = mkTables
      (<[AssignLeadRequest.user_id assign_data
         := User.set_active_leads_count (User.active_leads_count u + 1) u]> (users db))
      (<[lead_id := Lead.set_last_contact (Some (clock env 0))
                      (Lead.set_status "IN_PROGRESS"
                         (Lead.set_owner_id
                            (Some (AssignLeadRequest.user_id assign_data)) l))]>
         (leads db))
      (units db) (bookings db) (payment_schedules db).
Proof.
  destruct db as [us ls un bs ps]. cbn [users leads units bookings payment_schedules].
  intros Hl Hu Hcap. run_handler. rewrite Hl, Hu.
  destruct (Z.geb_spec (User.active_leads_count u) (User.capacity u)); [lia |].
  run_handler. rewrite (alter_present _ us _ u Hu).
  by rewrite !alter_alter_eq, (alter_present _ ls _ l Hl).
Qed.

(** X12. Assigning a lead looks neither at its current owner nor at
    whether it is already counted. When a lead assigned to one user is
    then assigned to another, the second becomes the owner and both keep
    it in their [active_leads_count]: the first user's count is not
    reduced. When it is assigned to the same user again, that user's count
    goes up a second time. *)
Theorem handing_a_lead_on_counts_it_twice (env1 env2 : Env) (db : Tables)
    (lead_id a : Z) (l : Lead.t) (ua : User.t) :
  leads db !! lead_id = Some l →
  users db !! a = Some ua →
  User.active_leads_count ua < User.capacity ua →
  let db1 := serve env1 (POST_leads_assign lead_id (AssignLeadRequest.mk a)) db in
  (∀ b ub, a ≠ b → users db !! b = Some ub →
           User.active_leads_count ub < User.capacity ub →
     let db2 := serve env2 (POST_leads_assign lead_id (AssignLeadRequest.mk b)) db1 in
     users db2 !! a
     = Some (User.set_active_leads_count (User.active_leads_count ua + 1) ua)
     ∧ users db2 !! b
       = Some (User.set_active_leads_count (User.active_leads_count ub + 1) ub)
     ∧ (Lead.owner_id <$> leads db2 !! lead_id) = Some (Some b))
  ∧ (User.active_leads_count ua + 1 < User.capacity ua →
     let db2 := serve env2 (POST_leads_assign lead_id (AssignLeadRequest.mk a)) db1 in
     users db2 !! a
     = Some (User.set_active_leads_count (User.active_leads_count ua + 2) ua)).
Proof.
  intros Hl Ha Hcap. cbv zeta.
  rewrite (assign_lead_assigns env1 db lead_id (AssignLeadRequest.mk a) l ua Hl Ha Hcap).
  cbn [AssignLeadRequest.user_id].
  set (l1 := Lead.set_last_contact _ _).
  set (ua1 := User.set_active_leads_count _ ua).
  set (db1 := mkTables _ _ _ _ _).
  assert (leads db1 !! lead_id = Some l1) as Hl1 by apply lookup_insert_eq.
  assert (users db1 !! a = Some ua1) as Ha1 by apply lookup_insert_eq.
  split.
  - intros b ub Hne Hb Hcapb.
    assert (users db1 !! b = Some ub) as Hb1
      by (subst db1; cbn [users]; by rewrite lookup_insert_ne).
    rewrite (assign_lead_assigns env2 db1 lead_id (AssignLeadRequest.mk b) l1 ub
               Hl1 Hb1 Hcapb).
    cbn [users leads AssignLeadRequest.user_id].
    rewrite lookup_insert_ne, !lookup_insert_eq by done. by rewrite Ha1.
  - intros Hcap2.
    assert (User.active_leads_count ua1 < User.capacity ua1) as Hcap1
      by (subst ua1; by destruct ua).
    rewrite (assign_lead_assigns env2 db1 lead_id (AssignLeadRequest.mk a) l1 ua1
               Hl1 Ha1 Hcap1).
    cbn [users AssignLeadRequest.user_id]. rewrite lookup_insert_eq.
    subst ua1. unfold User.set_active_leads_count. cbn. do 2 f_equal. lia.
Qed.

Lemma handing_a_lead_on_counts_it_twice_witness :
  (leads staff_db !! 7 = Some sample_lead ∧ users staff_db !! 1 = Some admin
   ∧ User.active_leads_count admin < User.capacity admin)
  ∧ (User.active_leads_count
       <$> users (serve (sample_env true) (POST_leads_assign 7 (AssignLeadRequest.mk 1))
                    (serve (sample_env true)
                       (POST_leads_assign 7 (AssignLeadRequest.mk 1)) staff_db)) !! 1)
    = Some 2.
Proof.
  assert (User.active_leads_count admin < User.capacity admin) as Hcap by (cbn; lia).
  split; [by split_and! |].
  destruct (handing_a_lead_on_counts_it_twice (sample_env true) (sample_env true)
              staff_db 7 1 sample_lead admin eq_refl eq_refl Hcap) as (_ & Htwice).
  cbv zeta in Htwice. rewrite Htwice by (cbn; lia). reflexivity.
Defined.

(** ** Booking a unit that is already taken *)

(** X13. Booking creation does not look at the unit's status: when the
    booking can be stored (its texts and ids fit the columns, its amounts
    are finite, the new ids fit) and is accepted and the unit exists, the
    unit
    ends Blocked and linked to the new booking whatever its status and
    link were before, so a unit already held by another booking is taken
    over. The new booking gets an id no booking had, and every earlier
    booking, the one that held the unit included, stays exactly as it
    was. *)
Theorem create_booking_takes_over_the_unit (env : Env) (db : Tables)
    (booking_data : BookingCreate.t) (u : Unit.t) :
  booking_fits booking_data → booking_storable booking_data →
  room_for_bookings 1 db →
  insert_accepted env db booking_data = true →
  units db !! BookingCreate.unit_id booking_data = Some u →
  let new_id := next_id (bookings db) in
  let db' := serve env (POST_booking booking_data) db in
  bookings db !! new_id = None
  ∧ units db' !! BookingCreate.unit_id booking_data
    = Some (Unit.mk (Unit.project_id u) (Unit.tower u) (Unit.floor u) (Unit.number u)
              "Blocked" (Unit.carpet_area u) (Unit.rate_per_sqft u) (Some new_id))
  ∧ (Booking.status <$> bookings db' !! new_id) = Some "PENDING"
  ∧ (∀ k b, bookings db !! k = Some b → bookings db' !! k = Some b).
Proof.
  intros _ _ _ Hok Hu. cbv zeta. unfold serve. cbn [handler_of].
  rewrite create_booking_run, Hok. cbn [snd]. unfold tables_after_booking.
  cbn [units bookings]. pose proof (next_id_fresh (bookings db)) as Hfresh.
  split_and!.
  - done.
  - by rewrite !lookup_alter_eq, Hu.
  - by rewrite lookup_insert_eq.
  - intros k b Hk. rewrite lookup_insert_ne; [done |]. congruence.
Qed.

Lemma create_booking_takes_over_the_unit_witness :
  (booking_fits (sample_request 7 3 8100000 None None)
   ∧ booking_storable (sample_request 7 3 8100000 None None)
   ∧ room_for_bookings 1 booked_db
   ∧ insert_accepted (sample_env true) booked_db (sample_request 7 3 8100000 None None)
   = true
   ∧ units booked_db !! 3
     = Some (Unit.mk 1 (Some "Wing A") (Some 1) "101" "Blocked" (Some 1000%float)
               (Some 6500%float) (Some 1)))
  ∧ (Unit.booking_id
       <$> units (serve (sample_env true)
                    (POST_booking (sample_request 7 3 8100000 None None)) booked_db)
           !! 3) = Some (Some 2)
  ∧ (Booking.status
       <$> bookings (serve (sample_env true)
                       (POST_booking (sample_request 7 3 8100000 None None)) booked_db)
           !! 1) = Some "PENDING".
Proof.
  assert (insert_accepted (sample_env true) booked_db
            (sample_request 7 3 8100000 None None) = true) as Hok
    by (vm_compute; reflexivity).
  assert (units booked_db !! 3
          = Some (Unit.mk 1 (Some "Wing A") (Some 1) "101" "Blocked" (Some 1000%float)
                    (Some 6500%float) (Some 1))) as Hu by (vm_compute; reflexivity).
  assert (bookings booked_db !! 1
          = Some (new_booking_row (sample_request 7 3 8000000 None None) None)) as Hb
    by (vm_compute; reflexivity).
  assert (next_id (bookings booked_db) = 2) as Hnext by (vm_compute; reflexivity).
  assert (booking_fits (sample_request 7 3 8100000 None None)) as Hfits.
  { unfold booking_fits, fits_opt, fits, int4. cbn. lia. }
  assert (booking_storable (sample_request 7 3 8100000 None None)) as Hstore.
  { unfold booking_storable, finite, finite_opt. cbn. by split_and!. }
  assert (room_for_bookings 1 booked_db) as Hroom.
  { unfold room_for_bookings. rewrite Hnext.
    assert (next_schedule_id (payment_schedules booked_db) = 6) as ->
      by (vm_compute; reflexivity).
    unfold int4. lia. }
  split; [by split_and! |].
  destruct (create_booking_takes_over_the_unit (sample_env true) booked_db
              (sample_request 7 3 8100000 None None) _ Hfits Hstore Hroom Hok Hu)
    as (_ & Hunit & _ & Hold).
  cbv zeta in Hunit, Hold. split.
  - change (BookingCreate.unit_id (sample_request 7 3 8100000 None None)) with 3
      in Hunit.
    rewrite Hunit, Hnext. reflexivity.
  - rewrite (Hold 1 _ Hb). reflexivity.
Defined.

(** ** Cancelled bookings *)

Lemma cancel_booking_run (env : Env) (db : Tables) (booking_id : Z) (b : Booking.t) :
  bookings db !! booking_id = Some b →
  run_request (cancel_booking env booking_id) db
  = (Returned (JObj [("success", JBool true); ("message", JStr "Booking cancelled")]),
     mkTables (users db)
       (alter (Lead.set_status "NEGOTIATION") (Booking.lead_id b) (leads db))
       (alter (Unit.set_booking_id None) (Booking.unit_id b)
          (alter (Unit.set_status "Available") (Booking.unit_id b) (units db)))
       (<[booking_id := Booking.set_status "CANCELLED" b]> (bookings db))
       (payment_schedules db)).
Proof.
  destruct db as [us ls un bs ps]. cbn [users leads units bookings payment_schedules].
  intros Hb. run_handler. rewrite Hb. rewrite (alter_present _ bs _ b Hb).
  destruct (un !! Booking.unit_id b) eqn:Hu; run_handler;
    destruct (ls !! Booking.lead_id b) eqn:Hl; run_handler;
    rewrite ?(alter_absent _ ls _ Hl);
    rewrite ?(alter_absent _ un _ Hu), ?(alter_absent _ un _ Hu); done.
Qed.

Lemma cancel_booking_missing (env : Env) (db : Tables) (booking_id : Z) :
  bookings db !! booking_id = None →
  run_request (cancel_booking env booking_id) db
  = (Raised (HTTPException 404 "Booking not found"), db).
Proof.
  destruct db as [us ls un bs ps]. cbn [bookings]. intros Hb. run_handler.
  by rewrite Hb.
Qed.

Lemma confirm_booking_refuses (env : Env) (db : Tables) (booking_id : Z) (b : Booking.t) :
  bookings db !! booking_id = Some b → Booking.status b ≠ "PENDING" →
  run_request (confirm_booking env booking_id) db
  = (Raised (HTTPException 400 "Booking is not in pending state"), db).
Proof.
  destruct db as [us ls un bs ps]. cbn [bookings]. intros Hb Hst. run_handler.
  rewrite Hb. by destruct (String.eqb_spec (Booking.status b) "PENDING").
Qed.

(** X14. A cancelled booking cannot be revived and cancelling is
    idempotent: after a booking has been cancelled, confirming it is
    refused with status 400 and changes nothing, and cancelling it again
    succeeds and leaves the database exactly as the first cancellation
    left it. Cancelling touches no schedule row: what was paid stays
    recorded as paid and what was pending stays pending. *)
Theorem cancelled_bookings_stay_cancelled (env1 env2 : Env) (db : Tables)
    (booking_id : Z) (b : Booking.t) :
  bookings db !! booking_id = Some b →
  let db1 := serve env1 (PATCH_booking_cancel booking_id) db in
  run_request (confirm_booking env2 booking_id) db1
  = (Raised (HTTPException 400 "Booking is not in pending state"), db1)
  ∧ run_request (cancel_booking env2 booking_id) db1
    = (Returned (JObj [("success", JBool true); ("message", JStr "Booking cancelled")]),
       db1)
  ∧ payment_schedules db1 = payment_schedules db.
Proof.
  intros Hb. cbv zeta. unfold serve. cbn [handler_of].
  rewrite (cancel_booking_run env1 db booking_id b Hb). cbn [snd].
  split_and!.
  - apply (confirm_booking_refuses _ _ _ (Booking.set_status "CANCELLED" b));
      [apply lookup_insert_eq | discriminate].
  - rewrite (cancel_booking_run env2 _ booking_id (Booking.set_status "CANCELLED" b))
      by apply lookup_insert_eq.
    cbn [users leads units bookings payment_schedules Booking.set_status
         Booking.lead_id Booking.unit_id].
    rewrite insert_insert_eq, !alter_alter_eq.
    reflexivity.
  - done.
Qed.

Lemma cancelled_bookings_stay_cancelled_witness :
  bookings confirmed_db !! 1
  = Some (Booking.set_status "CONFIRMED"
            (new_booking_row (sample_request 7 3 8000000 None None) None))
  ∧ fst (run_request (confirm_booking (sample_env true) 1)
           (serve (sample_env true) (PATCH_booking_cancel 1) confirmed_db))
    = Raised (HTTPException 400 "Booking is not in pending state").
Proof.
  assert (bookings confirmed_db !! 1
          = Some (Booking.set_status "CONFIRMED"
                    (new_booking_row (sample_request 7 3 8000000 None None) None)))
    as Hb by (vm_compute; reflexivity).
  split; [exact Hb |].
  destruct (cancelled_bookings_stay_cancelled (sample_env true) (sample_env true)
              confirmed_db 1 _ Hb) as (Hconfirm & _).
  cbv zeta in Hconfirm. by rewrite Hconfirm.
Defined.

(** ** Requests that fail, and requests that only read *)

Lemma create_booking_fails_clean (env : Env) (db : Tables)
    (booking_data : BookingCreate.t) (e : exn) :
  fst (run_request (create_booking env booking_data) db) = Raised e →
  snd (run_request (create_booking env booking_data) db) = db.
Proof.
  rewrite create_booking_run.
  by destruct (insert_accepted env db booking_data).
Qed.

Lemma create_lead_fails_clean (env : Env) (db : Tables) (created_at : datetime)
    (lead : LeadCreate.t) (e : exn) :
  fst (run_request (create_lead env created_at lead) db) = Raised e →
  snd (run_request (create_lead env created_at lead) db) = db.
Proof.
  rewrite create_lead_run.
  destruct (List.find _ (map_to_list (leads db))); [done |].
  by destruct (foreign_keys env && _).
Qed.

(** X15. A request that fails changes nothing: whenever a handler raises,
    whichever it is and for whatever reason (not found, refused, a date
    that does not parse, an insert the database rejects), the database is
    left exactly as it was before the request. No handler raises after it
    has committed. *)
Theorem failed_requests_change_nothing (env : Env) (r : Request) (db : Tables)
    (e : exn) :
  fst (run_request (handler_of env r) db) = Raised e → serve env r db = db.
Proof.
  unfold serve.
  destruct r; cbn [handler_of];
    eauto using create_booking_fails_clean, create_lead_fails_clean.
  all: destruct db as [us ls un bs ps]; run_handler; case_split.
  all: try done.
Qed.

Lemma failed_requests_change_nothing_witness :
  fst (run_request
         (handler_of (sample_env true)
            (POST_finance_payment (sample_payment "Allotment" None (Some "yesterday"))))
         booked_db)
  = Raised (HTTPException 500
              "Failed to record payment: Invalid isoformat string: 'yesterday'")
  ∧ serve (sample_env true)
      (POST_finance_payment (sample_payment "Allotment" None (Some "yesterday")))
      booked_db
    = booked_db.
Proof.
  assert (fst (run_request
                 (handler_of (sample_env true)
                    (POST_finance_payment
                       (sample_payment "Allotment" None (Some "yesterday"))))
                 booked_db)
          = Raised (HTTPException 500
                      "Failed to record payment: Invalid isoformat string: 'yesterday'"))
    as Hfails by (vm_compute; reflexivity).
  split; [exact Hfails |].
  exact (failed_requests_change_nothing _ _ _ _ Hfails).
Defined.

(** X16. The routes that only read leave the database as it is, whatever
    they answer: logging in, the current user, the list of users, the
    booking of a lead, the finance summary and the ledger status write
    nothing, not even a time stamp of the last login or access. *)
Theorem read_routes_write_nothing (env : Env) (r : Request) (db : Tables) :
  reads_only r = true → serve env r db = db.
Proof.
  destruct r; try discriminate; intros _.
  all: destruct db as [us ls un bs ps]; run_handler; case_split.
  all: try done.
Qed.

Lemma read_routes_write_nothing_witness :
  reads_only (GET_finance_ledger_status 1) = true
  ∧ serve (sample_env true) (GET_finance_ledger_status 1) settled_db = settled_db.
Proof.
  split; [reflexivity |].
  exact (read_routes_write_nothing (sample_env true) (GET_finance_ledger_status 1)
           settled_db eq_refl).
Defined.

(** ** Scanning the payment schedule *)

Lemma find_schedule_from (booking_id : Z) (milestone : string)
    (rows : list PaymentSchedule.t) (i pos : nat) (s : PaymentSchedule.t) :
  find_schedule booking_id milestone rows i = Some (pos, s) →
  (i ≤ pos)%nat ∧ rows !! (pos - i)%nat = Some s
  ∧ schedule_matches booking_id milestone s = true.
Proof.
  revert i. induction rows as [|r rows IH]; intros i; cbn [find_schedule]; [done |].
  destruct (schedule_matches booking_id milestone r) eqn:Hr.
  - intros [= <- <-]. by rewrite Nat.sub_diag.
  - intros Hfind. destruct (IH _ Hfind) as (Hle & Hlook & Hs).
    split_and!; [lia | | done].
    replace (pos - i)%nat with (S (pos - S i)) by lia. done.
Qed.

Lemma find_schedule_alter (booking_id : Z) (milestone : string)
    (f : PaymentSchedule.t → PaymentSchedule.t)
    (rows : list PaymentSchedule.t) (i pos : nat) (s : PaymentSchedule.t) :
  (∀ x, schedule_matches booking_id milestone (f x)
        = schedule_matches booking_id milestone x) →
  find_schedule booking_id milestone rows i = Some (pos, s) →
  find_schedule booking_id milestone (alter f (pos - i)%nat rows) i = Some (pos, f s).
Proof.
  intros Hf. revert i. induction rows as [|r rows IH]; intros i; cbn [find_schedule];
    [done |].
  destruct (schedule_matches booking_id milestone r) eqn:Hr.
  - intros [= <- <-]. rewrite Nat.sub_diag. cbn. by rewrite Hf, Hr.
  - intros Hfind. destruct (find_schedule_from _ _ _ _ _ _ Hfind) as (Hle & _).
    replace (pos - i)%nat with (S (pos - S i)) by lia. cbn. rewrite Hr. by apply IH.
Qed.

Lemma find_schedule_alter_0 (booking_id : Z) (milestone : string)
    (f : PaymentSchedule.t → PaymentSchedule.t)
    (rows : list PaymentSchedule.t) (pos : nat) (s : PaymentSchedule.t) :
  (∀ x, schedule_matches booking_id milestone (f x)
        = schedule_matches booking_id milestone x) →
  find_schedule booking_id milestone rows 0 = Some (pos, s) →
  find_schedule booking_id milestone (alter f pos rows) 0 = Some (pos, f s).
Proof.
  intros Hf Hfind. pose proof (find_schedule_alter _ _ f _ _ _ _ Hf Hfind) as H.
  by rewrite Nat.sub_0_r in H.
Qed.

Lemma find_schedule_app_None (booking_id : Z) (milestone : string)
    (rows more : list PaymentSchedule.t) (i : nat) :
  find_schedule booking_id milestone rows i = None →
  find_schedule booking_id milestone (rows ++ more) i
  = find_schedule booking_id milestone more (i + length rows).
Proof.
  revert i. induction rows as [|r rows IH]; intros i; cbn [find_schedule app length].
  - by rewrite Nat.add_0_r.
  - destruct (schedule_matches booking_id milestone r); [done |].
    intros Hfind. rewrite (IH _ Hfind). f_equal. lia.
Qed.

(** ** Paying a milestone twice *)

Lemma mark_payment_paid_refuses (env : Env) (db : Tables) (booking_id : Z)
    (milestone : string) (payment_ref : option string) (pos : nat)
    (s : PaymentSchedule.t) :
  find_schedule booking_id milestone (payment_schedules db) 0 = Some (pos, s) →
  PaymentSchedule.status s = "Paid" →
  run_request (mark_payment_paid env booking_id milestone payment_ref) db
  = (Raised (HTTPException 400 "Payment already marked as paid"), db).
Proof.
  destruct db as [us ls un bs ps]. cbn [payment_schedules]. intros Hfind Hpaid.
  run_handler. by rewrite Hfind, Hpaid.
Qed.

Lemma record_payment_leaves_paid (env : Env) (db db1 : Tables)
    (payment_data : PaymentRecord.t) (answer : json) :
  run_request (record_payment env payment_data) db = (Returned answer, db1) →
  ∃ pos s,
    find_schedule (PaymentRecord.booking_id payment_data)
      (PaymentRecord.milestone payment_data) (payment_schedules db1) 0 = Some (pos, s)
    ∧ PaymentSchedule.status s = "Paid".
Proof.
  destruct db as [us ls un bs ps], db1 as [us1 ls1 un1 bs1 ps1].
  cbn [payment_schedules]. run_handler. case_split.
  all: intros ?; simplify_eq.
  all: try (eexists _, _; split;
            [ repeat (apply find_schedule_alter_0; [by intros [] |]); eassumption
            | reflexivity ]).
  all: rewrite find_schedule_app_None by done; cbn [find_schedule length Nat.add].
  all: unfold schedule_matches;
    cbn [PaymentSchedule.booking_id PaymentSchedule.milestone];
    rewrite Z.eqb_refl, String.eqb_refl; by eexists _, _.
Qed.

Lemma mark_payment_leaves_paid (env : Env) (db db1 : Tables) (booking_id : Z)
    (milestone : string) (payment_ref : option string) (answer : json) :
  run_request (mark_payment_paid env booking_id milestone payment_ref) db
  = (Returned answer, db1) →
  ∃ pos s,
    find_schedule booking_id milestone (payment_schedules db1) 0 = Some (pos, s)
    ∧ PaymentSchedule.status s = "Paid".
Proof.
  destruct db as [us ls un bs ps], db1 as [us1 ls1 un1 bs1 ps1].
  cbn [payment_schedules]. run_handler. case_split.
  all: intros ?; simplify_eq.
  eexists _, _; split;
    [ repeat (apply find_schedule_alter_0; [by intros [] |]); eassumption
    | reflexivity ].
Qed.

(** X17. A milestone that has been paid cannot be marked paid again:
    after a request that marked it paid, or one that recorded a payment
    for it, has succeeded (its data fitting the columns), marking the
    same milestone of the same booking paid is refused with status 400
    and changes nothing, whatever reference it carries. As everywhere,
    [.first()] scans the rows in storage order. *)
Theorem paid_milestone_cannot_be_marked_paid_again (env1 env2 : Env) (db db1 : Tables)
    (booking_id : Z) (milestone : string) (payment_ref : option string)
    (answer : json) :
  (∃ first_ref,
     fits_opt 100 first_ref
     ∧ run_request (mark_payment_paid env1 booking_id milestone first_ref) db
       = (Returned answer, db1))
  ∨ (∃ payment_data,
       payment_fits payment_data
       ∧ PaymentRecord.booking_id payment_data = booking_id
       ∧ PaymentRecord.milestone payment_data = milestone
       ∧ run_request (record_payment env1 payment_data) db = (Returned answer, db1)) →
  run_request (mark_payment_paid env2 booking_id milestone payment_ref) db1
  = (Raised (HTTPException 400 "Payment already marked as paid"), db1).
Proof.
  intros [(first_ref & _ & Hrun)|(payment_data & _ & <- & <- & Hrun)].
  - destruct (mark_payment_leaves_paid _ _ _ _ _ _ _ Hrun) as (pos & s & Hfind & Hpaid).
    by eapply mark_payment_paid_refuses.
  - destruct (record_payment_leaves_paid _ _ _ _ _ Hrun) as (pos & s & Hfind & Hpaid).
    by eapply mark_payment_paid_refuses.
Qed.

Lemma paid_milestone_cannot_be_marked_paid_again_witness :
  (payment_fits (sample_payment "Brokerage" None None)
   ∧ run_request (record_payment (sample_env true) (sample_payment "Brokerage" None None))
       booked_db
     = (Returned (payment_answer (sample_payment "Brokerage" None None)),
        serve (sample_env true)
          (POST_finance_payment (sample_payment "Brokerage" None None)) booked_db))
  ∧ fst (run_request (mark_payment_paid (sample_env true) 1 "Brokerage" (Some "UPI-7"))
           (serve (sample_env true)
              (POST_finance_payment (sample_payment "Brokerage" None None)) booked_db))
    = Raised (HTTPException 400 "Payment already marked as paid").
Proof.
  assert (run_request
            (record_payment (sample_env true) (sample_payment "Brokerage" None None))
            booked_db
          = (Returned (payment_answer (sample_payment "Brokerage" None None)),
             serve (sample_env true)
               (POST_finance_payment (sample_payment "Brokerage" None None)) booked_db))
    as Hrun by (vm_compute; reflexivity).
  assert (payment_fits (sample_payment "Brokerage" None None)) as Hfits.
  { unfold payment_fits, fits_opt, fits, int4. cbn. lia. }
  split; [by split |].
  rewrite (paid_milestone_cannot_be_marked_paid_again (sample_env true) (sample_env true)
             booked_db _ 1 "Brokerage" (Some "UPI-7") _
             (or_intror (ex_intro _ (sample_payment "Brokerage" None None)
                           (conj Hfits (conj eq_refl (conj eq_refl Hrun)))))).
  reflexivity.
Defined.

(** ** Recording a payment twice *)

Lemma paid_row_matches (booking_id : Z) (milestone : string)
    (payment_data : PaymentRecord.t) (paid_on : datetime) (s : PaymentSchedule.t) :
  schedule_matches booking_id milestone (paid_row payment_data paid_on s)
  = schedule_matches booking_id milestone s.
Proof. unfold paid_row. by destruct (truthy_float _), s. Qed.

Lemma record_payment_on_match (env : Env) (db : Tables) (payment_data : PaymentRecord.t)
    (pos : nat) (s : PaymentSchedule.t) (paid_on : datetime) :
  find_schedule (PaymentRecord.booking_id payment_data)
    (PaymentRecord.milestone payment_data) (payment_schedules db) 0 = Some (pos, s) →
  stamped_date env (PaymentRecord.payment_date payment_data) = Some paid_on →
  run_request (record_payment env payment_data) db
  = (Returned (payment_answer payment_data),
     mkTables (users db) (leads db) (units db) (bookings db)
       (alter (paid_row payment_data paid_on) pos (payment_schedules db))).
Proof.
  destruct db as [us ls un bs ps].
  cbn [users leads units bookings payment_schedules]. unfold stamped_date, paid_row.
  intros Hfind Hdate. run_handler. rewrite Hfind.
  destruct (truthy_str (PaymentRecord.payment_date payment_data)); run_handler.
  - rewrite Hdate. run_handler.
    destruct (truthy_float (PaymentRecord.amount payment_data)); run_handler;
      cbn [flush_schedules]; by rewrite !list_alter_alter_eq.
  - injection Hdate as <-.
    destruct (truthy_float (PaymentRecord.amount payment_data)); run_handler;
      cbn [flush_schedules]; by rewrite !list_alter_alter_eq.
Qed.

Lemma record_payment_on_match_length (env : Env) (db : Tables)
    (payment_data : PaymentRecord.t) (pos : nat) (s : PaymentSchedule.t) :
  find_schedule (PaymentRecord.booking_id payment_data)
    (PaymentRecord.milestone payment_data) (payment_schedules db) 0 = Some (pos, s) →
  length (payment_schedules (snd (run_request (record_payment env payment_data) db)))
  = length (payment_schedules db).
Proof.
  destruct db as [us ls un bs ps]. cbn [payment_schedules]. intros Hfind.
  run_handler. rewrite Hfind. case_split.
  all: by rewrite ?length_alter.
Qed.

(** X18. Recording a payment for a milestone that already has a recorded
    payment is not refused and adds no row: the second request (both
    fitting the columns and carrying amounts that can be stored) leaves
    the number of schedule rows as it is, and when its date can be read it
    succeeds and overwrites the row of the first payment, whose reference
    and date are replaced by those of the second. *)
Theorem recording_again_overwrites_the_payment (env1 env2 : Env) (db db1 : Tables)
    (first again : PaymentRecord.t) (answer : json) :
  payment_fits first → payment_fits again →
  payment_storable first → payment_storable again →
  run_request (record_payment env1 first) db = (Returned answer, db1) →
  PaymentRecord.booking_id again = PaymentRecord.booking_id first →
  PaymentRecord.milestone again = PaymentRecord.milestone first →
  let result := run_request (record_payment env2 again) db1 in
  length (payment_schedules (snd result)) = length (payment_schedules db1)
  ∧ (∀ paid_on, stamped_date env2 (PaymentRecord.payment_date again) = Some paid_on →
     fst result = Returned (payment_answer again)
     ∧ ∃ pos s,
         find_schedule (PaymentRecord.booking_id first) (PaymentRecord.milestone first)
           (payment_schedules (snd result)) 0 = Some (pos, s)
         ∧ PaymentSchedule.status s = "Paid"
         ∧ PaymentSchedule.payment_ref s = PaymentRecord.payment_ref again
         ∧ PaymentSchedule.payment_date s = Some paid_on).
Proof.
  intros _ _ _ _ Hrun Hb Hm. cbv zeta.
  destruct (record_payment_leaves_paid _ _ _ _ _ Hrun) as (pos & s & Hfind & _).
  rewrite <- Hb, <- Hm in Hfind |- *. split.
  - by eapply record_payment_on_match_length.
  - intros paid_on Hdate.
    rewrite (record_payment_on_match _ _ _ _ _ _ Hfind Hdate). cbn [fst snd].
    split; [done |]. exists pos, (paid_row again paid_on s). cbn [payment_schedules].
    split; [apply find_schedule_alter_0; [apply paid_row_matches | done] |].
    unfold paid_row. by destruct (truthy_float _).
Qed.

Lemma recording_again_overwrites_the_payment_witness :
  (payment_fits (sample_payment "Brokerage" None None)
   ∧ payment_fits (PaymentRecord.mk 1 "Brokerage" (Some 250000%float) (Some "UPI-9")
                     None "Bank Loan")
   ∧ payment_storable (sample_payment "Brokerage" None None)
   ∧ payment_storable (PaymentRecord.mk 1 "Brokerage" (Some 250000%float) (Some "UPI-9")
                         None "Bank Loan")
   ∧ run_request (record_payment (sample_env true) (sample_payment "Brokerage" None None))
       booked_db
     = (Returned (payment_answer (sample_payment "Brokerage" None None)),
        serve (sample_env true)
          (POST_finance_payment (sample_payment "Brokerage" None None)) booked_db)
   ∧ stamped_date (sample_env false) None = Some 1700000000000000)
  ∧ length (payment_schedules
              (snd (run_request
                      (record_payment (sample_env false)
                         (PaymentRecord.mk 1 "Brokerage" (Some 250000%float)
                            (Some "UPI-9") None "Bank Loan"))
                      (serve (sample_env true)
                         (POST_finance_payment (sample_payment "Brokerage" None None))
                         booked_db))))
    = 6%nat
  ∧ fst (run_request
           (record_payment (sample_env false)
              (PaymentRecord.mk 1 "Brokerage" (Some 250000%float) (Some "UPI-9")
                 None "Bank Loan"))
           (serve (sample_env true)
              (POST_finance_payment (sample_payment "Brokerage" None None)) booked_db))
    = Returned (payment_answer
                  (PaymentRecord.mk 1 "Brokerage" (Some 250000%float) (Some "UPI-9")
                     None "Bank Loan"))
  ∧ ∃ pos s,
      find_schedule 1 "Brokerage"
        (payment_schedules
           (snd (run_request
                   (record_payment (sample_env false)
                      (PaymentRecord.mk 1 "Brokerage" (Some 250000%float)
                         (Some "UPI-9") None "Bank Loan"))
                   (serve (sample_env true)
                      (POST_finance_payment (sample_payment "Brokerage" None None))
                      booked_db)))) 0 = Some (pos, s)
      ∧ PaymentSchedule.status s = "Paid"
      ∧ PaymentSchedule.payment_ref s = Some "UPI-9"
      ∧ PaymentSchedule.payment_date s = Some 1700000000000000.
Proof.
  set (first := sample_payment "Brokerage" None None).
  set (again := PaymentRecord.mk 1 "Brokerage" (Some 250000%float) (Some "UPI-9")
                  None "Bank Loan").
  assert (run_request (record_payment (sample_env true) first) booked_db
          = (Returned (payment_answer first),
             serve (sample_env true) (POST_finance_payment first) booked_db))
    as Hrun by (vm_compute; reflexivity).
  assert (length (payment_schedules
                    (serve (sample_env true) (POST_finance_payment first) booked_db))
          = 6%nat) as Hlen by (vm_compute; reflexivity).
  assert (payment_fits first) as Hfits1.
  { unfold payment_fits, fits_opt, fits, int4. cbn. lia. }
  assert (payment_fits again) as Hfits2.
  { unfold payment_fits, fits_opt, fits, int4. cbn. lia. }
  assert (payment_storable first) as Hstore1 by done.
  assert (payment_storable again) as Hstore2 by reflexivity.
  assert (stamped_date (sample_env false) None = Some 1700000000000000) as Hdate
    by reflexivity.
  split; [by split_and! |].
  destruct (recording_again_overwrites_the_payment (sample_env true) (sample_env false)
              booked_db _ first again _ Hfits1 Hfits2 Hstore1 Hstore2 Hrun
              eq_refl eq_refl) as (Hsame & Hover).
  cbv zeta in Hsame, Hover.
  destruct (Hover _ Hdate) as (Hanswer & pos & s & Hfind & Hpaid & Href & Hwhen).
  split; [by rewrite Hsame |]. split; [exact Hanswer |].
  exists pos, s. by split_and!.
Defined.

(** ** Listing users *)

Lemma user_entry_id (k1 k2 : Z) (u1 u2 : User.t) :
  user_entry k1 u1 = user_entry k2 u2 → k1 = k2.
Proof. by intros [= ->]. Qed.

(** X19. The list of users has one entry for every active user and
    nothing else: an entry is listed exactly when it is the entry of a
    stored user whose account is active, and no entry is listed twice. A
    user who has reached capacity is listed like any other. *)
Theorem get_users_lists_the_active_users (db : Tables) :
  ∃ items,
    run_request get_users db = (Returned (JList items), db)
    ∧ NoDup items
    ∧ ∀ item, item ∈ items
              ↔ ∃ k u, users db !! k = Some u ∧ User.is_active u = true
                       ∧ item = user_entry k u.
Proof.
  destruct db as [us ls un bs ps]. cbn [users]. run_handler.
  eexists. split; [reflexivity |]. split.
  - apply NoDup_fmap_2_strong.
    + intros [k1 u1] [k2 u2] H1 H2 Heq.
      apply list_elem_of_In, filter_In in H1 as [H1 _].
      apply list_elem_of_In, filter_In in H2 as [H2 _].
      apply list_elem_of_In, elem_of_map_to_list in H1.
      apply list_elem_of_In, elem_of_map_to_list in H2.
      apply (user_entry_id k1 k2 u1 u2) in Heq as ->. congruence.
    + apply NoDup_ListNoDup, List.NoDup_filter, NoDup_ListNoDup, NoDup_map_to_list.
  - intros item. rewrite list_elem_of_fmap. split.
    + intros ([k u] & -> & Hin). apply list_elem_of_In, filter_In in Hin as [Hin Hact].
      apply list_elem_of_In, elem_of_map_to_list in Hin. by exists k, u.
    + intros (k & u & Hk & Hact & ->). exists (k, u). split; [done |].
      apply list_elem_of_In, filter_In. split; [| done].
      by apply list_elem_of_In, elem_of_map_to_list.
Qed.

(** ** The booking of a lead *)

(** X20. Looking up the booking of a lead does not fail and does not look
    at the booking's status, for a lead id within 64 bits and stored
    bookings whose amounts and charges are finite numbers: when some
    booking names the lead, the answer is the details of a booking that
    names it, cancelled or not; when none does, the answer is the empty
    object, with status 200 like any other answer, not a 404. *)
Theorem get_booking_by_lead_finds_a_booking (db : Tables) (lead_id : Z) :
  int8 lead_id →
  (∀ k b, bookings db !! k = Some b → booking_presentable b) →
  let result := run_request (get_booking_by_lead lead_id) db in
  ((∃ k b, bookings db !! k = Some b ∧ Booking.lead_id b = lead_id) →
   ∃ k b, bookings db !! k = Some b ∧ Booking.lead_id b = lead_id
          ∧ result = (Returned (booking_details k b), db))
  ∧ ((∀ k b, bookings db !! k = Some b → Booking.lead_id b ≠ lead_id) →
     result = (Returned (JObj []), db)).
Proof.
  intros _ _. destruct db as [us ls un bs ps]. cbv zeta. cbn [bookings]. run_handler.
  destruct (List.find _ (map_to_list bs)) as [[k b]|] eqn:Hfind; run_handler.
  - apply find_table_Some in Hfind as [Hk Hlead]. cbn in Hlead.
    apply Z.eqb_eq in Hlead. split.
    + intros _. by exists k, b.
    + intros Hnone. by destruct (Hnone k b Hk).
  - split; [| done].
    intros (k & b & Hk & Hlead).
    pose proof (find_table_None _ _ Hfind k b Hk) as Hno. cbn in Hno.
    apply Z.eqb_neq in Hno. done.
Qed.

Lemma get_booking_by_lead_finds_a_booking_witness :
  (int8 7
   ∧ ∀ k b, bookings (serve (sample_env true) (PATCH_booking_cancel 1) booked_db) !! k
            = Some b → booking_presentable b)
  ∧ (∃ k b, bookings (serve (sample_env true) (PATCH_booking_cancel 1) booked_db) !! k
          = Some b ∧ Booking.lead_id b = 7)
  ∧ (∃ k b,
       Booking.status b = "CANCELLED"
       ∧ fst (run_request (get_booking_by_lead 7)
                (serve (sample_env true) (PATCH_booking_cancel 1) booked_db))
         = Returned (booking_details k b)).
Proof.
  assert (bookings (serve (sample_env true) (PATCH_booking_cancel 1) booked_db) !! 1
          = Some (Booking.set_status "CANCELLED"
                    (new_booking_row (sample_request 7 3 8000000 None None) None)))
    as Hb by (vm_compute; reflexivity).
  assert (∀ k b, bookings (serve (sample_env true) (PATCH_booking_cancel 1) booked_db)
                   !! k = Some b
                 → Booking.status b = "CANCELLED" ∧ booking_presentable b) as Honly.
  { intros k b Hk. destruct (decide (k = 1)) as [->|Hne].
    - rewrite Hb in Hk. injection Hk as <-. split; [done |].
      unfold booking_presentable, finite, finite_opt. cbn. by split_and!.
    - exfalso. revert Hk. unfold serve. cbn [handler_of].
      assert (bookings booked_db !! 1
              = Some (new_booking_row (sample_request 7 3 8000000 None None) None))
        as Hb1 by (vm_compute; reflexivity).
      rewrite (cancel_booking_run _ _ _ _ Hb1). cbn [snd bookings].
      rewrite lookup_insert_ne by done.
      unfold booked_db. rewrite create_booking_run.
      assert (insert_accepted (sample_env true) sample_db
                (sample_request 7 3 8000000 None None) = true) as ->
        by (vm_compute; reflexivity).
      cbn [snd]. unfold tables_after_booking. cbn [bookings].
      assert (next_id (bookings sample_db) = 1) as -> by (vm_compute; reflexivity).
      rewrite lookup_insert_ne by done. unfold sample_db. cbn [bookings].
      by rewrite lookup_empty. }
  assert (∃ k b, bookings (serve (sample_env true) (PATCH_booking_cancel 1) booked_db)
                   !! k = Some b ∧ Booking.lead_id b = 7) as Hsome.
  { eexists 1, _. split; [exact Hb | reflexivity]. }
  assert (int8 7) as Hid by (unfold int8; lia).
  assert (∀ k b, bookings (serve (sample_env true) (PATCH_booking_cancel 1) booked_db)
                   !! k = Some b → booking_presentable b) as Hfinite
    by (intros k b Hk; by destruct (Honly k b Hk)).
  split; [by split |]. split; [exact Hsome |].
  destruct (get_booking_by_lead_finds_a_booking
              (serve (sample_env true) (PATCH_booking_cancel 1) booked_db) 7
              Hid Hfinite) as (Hfound & _).
  destruct (Hfound Hsome) as (k & b & Hk & _ & Hrun).
  exists k, b. split; [by destruct (Honly k b Hk) |]. cbv zeta in Hrun. by rewrite Hrun.
Defined.

(** ** Booking a unit twice *)

Lemma has_key_alter {A : Type} (f : A → A) (m : gmap Z A) (k j : Z) :
  has_key (alter f k m) j = has_key m j.
Proof.
  unfold has_key. destruct (decide (k = j)) as [->|Hne].
  - rewrite lookup_alter_eq. by destruct (m !! j).
  - by rewrite lookup_alter_ne.
Qed.

Lemma insert_accepted_after_booking (env env' : Env) (db : Tables)
    (booking_data other : BookingCreate.t) :
  insert_accepted env db booking_data
  = insert_accepted env (tables_after_booking env' other db) booking_data.
Proof.
  unfold insert_accepted, tables_after_booking. cbn [leads users].
  by rewrite !has_key_alter.
Qed.

(** X21. Two bookings of one unit, both of which can be stored (texts and
    ids fit the columns, amounts are finite, the new ids fit) and are
    accepted: the second booking takes the unit over, and when the first
    booking is then cancelled the unit is set Available with no booking
    linked to it although the second booking is still PENDING. Cancelling
    frees the unit of the booking without looking at which booking the
    unit is linked to. *)
Theorem cancelling_the_first_booking_frees_a_rebooked_unit (env1 env2 env3 : Env)
    (db : Tables) (first second : BookingCreate.t) (u : Unit.t) :
  booking_fits first → booking_fits second →
  booking_storable first → booking_storable second →
  room_for_bookings 2 db →
  insert_accepted env1 db first = true →
  insert_accepted env2 db second = true →
  BookingCreate.unit_id second = BookingCreate.unit_id first →
  units db !! BookingCreate.unit_id first = Some u →
  let first_id := next_id (bookings db) in
  let db2 := serve env2 (POST_booking second) (serve env1 (POST_booking first) db) in
  let db3 := serve env3 (PATCH_booking_cancel first_id) db2 in
  ∃ second_id,
    second_id ≠ first_id
    ∧ (Unit.booking_id <$> units db2 !! BookingCreate.unit_id first)
      = Some (Some second_id)
    ∧ (Booking.status <$> bookings db3 !! second_id) = Some "PENDING"
    ∧ units db3 !! BookingCreate.unit_id first
      = Some (Unit.mk (Unit.project_id u) (Unit.tower u) (Unit.floor u) (Unit.number u)
                "Available" (Unit.carpet_area u) (Unit.rate_per_sqft u) None).
Proof.
  intros _ _ _ _ _ Hok1 Hok2 Hunit Hu. cbv zeta. unfold serve. cbn [handler_of].
  rewrite (create_booking_run env1 db first), Hok1. cbn [snd].
  rewrite (create_booking_run env2 _ second),
    <- (insert_accepted_after_booking env2 env1 db second first), Hok2. cbn [snd].
  set (db1 := tables_after_booking env1 first db).
  set (row1 := new_booking_row first (fst (booking_payment_date env1 first))).
  assert (bookings db1 !! next_id (bookings db) = Some row1) as Hfirst
    by apply lookup_insert_eq.
  assert (next_id (bookings db1) ≠ next_id (bookings db)) as Hne.
  { intros Heq. pose proof (next_id_fresh (bookings db1)) as Hfresh.
    rewrite Heq, Hfirst in Hfresh. discriminate. }
  assert (units db1 !! BookingCreate.unit_id first
          = Some (Unit.set_booking_id (Some (next_id (bookings db)))
                    (Unit.set_status "Blocked" u))) as Hu1.
  { subst db1. unfold tables_after_booking. cbn [units].
    by rewrite !lookup_alter_eq, Hu. }
  set (db2 := tables_after_booking env2 second db1).
  assert (bookings db2 !! next_id (bookings db) = Some row1) as Hfirst2.
  { subst db2. unfold tables_after_booking. cbn [bookings].
    by rewrite lookup_insert_ne. }
  assert (bookings db2 !! next_id (bookings db1)
          = Some (new_booking_row second (fst (booking_payment_date env2 second))))
    as Hsecond by apply lookup_insert_eq.
  assert (units db2 !! BookingCreate.unit_id first
          = Some (Unit.set_booking_id (Some (next_id (bookings db1)))
                    (Unit.set_status "Blocked"
                       (Unit.set_booking_id (Some (next_id (bookings db)))
                          (Unit.set_status "Blocked" u))))) as Hu2.
  { subst db2. unfold tables_after_booking. cbn [units].
    by rewrite Hunit, !lookup_alter_eq, Hu1. }
  exists (next_id (bookings db1)). split; [done |].
  rewrite (cancel_booking_run env3 db2 _ row1 Hfirst2). cbn [snd units bookings].
  change (Booking.unit_id row1) with (BookingCreate.unit_id first).
  rewrite !lookup_alter_eq, Hu2, lookup_insert_ne, Hsecond by done.
  done.
Qed.

Lemma cancelling_the_first_booking_frees_a_rebooked_unit_witness :
  (booking_fits (sample_request 7 3 8000000 None None)
   ∧ booking_fits (sample_request 7 3 8100000 None None)
   ∧ booking_storable (sample_request 7 3 8000000 None None)
   ∧ booking_storable (sample_request 7 3 8100000 None None)
   ∧ room_for_bookings 2 sample_db
   ∧ insert_accepted (sample_env true) sample_db (sample_request 7 3 8000000 None None)
   = true
   ∧ insert_accepted (sample_env true) sample_db (sample_request 7 3 8100000 None None)
     = true
   ∧ BookingCreate.unit_id (sample_request 7 3 8100000 None None)
     = BookingCreate.unit_id (sample_request 7 3 8000000 None None)
   ∧ units sample_db !! 3 = Some sample_unit)
  ∧ (Unit.status
       <$> units (serve (sample_env true) (PATCH_booking_cancel 1)
                    (serve (sample_env true)
                       (POST_booking (sample_request 7 3 8100000 None None))
                       (serve (sample_env true)
                          (POST_booking (sample_request 7 3 8000000 None None))
                          sample_db))) !! 3)
    = Some "Available".
Proof.
  assert (insert_accepted (sample_env true) sample_db
            (sample_request 7 3 8000000 None None) = true) as Hok1
    by (vm_compute; reflexivity).
  assert (insert_accepted (sample_env true) sample_db
            (sample_request 7 3 8100000 None None) = true) as Hok2
    by (vm_compute; reflexivity).
  assert (units sample_db !! 3 = Some sample_unit) as Hu by reflexivity.
  assert (next_id (bookings sample_db) = 1) as Hnext by (vm_compute; reflexivity).
  assert (booking_fits (sample_request 7 3 8000000 None None)) as Hfits1.
  { unfold booking_fits, fits_opt, fits, int4. cbn. lia. }
  assert (booking_fits (sample_request 7 3 8100000 None None)) as Hfits2.
  { unfold booking_fits, fits_opt, fits, int4. cbn. lia. }
  assert (booking_storable (sample_request 7 3 8000000 None None)) as Hstore1.
  { unfold booking_storable, finite, finite_opt. cbn. by split_and!. }
  assert (booking_storable (sample_request 7 3 8100000 None None)) as Hstore2.
  { unfold booking_storable, finite, finite_opt. cbn. by split_and!. }
  assert (room_for_bookings 2 sample_db) as Hroom.
  { unfold room_for_bookings. rewrite Hnext.
    assert (next_schedule_id (payment_schedules sample_db) = 1) as ->
      by (vm_compute; reflexivity).
    unfold int4. lia. }
  split; [by split_and! |].
  destruct (cancelling_the_first_booking_frees_a_rebooked_unit
              (sample_env true) (sample_env true) (sample_env true) sample_db
              (sample_request 7 3 8000000 None None)
              (sample_request 7 3 8100000 None None) sample_unit
              Hfits1 Hfits2 Hstore1 Hstore2 Hroom Hok1 Hok2 eq_refl Hu) as (second_id & _ & _ & _ & Hfree).
  cbv zeta in Hfree. rewrite Hnext in Hfree.
  change (BookingCreate.unit_id (sample_request 7 3 8000000 None None)) with 3 in Hfree.
  by rewrite Hfree.
Defined.
